(** * Gift Circle: rounds, room snapshot, claim gating, enjoyment route and
      commitment derivation

    A shallow embedding of the TypeScript sources

    - [src/lib/room-round.ts]
    - [src/app/rooms/[code]/room-status-data.ts]
    - [src/app/rooms/[code]/connections/page.tsx] ([canStartClaim])
    - [src/app/api/rooms/[code]/enjoyment/route.ts] ([POST])
    - [src/server/export-summary.ts] ([collectMemberCommitments],
      [collectAllCommitments])

    Conventions.  A JavaScript [Date] is the integer number of milliseconds
    since the epoch ([Date.prototype.getTime]); an ISO string produced by
    [toISOString] is represented by the instant it denotes, since
    [new Date(d.toISOString()).getTime() = d.getTime()] for every valid date.
    A JavaScript string is a [string], one character per code unit, and its
    [length] is [String.length].  [T | null] is [option T].  A JavaScript
    [Map] is a [gmap].  Counts are integers; the one quotient of counts is a
    double. *)

From Stdlib Require Import ZArith List String Ascii Sorted Permutation Lia.
From Stdlib Require Import PrimFloat Uint63.
From stdpp Require Import base option numbers list gmap strings.

Local Open Scope string_scope.
Local Open Scope Z_scope.
Local Open Scope list_scope.

(** ** JavaScript library functions used by the sources *)

Module JS.

(** [Array.prototype.indexOf]: position of the first element strictly equal
    to [x], or [-1]. *)
Fixpoint indexOf_from {A} `{EqDecision A} (x : A) (l : list A) (i : Z) : Z :=
  match l with
  | [] => -1
  | y :: l' => if decide (y = x) then i else indexOf_from x l' (i + 1)
  end.

Definition indexOf {A} `{EqDecision A} (l : list A) (x : A) : Z :=
  indexOf_from x l 0.

(** [Array.prototype.sort(cmp)].  The sort is stable (ECMAScript 2019), and
    for a comparator that orders the elements of the array consistently
    every stable sort returns the same array; it is modelled by insertion
    sort, where [a] is placed in front of the first [b] with
    [cmp a b <= 0]. *)
Section Sort.
Context {A : Type} (cmp : A -> A -> Z).

Fixpoint insert (a : A) (l : list A) : list A :=
  match l with
  | [] => [a]
  | b :: l' => if Z.leb (cmp a b) 0 then a :: b :: l' else b :: insert a l'
  end.

Definition sort (l : list A) : list A := foldr insert [] l.
End Sort.

(** White space and line terminators stripped by [String.prototype.trim],
    for the code units that fit the 8-bit characters of [string]:
    TAB, LF, VT, FF, CR, SP and NBSP. *)
Definition isWhiteSpace (c : ascii) : bool :=
  let n := nat_of_ascii c in
  ((9 <=? n)%nat && (n <=? 13)%nat) || (n =? 32)%nat || (n =? 160)%nat.

Fixpoint trimStart (s : string) : string :=
  match s with
  | String c s' => if isWhiteSpace c then trimStart s' else s
  | EmptyString => EmptyString
  end.

Fixpoint trimEnd (s : string) : string :=
  match s with
  | String c s' =>
      match trimEnd s' with
      | EmptyString => if isWhiteSpace c then EmptyString else String c EmptyString
      | t => String c t
      end
  | EmptyString => EmptyString
  end.

Definition trim (s : string) : string := trimEnd (trimStart s).

(** Truthiness of a [string | null | undefined] value. *)
Definition truthy (s : option string) : bool :=
  match s with
  | Some s => negb (String.eqb s "")
  | None => false
  end.

(** JavaScript numbers are IEEE 754 doubles.  Counts are kept as integers;
    where the code divides two counts, [number] turns each (an array length,
    which a double holds exactly) into the double and [divide] is the division
    of doubles, with its rounding. *)
Definition number (n : Z) : float := PrimFloat.of_uint63 (Uint63.of_Z n).

Definition divide (a b : Z) : float := PrimFloat.div (number a) (number b).

End JS.

(** ** Prisma enumerations *)

Inductive RoomRound : Set :=
WAITING | OFFERS | DESIRES | CONNECTIONS | DECISIONS | SUMMARY.

Inductive MembershipRole : Set := HOST | PARTICIPANT.

Module ItemStatus.
Inductive t : Set := OPEN | FULFILLED | WITHDRAWN.
End ItemStatus.

Module ClaimStatus.
Inductive t : Set := PENDING | ACCEPTED | DECLINED | WITHDRAWN.
End ClaimStatus.

#[global] Instance RoomRound_eq_dec : EqDecision RoomRound.
Proof. solve_decision. Defined.
#[global] Instance MembershipRole_eq_dec : EqDecision MembershipRole.
Proof. solve_decision. Defined.
#[global] Instance ItemStatus_eq_dec : EqDecision ItemStatus.t.
Proof. solve_decision. Defined.
#[global] Instance ClaimStatus_eq_dec : EqDecision ClaimStatus.t.
Proof. solve_decision. Defined.

(** ** [src/lib/room-round.ts] *)

Definition ROOM_ROUND_SEQUENCE : list RoomRound :=
[WAITING; OFFERS; DESIRES; CONNECTIONS; DECISIONS; SUMMARY].

Module RoomRoundInfo.
Record t := mk {
  key : RoomRound;
  title : string;
  description : string;
  guidance : string
}.
End RoomRoundInfo.

Definition ROUND_INFO (round : RoomRound) : RoomRoundInfo.t :=
match round with
| WAITING =>
    RoomRoundInfo.mk WAITING "Waiting Room"
      "The host is getting everyone settled before the session begins."
      ""
| OFFERS =>
    RoomRoundInfo.mk OFFERS "Offers"
      "Participants share what they would like to offer to the circle."
      "Add what you want to offer to others."
| DESIRES =>
    RoomRoundInfo.mk DESIRES "Desires"
      "Participants share what support or items they would like to receive."
      "Add what you desire to receive from others."
| CONNECTIONS =>
    RoomRoundInfo.mk CONNECTIONS "Bids"
      "Participants place bids to receive offers or to fulfill desires from others."
      "Review others' offers and desires and place bids."
| DECISIONS =>
    RoomRoundInfo.mk DECISIONS "Decisions"
      "Participants review incoming bids and decide which to accept or decline."
      "Review your pending bids and make decisions."
| SUMMARY =>
    RoomRoundInfo.mk SUMMARY "Summary"
      "Review the gift circle results and share what you enjoyed."
      "See a summary of the gift circle."
end.

Definition getNextRound (current : RoomRound) : option RoomRound :=
let index := JS.indexOf ROOM_ROUND_SEQUENCE current in
if bool_decide (index = -1)
   || bool_decide (index = Z.of_nat (length ROOM_ROUND_SEQUENCE) - 1)
then None
else ROOM_ROUND_SEQUENCE !! Z.to_nat (index + 1).

Definition canAdvanceRound (current : RoomRound) : bool :=
bool_decide (getNextRound current ≠ None).

Definition getRoundInfo (round : RoomRound) : RoomRoundInfo.t := ROUND_INFO round.

Definition getAdvanceLabel (nextRound : option RoomRound) : string :=
match nextRound with
| None => "Final round reached"
| Some r => ("Advance to " ++ RoomRoundInfo.title (ROUND_INFO r))%string
end.

Definition isRoundOrderValid (current next : RoomRound) : bool :=
let currentIndex := JS.indexOf ROOM_ROUND_SEQUENCE current in
let nextIndex := JS.indexOf ROOM_ROUND_SEQUENCE next in
bool_decide (nextIndex = currentIndex + 1).

(** ** Persisted rows

    The rows of the Prisma models, with the fields that the sources read and
    that the fixtures of the [buildSnapshot] unit tests construct. *)

Module User.
Record t := mk {
  id : string;
  createdAt : Z;
  updatedAt : Z;
  displayName : option string
}.
End User.

Module RoomMembership.
Record t := mk {
  id : string;
  roomId : string;
  userId : string;
  role : MembershipRole;
  nickname : option string;
  enjoyment : option string;
  readyForRound : option RoomRound;
  createdAt : Z;
  updatedAt : Z
}.
End RoomMembership.

(** [Offer] and [Desire] rows have the same shape. *)
Module Item.
Record t := mk {
  id : string;
  roomId : string;
  authorMembershipId : string;
  title : string;
  details : option string;
  status : ItemStatus.t;
  createdAt : Z;
  updatedAt : Z
}.
End Item.

Module Claim.
Record t := mk {
  id : string;
  roomId : string;
  claimerMembershipId : string;
  offerId : option string;
  desireId : option string;
  status : ClaimStatus.t;
  note : option string;
  createdAt : Z;
  updatedAt : Z
}.
End Claim.

Module Room.
Record t := mk {
  id : string;
  code : string;
  title : option string;
  expiresAt : option Z;
  hostId : string;
  currentRound : RoomRound;
  createdAt : Z;
  updatedAt : Z
}.
End Room.

(** [RoomMembership & { user: User }], the payload of
  [include: { user: true }]. *)
Module MembershipWithUser.
Record t := mk {
  row : RoomMembership.t;
  user : User.t
}.
Definition id (m : t) : string := RoomMembership.id (row m).
End MembershipWithUser.

(** ** The snapshot sent to clients ([RoomSnapshot] and its parts) *)

Module RoomMember.
Record t := mk {
  membershipId : string;
  userId : string;
  displayName : option string;
  nickname : option string;
  role : MembershipRole;
  joinedAt : Z;
  isActive : bool;
  enjoyment : option string;
  readyForRound : option RoomRound
}.
End RoomMember.

(** [OfferSummary] and [DesireSummary]. *)
Module ItemSummary.
Record t := mk {
  id : string;
  roomId : string;
  authorMembershipId : string;
  title : string;
  details : option string;
  status : ItemStatus.t;
  updatedAt : Z
}.
End ItemSummary.

Module ClaimSummary.
Record t := mk {
  id : string;
  roomId : string;
  claimerMembershipId : string;
  offerId : option string;
  desireId : option string;
  status : ClaimStatus.t;
  note : option string;
  createdAt : Z;
  updatedAt : Z
}.
End ClaimSummary.

Module RoundState.
Record t := mk {
  round : RoomRound;
  title : string;
  description : string;
  guidance : string;
  isActive : bool;
  isComplete : bool
}.
End RoundState.

Module RoomSnapshot.
Record t := mk {
  id : string;
  code : string;
  title : option string;
  hostId : string;
  hostName : string;
  currentRound : RoomRound;
  nextRound : option RoomRound;
  canAdvance : bool;
  rounds : list RoundState.t;
  members : list RoomMember.t;
  updatedAt : Z;
  offers : list ItemSummary.t;
  desires : list ItemSummary.t;
  claims : list ClaimSummary.t
}.
End RoomSnapshot.

(** ** [src/app/rooms/[code]/room-status-data.ts] *)

Module RoomStatusData.

(** The argument of [buildSnapshot]: a room with its relations loaded. *)
Record RoomInput := mkRoomInput {
  room : Room.t;
  host : User.t;
  memberships : list MembershipWithUser.t;
  offers : list Item.t;
  desires : list Item.t;
  claims : list Claim.t
}.

(** An entry of the map returned by [listActiveMemberships]. *)
Record ActiveMembership := mkActiveMembership {
  membershipId : string;
  connectedAt : Z
}.

Definition compareMembers (a b : RoomMember.t) : Z :=
  if decide (RoomMember.role a = HOST) then -1
  else if decide (RoomMember.role b = HOST) then 1
  else RoomMember.joinedAt a - RoomMember.joinedAt b.

Definition sortMembers (members : list RoomMember.t) : list RoomMember.t :=
  JS.sort compareMembers members.

Definition compareCreatedAt {A} (createdAt : A -> Z) (a b : A) : Z :=
  createdAt a - createdAt b.

Section Snapshot.
(** [toOfferSummary] and [toDesireSummary] are imported from
    [@/lib/room-items], [toClaimSummary] from [@/lib/room-claims] and
    [listActiveMemberships] from [@/server/realtime]; the snapshot builder is
    parametric in them. *)
Variable toOfferSummary : Item.t -> ItemSummary.t.
Variable toDesireSummary : Item.t -> ItemSummary.t.
Variable toClaimSummary : Claim.t -> ClaimSummary.t.
Variable listActiveMemberships : string -> gmap string ActiveMembership.

Definition mapOffers (offers : list Item.t) : list ItemSummary.t :=
    map toOfferSummary (JS.sort (compareCreatedAt Item.createdAt) offers).

Definition mapDesires (desires : list Item.t) : list ItemSummary.t :=
    map toDesireSummary (JS.sort (compareCreatedAt Item.createdAt) desires).

Definition mapClaims (claims : list Claim.t) : list ClaimSummary.t :=
    map toClaimSummary (JS.sort (compareCreatedAt Claim.createdAt) claims).

Definition toMember (activeMemberships : gmap string ActiveMembership)
      (membership : MembershipWithUser.t) : RoomMember.t :=
    let m := MembershipWithUser.row membership in
    {| RoomMember.membershipId := RoomMembership.id m;
       RoomMember.userId := RoomMembership.userId m;
       RoomMember.displayName := User.displayName (MembershipWithUser.user membership);
       RoomMember.nickname := RoomMembership.nickname m;
       RoomMember.role := RoomMembership.role m;
       RoomMember.joinedAt := RoomMembership.createdAt m;
       RoomMember.isActive := bool_decide (is_Some (activeMemberships !! RoomMembership.id m));
       RoomMember.enjoyment := RoomMembership.enjoyment m;
       RoomMember.readyForRound := RoomMembership.readyForRound m |}.

Definition roundState (currentRoundIndex : Z) (index : nat) (round : RoomRound)
      : RoundState.t :=
    let info := getRoundInfo round in
    {| RoundState.round := round;
       RoundState.title := RoomRoundInfo.title info;
       RoundState.description := RoomRoundInfo.description info;
       RoundState.guidance := RoomRoundInfo.guidance info;
       RoundState.isActive := bool_decide (Z.of_nat index = currentRoundIndex);
       RoundState.isComplete := bool_decide (Z.of_nat index < currentRoundIndex) |}.

Definition buildSnapshot (input : RoomInput) : RoomSnapshot.t :=
    let r := room input in
    let activeMemberships := listActiveMemberships (Room.id r) in
    let members := sortMembers (map (toMember activeMemberships) (memberships input)) in
    let hostName := default "Host" (User.displayName (host input)) in
    let currentRoundIndex :=
      Z.max (JS.indexOf ROOM_ROUND_SEQUENCE (Room.currentRound r)) 0 in
    {| RoomSnapshot.id := Room.id r;
       RoomSnapshot.code := Room.code r;
       RoomSnapshot.title := Room.title r;
       RoomSnapshot.hostId := Room.hostId r;
       RoomSnapshot.hostName := hostName;
       RoomSnapshot.currentRound := Room.currentRound r;
       RoomSnapshot.nextRound := getNextRound (Room.currentRound r);
       RoomSnapshot.canAdvance := canAdvanceRound (Room.currentRound r);
       RoomSnapshot.rounds := imap (roundState currentRoundIndex) ROOM_ROUND_SEQUENCE;
       RoomSnapshot.members := members;
       RoomSnapshot.updatedAt := Room.updatedAt r;
       RoomSnapshot.offers := mapOffers (offers input);
       RoomSnapshot.desires := mapDesires (desires input);
       RoomSnapshot.claims := mapClaims (claims input) |}.
End Snapshot.

End RoomStatusData.


(** ["offer" | "desire"]: the kind of a claim target and of a commitment. *)
Module ItemKind.
Inductive t : Set := offer | desire.
End ItemKind.

#[global] Instance ItemKind_eq_dec : EqDecision ItemKind.t.
Proof. solve_decision. Defined.

(** ** [src/app/rooms/[code]/connections/page.tsx] *)

Module Connections.

(** The value returned by [canStartClaim]. *)
Record ClaimGate := mkClaimGate {
  allowed : bool;
  reason : option string
}.

Definition compareUpdatedAt (a b : ClaimSummary.t) : Z :=
  ClaimSummary.updatedAt a - ClaimSummary.updatedAt b.

(** [membershipId] comes from [useRoom()]; it is [null] for a viewer who has
    not joined the room. *)
Definition myClaimerClaims (membershipId : option string)
    (roomClaims : list ClaimSummary.t) : list ClaimSummary.t :=
  if negb (JS.truthy membershipId) then []
  else
    JS.sort compareUpdatedAt
      (List.filter
         (fun claim => bool_decide (Some (ClaimSummary.claimerMembershipId claim) = membershipId))
         roomClaims).

Definition isPendingOn (kind : ItemKind.t) (entity : ItemSummary.t)
    (c : ClaimSummary.t) : bool :=
  bool_decide (ClaimSummary.status c = ClaimStatus.PENDING)
  && ((bool_decide (kind = ItemKind.offer)
       && bool_decide (ClaimSummary.offerId c = Some (ItemSummary.id entity)))
      || (bool_decide (kind = ItemKind.desire)
          && bool_decide (ClaimSummary.desireId c = Some (ItemSummary.id entity)))).

Definition canStartClaim (membershipId : option string)
    (roomClaims : list ClaimSummary.t)
    (entity : ItemSummary.t) (kind : ItemKind.t) : ClaimGate :=
  if negb (JS.truthy membershipId) then
    {| allowed := false; reason := Some "Join the room to place bids." |}
  else if bool_decide (Some (ItemSummary.authorMembershipId entity) = membershipId) then
    {| allowed := false; reason := Some "You cannot request your own entry." |}
  else if bool_decide (ItemSummary.status entity ≠ ItemStatus.OPEN) then
    {| allowed := false; reason := Some "This entry is closed to new bids." |}
  else
    let hasPendingRequest :=
      existsb (isPendingOn kind entity) (myClaimerClaims membershipId roomClaims) in
    if hasPendingRequest then
      {| allowed := false; reason := Some "You already have a pending bid here." |}
    else {| allowed := true; reason := None |}.

End Connections.

(** ** [src/app/api/rooms/[code]/enjoyment/route.ts] *)

Module EnjoymentRoute.

(** The tables the handler queries, and the presence updates it has emitted
    through [emitPresenceUpdate]. *)
Record PresenceUpdate := mkPresenceUpdate {
  pu_roomId : string;
  pu_reason : string
}.

Record World := mkWorld {
  rooms : list Room.t;
  memberships : list RoomMembership.t;
  presenceUpdates : list PresenceUpdate
}.

(** The outcome of [request.json()], as far as [body.enjoyment?.trim()]
    tells bodies apart.  The annotation [{ enjoyment?: string }] is not
    checked at run time, so the body can be any JSON value:
    - [InvalidJson]: [request.json()] throws;
    - [JsonNull]: the body is [null], and reading [body.enjoyment] throws a
      [TypeError];
    - [WithoutEnjoyment]: any other value whose [enjoyment] property is
      [undefined] or [null] (an object without the field or with
      [enjoyment: null], a number, a string, a boolean, an array), for which
      [?.] gives [undefined];
    - [EnjoymentText text]: an object whose [enjoyment] is the string [text];
    - [EnjoymentNotText]: an object whose [enjoyment] is a number, a boolean,
      an array or an object; it has no [trim] method and the call throws a
      [TypeError]. *)
Inductive Body :=
| InvalidJson
| JsonNull
| WithoutEnjoyment
| EnjoymentText (text : string)
| EnjoymentNotText.

(** A request: the [code] route parameter, the id of the user that
    [resolveIdentity] returns for the identity cookie, and the body.  The
    identity cookie written back on the response is left out. *)
Record Request := mkRequest {
  code : string;
  identityUserId : string;
  body : Body
}.

Inductive ResponseBody :=
| ErrorBody (error : string)
| SuccessBody.

Record Response := mkResponse {
  payload : ResponseBody;
  status : Z
}.

(** What a call of the handler ends in: the response it returns, or the
    [TypeError] that leaves it (the two [TypeError]s above are thrown outside
    the [try] block). *)
Inductive Result :=
| Responds (response : Response)
| Throws.

(** [prisma.room.findUnique({ where: { code } })] *)
Definition room_findUnique (w : World) (roomCode : string) : option Room.t :=
  List.find (fun r => bool_decide (Room.code r = roomCode)) (rooms w).

(** [prisma.roomMembership.findUnique({ where: { roomId_userId } })] *)
Definition roomMembership_findUnique (w : World) (roomId userId : string)
    : option RoomMembership.t :=
  List.find
    (fun m => bool_decide (RoomMembership.roomId m = roomId)
              && bool_decide (RoomMembership.userId m = userId))
    (memberships w).

Definition setEnjoyment (enjoyment : string) (m : RoomMembership.t) : RoomMembership.t :=
  {| RoomMembership.id := RoomMembership.id m;
     RoomMembership.roomId := RoomMembership.roomId m;
     RoomMembership.userId := RoomMembership.userId m;
     RoomMembership.role := RoomMembership.role m;
     RoomMembership.nickname := RoomMembership.nickname m;
     RoomMembership.enjoyment := Some enjoyment;
     RoomMembership.readyForRound := RoomMembership.readyForRound m;
     RoomMembership.createdAt := RoomMembership.createdAt m;
     RoomMembership.updatedAt := RoomMembership.updatedAt m |}.

(** [prisma.roomMembership.update({ where: { id }, data: { enjoyment } })] *)
Definition roomMembership_update (w : World) (id enjoyment : string) : World :=
  {| rooms := rooms w;
     memberships :=
       map (fun m => if bool_decide (RoomMembership.id m = id)
                     then setEnjoyment enjoyment m else m)
           (memberships w);
     presenceUpdates := presenceUpdates w |}.

Definition emitPresenceUpdate (w : World) (u : PresenceUpdate) : World :=
  {| rooms := rooms w;
     memberships := memberships w;
     presenceUpdates := presenceUpdates w ++ [u] |}.

Definition json (error : string) (status : Z) : Result :=
  Responds {| payload := ErrorBody error; status := status |}.

Section Handler.
(** [isValidRoomCode] and [normalizeRoomCode] are imported from
    [@/lib/room-code]; the handler is parametric in them. *)
Variable isValidRoomCode : string -> bool.
Variable normalizeRoomCode : string -> string.

Definition POST (request : Request) (w : World) : Result * World :=
  if negb (JS.truthy (Some (code request))) || negb (isValidRoomCode (code request)) then
    (json "Invalid room code" 400, w)
  else
    let roomCode := normalizeRoomCode (code request) in
    match room_findUnique w roomCode with
    | None => (json "Room not found" 404, w)
    | Some room =>
        if bool_decide (Room.currentRound room ≠ DECISIONS)
           && bool_decide (Room.currentRound room ≠ SUMMARY)
        then
          (json "Enjoyment can only be shared during the Decisions or Summary round" 409, w)
        else
          match roomMembership_findUnique w (Room.id room) (identityUserId request) with
          | None => (json "Not a member of this room" 403, w)
          | Some membership =>
              match body request with
              | InvalidJson => (json "Invalid request body" 400, w)
              | JsonNull => (Throws, w)
              | EnjoymentNotText => (Throws, w)
              | WithoutEnjoyment => (json "Enjoyment is required" 400, w)
              | EnjoymentText text =>
                  let enjoyment := JS.trim text in
                  if negb (JS.truthy (Some enjoyment)) then
                    (json "Enjoyment is required" 400, w)
                  else if Z.of_nat (String.length enjoyment) >? 2000 then
                    (json "Enjoyment must be 2000 characters or less" 400, w)
                  else
                    let w1 := roomMembership_update w (RoomMembership.id membership) enjoyment in
                    let w2 := emitPresenceUpdate w1
                                {| pu_roomId := Room.id room; pu_reason := "updated" |} in
                    (Responds {| payload := SuccessBody; status := 200 |}, w2)
              end
          end
    end.
End Handler.

End EnjoymentRoute.

(** ** [src/server/export-summary.ts] *)

Module ExportSummary.

(** Payloads of the [include] clauses: an offer or desire with its author,
    and a claim with its offer, desire and claimer. *)
Module ItemWithAuthor.
Record t := mk {
  row : Item.t;
  author : MembershipWithUser.t
}.
End ItemWithAuthor.

Module ClaimWithRelations.
Record t := mk {
  row : Claim.t;
  offer : option ItemWithAuthor.t;
  desire : option ItemWithAuthor.t;
  claimer : MembershipWithUser.t
}.
Definition id (c : t) : string := Claim.id (row c).
End ClaimWithRelations.

(** The database as the Prisma client presents it: every table is the list
    of its rows in the order the store returns them, each row with the
    relations the queries below [include] already attached ([null] where an
    optional relation has no row). *)
Record Db := mkDb {
  rooms : list Room.t;
  memberships : list MembershipWithUser.t;
  offers : list Item.t;
  desires : list Item.t;
  claims : list ClaimWithRelations.t
}.

(** Computations that talk to the database: explicit state passing. *)
Definition DbM (A : Type) : Type := Db -> A * Db.

#[global] Instance DbM_ret : MRet DbM := fun A a db => (a, db).

#[global] Instance DbM_bind : MBind DbM :=
  fun A B k m db => let (a, db') := m db in k a db'.

(** [orderBy: { key: "asc" }]; rows with equal keys keep the order of the
    table. *)
Definition orderByAsc {A} (key : A -> Z) (rows : list A) : list A :=
  JS.sort (fun a b => key a - key b) rows.

(** The relation filter [{ rel: { authorMembershipId: membershipId } }]. *)
Definition authoredBy (membershipId : string) (rel : option ItemWithAuthor.t) : bool :=
  match rel with
  | Some item =>
      bool_decide (Item.authorMembershipId (ItemWithAuthor.row item) = membershipId)
  | None => false
  end.

(** The [where] clause of the query in [collectMemberCommitments]. *)
Definition memberWhere (roomId membershipId : string) (c : ClaimWithRelations.t) : bool :=
  let row := ClaimWithRelations.row c in
  bool_decide (Claim.roomId row = roomId)
  && bool_decide (Claim.status row = ClaimStatus.ACCEPTED)
  && (bool_decide (Claim.claimerMembershipId row = membershipId)
      || authoredBy membershipId (ClaimWithRelations.offer c)
      || authoredBy membershipId (ClaimWithRelations.desire c)).

(** [db.claim.findMany({ where, include, orderBy: { updatedAt: "asc" } })] *)
Definition claim_findMany (where_ : ClaimWithRelations.t -> bool)
    : DbM (list ClaimWithRelations.t) :=
  fun db =>
    (orderByAsc (fun c => Claim.updatedAt (ClaimWithRelations.row c))
       (List.filter where_ (claims db)),
     db).

Module Role.
Inductive t : Set := giving | receiving.
End Role.

Module MemberCommitmentEntry.
Record t := mk {
  claimId : string;
  itemType : ItemKind.t;
  itemTitle : string;
  itemDetails : option string;
  role : Role.t;
  counterpartName : string;
  note : option string;
  updatedAt : Z
}.
End MemberCommitmentEntry.

Module MemberCommitments.
Record t := mk {
  giving : list MemberCommitmentEntry.t;
  receiving : list MemberCommitmentEntry.t
}.
End MemberCommitments.

Definition formatMemberDisplayName (member : MembershipWithUser.t) : string :=
  let nickname := JS.trim <$> RoomMembership.nickname (MembershipWithUser.row member) in
  if JS.truthy nickname then default "" nickname
  else
    let name := JS.trim <$> User.displayName (MembershipWithUser.user member) in
    if JS.truthy name then default "" name
    else if decide (RoomMembership.role (MembershipWithUser.row member) = HOST)
         then "Host" else "Participant".

Definition pushGivingEntry (target : list MemberCommitmentEntry.t)
    (claim : ClaimWithRelations.t) (itemType : ItemKind.t) (itemTitle : string)
    (itemDetails : option string) (counterpartName : string)
    : list MemberCommitmentEntry.t :=
  target ++
  [ {| MemberCommitmentEntry.claimId := ClaimWithRelations.id claim;
       MemberCommitmentEntry.itemType := itemType;
       MemberCommitmentEntry.itemTitle := itemTitle;
       MemberCommitmentEntry.itemDetails := itemDetails;
       MemberCommitmentEntry.role := Role.giving;
       MemberCommitmentEntry.counterpartName := counterpartName;
       MemberCommitmentEntry.note := Claim.note (ClaimWithRelations.row claim);
       MemberCommitmentEntry.updatedAt := Claim.updatedAt (ClaimWithRelations.row claim) |} ].

Definition pushReceivingEntry (target : list MemberCommitmentEntry.t)
    (claim : ClaimWithRelations.t) (itemType : ItemKind.t) (itemTitle : string)
    (itemDetails : option string) (counterpartName : string)
    : list MemberCommitmentEntry.t :=
  target ++
  [ {| MemberCommitmentEntry.claimId := ClaimWithRelations.id claim;
       MemberCommitmentEntry.itemType := itemType;
       MemberCommitmentEntry.itemTitle := itemTitle;
       MemberCommitmentEntry.itemDetails := itemDetails;
       MemberCommitmentEntry.role := Role.receiving;
       MemberCommitmentEntry.counterpartName := counterpartName;
       MemberCommitmentEntry.note := Claim.note (ClaimWithRelations.row claim);
       MemberCommitmentEntry.updatedAt := Claim.updatedAt (ClaimWithRelations.row claim) |} ].

(** The [if (claim.offer) { ... }] block of the loop in
    [collectMemberCommitments]. *)
Definition memberOfferStep (membershipId : string) (claim : ClaimWithRelations.t)
    (commitments : MemberCommitments.t) : MemberCommitments.t :=
  match ClaimWithRelations.offer claim with
  | Some offer =>
      let author := ItemWithAuthor.author offer in
      let claimer := ClaimWithRelations.claimer claim in
      let title := Item.title (ItemWithAuthor.row offer) in
      let details := Item.details (ItemWithAuthor.row offer) in
      let c1 :=
        if bool_decide (MembershipWithUser.id author = membershipId) then
          {| MemberCommitments.giving :=
               pushGivingEntry (MemberCommitments.giving commitments) claim
                 ItemKind.offer title details (formatMemberDisplayName claimer);
             MemberCommitments.receiving := MemberCommitments.receiving commitments |}
        else commitments in
      if bool_decide (MembershipWithUser.id claimer = membershipId) then
        {| MemberCommitments.giving := MemberCommitments.giving c1;
           MemberCommitments.receiving :=
             pushReceivingEntry (MemberCommitments.receiving c1) claim
               ItemKind.offer title details (formatMemberDisplayName author) |}
      else c1
  | None => commitments
  end.

(** The [if (claim.desire) { ... }] block. *)
Definition memberDesireStep (membershipId : string) (claim : ClaimWithRelations.t)
    (commitments : MemberCommitments.t) : MemberCommitments.t :=
  match ClaimWithRelations.desire claim with
  | Some desire =>
      let author := ItemWithAuthor.author desire in
      let claimer := ClaimWithRelations.claimer claim in
      let title := Item.title (ItemWithAuthor.row desire) in
      let details := Item.details (ItemWithAuthor.row desire) in
      let c1 :=
        if bool_decide (MembershipWithUser.id author = membershipId) then
          {| MemberCommitments.giving := MemberCommitments.giving commitments;
             MemberCommitments.receiving :=
               pushReceivingEntry (MemberCommitments.receiving commitments) claim
                 ItemKind.desire title details (formatMemberDisplayName claimer) |}
        else commitments in
      if bool_decide (MembershipWithUser.id claimer = membershipId) then
        {| MemberCommitments.giving :=
             pushGivingEntry (MemberCommitments.giving c1) claim
               ItemKind.desire title details (formatMemberDisplayName author);
           MemberCommitments.receiving := MemberCommitments.receiving c1 |}
      else c1
  | None => commitments
  end.

Definition memberStep (membershipId : string) (commitments : MemberCommitments.t)
    (claim : ClaimWithRelations.t) : MemberCommitments.t :=
  memberDesireStep membershipId claim (memberOfferStep membershipId claim commitments).

Definition collectMemberCommitments (roomId membershipId : string)
    : DbM MemberCommitments.t :=
  claims ← claim_findMany (memberWhere roomId membershipId);
  mret (fold_left (memberStep membershipId) claims
         {| MemberCommitments.giving := []; MemberCommitments.receiving := [] |}).

Module ParticipantInfo.
Record t := mk {
  membershipId : string;
  name : string;
  role : MembershipRole;
  enjoyment : option string;
  givingCount : Z;
  receivingCount : Z
}.
End ParticipantInfo.

Module CommitmentInfo.
Record t := mk {
  itemTitle : string;
  itemDetails : option string;
  itemType : ItemKind.t;
  giverName : string;
  giverMembershipId : string;
  receiverName : string;
  receiverMembershipId : string;
  note : option string
}.
End CommitmentInfo.

Module ShareInfo.
Record t := mk {
  membershipId : string;
  name : string;
  enjoyment : string
}.
End ShareInfo.

(** [{ name: string; count: number }] *)
Module TopEntry.
Record t := mk {
  name : string;
  count : Z
}.
End TopEntry.

Module Stats.
Record t := mk {
  totalParticipants : Z;
  totalOffers : Z;
  totalDesires : Z;
  totalCommitments : Z;
  averageCommitmentsPerPerson : float;
  topGiver : option TopEntry.t;
  topReceiver : option TopEntry.t
}.
End Stats.

Module HostSummaryData.
Record t := mk {
  participants : list ParticipantInfo.t;
  commitments : list CommitmentInfo.t;
  shares : list ShareInfo.t;
  stats : Stats.t
}.
End HostSummaryData.

(** The payload of the query in [collectAllCommitments]: the room with its
    memberships, offers, desires and its claims of status [ACCEPTED]. *)
Module RoomWithRelations.
Record t := mk {
  row : Room.t;
  memberships : list MembershipWithUser.t;
  offers : list Item.t;
  desires : list Item.t;
  claims : list ClaimWithRelations.t
}.
End RoomWithRelations.

(** The [where] clause on the [claims] relation of the room. *)
Definition acceptedWhere (c : ClaimWithRelations.t) : bool :=
  bool_decide (Claim.status (ClaimWithRelations.row c) = ClaimStatus.ACCEPTED).

(** [prisma.room.findUnique({ where: { id: roomId }, include })]: the
    relations of a room are the rows whose [roomId] is the room's id. *)
Definition room_findUnique (roomId : string) : DbM (option RoomWithRelations.t) :=
  fun db =>
    (match List.find (fun r => bool_decide (Room.id r = roomId)) (rooms db) with
     | Some r =>
         Some
           {| RoomWithRelations.row := r;
              RoomWithRelations.memberships :=
                List.filter
                  (fun m => bool_decide
                              (RoomMembership.roomId (MembershipWithUser.row m) = Room.id r))
                  (memberships db);
              RoomWithRelations.offers :=
                List.filter (fun o => bool_decide (Item.roomId o = Room.id r)) (offers db);
              RoomWithRelations.desires :=
                List.filter (fun d => bool_decide (Item.roomId d = Room.id r)) (desires db);
              RoomWithRelations.claims :=
                List.filter
                  (fun c => bool_decide (Claim.roomId (ClaimWithRelations.row c) = Room.id r)
                            && acceptedWhere c)
                  (claims db) |}
     | None => None
     end,
     db).

(** The mutable locals of the loop in [collectAllCommitments]. *)
Record Tally := mkTally {
  givingCounts : gmap string Z;
  receivingCounts : gmap string Z;
  commitments : list CommitmentInfo.t
}.

(** [counts.set(id, (counts.get(id) || 0) + 1)] *)
Definition increment (counts : gmap string Z) (id : string) : gmap string Z :=
  <[ id := default 0 (counts !! id) + 1 ]> counts.

Definition commitmentInfo (itemType : ItemKind.t) (item : ItemWithAuthor.t)
    (giver receiver : MembershipWithUser.t) (claim : ClaimWithRelations.t)
    : CommitmentInfo.t :=
  {| CommitmentInfo.itemTitle := Item.title (ItemWithAuthor.row item);
     CommitmentInfo.itemDetails := Item.details (ItemWithAuthor.row item);
     CommitmentInfo.itemType := itemType;
     CommitmentInfo.giverName := formatMemberDisplayName giver;
     CommitmentInfo.giverMembershipId := MembershipWithUser.id giver;
     CommitmentInfo.receiverName := formatMemberDisplayName receiver;
     CommitmentInfo.receiverMembershipId := MembershipWithUser.id receiver;
     CommitmentInfo.note := Claim.note (ClaimWithRelations.row claim) |}.

Definition record (giver receiver : MembershipWithUser.t) (info : CommitmentInfo.t)
    (t : Tally) : Tally :=
  {| givingCounts := increment (givingCounts t) (MembershipWithUser.id giver);
     receivingCounts := increment (receivingCounts t) (MembershipWithUser.id receiver);
     commitments := commitments t ++ [info] |}.

(** The [if (claim.offer) { ... }] block of the loop. *)
Definition allOfferStep (claim : ClaimWithRelations.t) (t : Tally) : Tally :=
  match ClaimWithRelations.offer claim with
  | Some offer =>
      let giver := ItemWithAuthor.author offer in
      let receiver := ClaimWithRelations.claimer claim in
      record giver receiver (commitmentInfo ItemKind.offer offer giver receiver claim) t
  | None => t
  end.

(** The [if (claim.desire) { ... }] block. *)
Definition allDesireStep (claim : ClaimWithRelations.t) (t : Tally) : Tally :=
  match ClaimWithRelations.desire claim with
  | Some desire =>
      let receiver := ItemWithAuthor.author desire in
      let giver := ClaimWithRelations.claimer claim in
      record giver receiver (commitmentInfo ItemKind.desire desire giver receiver claim) t
  | None => t
  end.

Definition allStep (t : Tally) (claim : ClaimWithRelations.t) : Tally :=
  allDesireStep claim (allOfferStep claim t).

Definition tally (claims : list ClaimWithRelations.t) : Tally :=
  fold_left allStep claims
    {| givingCounts := ∅; receivingCounts := ∅; commitments := [] |}.

Definition participantInfo (t : Tally) (m : MembershipWithUser.t) : ParticipantInfo.t :=
  {| ParticipantInfo.membershipId := MembershipWithUser.id m;
     ParticipantInfo.name := formatMemberDisplayName m;
     ParticipantInfo.role := RoomMembership.role (MembershipWithUser.row m);
     ParticipantInfo.enjoyment := RoomMembership.enjoyment (MembershipWithUser.row m);
     ParticipantInfo.givingCount := default 0 (givingCounts t !! MembershipWithUser.id m);
     ParticipantInfo.receivingCount := default 0 (receivingCounts t !! MembershipWithUser.id m) |}.

Definition shareInfo (m : MembershipWithUser.t) : ShareInfo.t :=
  {| ShareInfo.membershipId := MembershipWithUser.id m;
     ShareInfo.name := formatMemberDisplayName m;
     ShareInfo.enjoyment := default "" (RoomMembership.enjoyment (MembershipWithUser.row m)) |}.

(** One turn of the loop that finds [topGiver] (with [count := givingCount])
    and [topReceiver] (with [count := receivingCount]). *)
Definition topStep (count : ParticipantInfo.t -> Z) (top : option TopEntry.t)
    (p : ParticipantInfo.t) : option TopEntry.t :=
  if (0 <? count p)
     && match top with
        | None => true
        | Some t => TopEntry.count t <? count p
        end
  then Some {| TopEntry.name := ParticipantInfo.name p; TopEntry.count := count p |}
  else top.

Definition emptySummary : HostSummaryData.t :=
  {| HostSummaryData.participants := [];
     HostSummaryData.commitments := [];
     HostSummaryData.shares := [];
     HostSummaryData.stats :=
       {| Stats.totalParticipants := 0;
          Stats.totalOffers := 0;
          Stats.totalDesires := 0;
          Stats.totalCommitments := 0;
          Stats.averageCommitmentsPerPerson := JS.number 0;
          Stats.topGiver := None;
          Stats.topReceiver := None |} |}.

Definition summarize (room : RoomWithRelations.t) : HostSummaryData.t :=
  let t := tally (RoomWithRelations.claims room) in
  let participants := map (participantInfo t) (RoomWithRelations.memberships room) in
  let shares :=
    map shareInfo
      (List.filter
         (fun m => JS.truthy (RoomMembership.enjoyment (MembershipWithUser.row m)))
         (RoomWithRelations.memberships room)) in
  let topGiver := fold_left (topStep ParticipantInfo.givingCount) participants None in
  let topReceiver := fold_left (topStep ParticipantInfo.receivingCount) participants None in
  let participantsWithCommitments :=
    List.filter
      (fun p => (0 <? ParticipantInfo.givingCount p) || (0 <? ParticipantInfo.receivingCount p))
      participants in
  let total := Z.of_nat (length (commitments t)) in
  {| HostSummaryData.participants := participants;
     HostSummaryData.commitments := commitments t;
     HostSummaryData.shares := shares;
     HostSummaryData.stats :=
       {| Stats.totalParticipants := Z.of_nat (length participants);
          Stats.totalOffers := Z.of_nat (length (RoomWithRelations.offers room));
          Stats.totalDesires := Z.of_nat (length (RoomWithRelations.desires room));
          Stats.totalCommitments := total;
          Stats.averageCommitmentsPerPerson :=
            if (0 <? Z.of_nat (length participantsWithCommitments)) then
              JS.divide (total * 2) (Z.of_nat (length participantsWithCommitments))
            else JS.number 0;
          Stats.topGiver := topGiver;
          Stats.topReceiver := topReceiver |} |}.

Definition collectAllCommitments (roomId : string) : DbM HostSummaryData.t :=
  room ← room_findUnique roomId;
  match room with
  | None => mret emptySummary
  | Some room => mret (summarize room)
  end.

End ExportSummary.

(** ** Vocabulary of the statements *)

(** [a] is not after [b] in the order of the integer key [key]. *)
Definition keyLe {A} (key : A -> Z) (a b : A) : Prop := key a <= key b.

Definition isHost (m : RoomMember.t) : bool := bool_decide (RoomMember.role m = HOST).

(** The comparator of [sortMembers] on two members that are not hosts. *)
Definition compareJoinedAt (a b : RoomMember.t) : Z :=
  RoomMember.joinedAt a - RoomMember.joinedAt b.

(** The time at which a membership was created: the member joined then. *)
Definition joinedAt (m : MembershipWithUser.t) : Z :=
  RoomMembership.createdAt (MembershipWithUser.row m).

(** The member record [r] shows the membership [m]: it carries the ids, the
    names, the role, the join time, the reflection and the readiness of the
    membership, and it is flagged active exactly when the membership id is a
    key of the presence map [active]. *)
Definition shows (active : gmap string RoomStatusData.ActiveMembership)
    (m : MembershipWithUser.t) (r : RoomMember.t) : Prop :=
  RoomMember.membershipId r = RoomMembership.id (MembershipWithUser.row m)
  /\ RoomMember.userId r = RoomMembership.userId (MembershipWithUser.row m)
  /\ RoomMember.displayName r = User.displayName (MembershipWithUser.user m)
  /\ RoomMember.nickname r = RoomMembership.nickname (MembershipWithUser.row m)
  /\ RoomMember.role r = RoomMembership.role (MembershipWithUser.row m)
  /\ RoomMember.joinedAt r = joinedAt m
  /\ (RoomMember.isActive r = true
      <-> RoomMembership.id (MembershipWithUser.row m) ∈ dom active)
  /\ RoomMember.enjoyment r = RoomMembership.enjoyment (MembershipWithUser.row m)
  /\ RoomMember.readyForRound r
     = RoomMembership.readyForRound (MembershipWithUser.row m).

(** The claim [c] points at [entity], an offer or a desire according to
    [kind]. *)
Definition targets (kind : ItemKind.t) (entity : ItemSummary.t) (c : ClaimSummary.t) : Prop :=
  match kind with
  | ItemKind.offer => ClaimSummary.offerId c = Some (ItemSummary.id entity)
  | ItemKind.desire => ClaimSummary.desireId c = Some (ItemSummary.id entity)
  end.

(** [membershipId] already has a [PENDING] claim on [entity]. *)
Definition hasPendingClaim (membershipId : string) (roomClaims : list ClaimSummary.t)
    (kind : ItemKind.t) (entity : ItemSummary.t) : Prop :=
  exists c, c ∈ roomClaims
            /\ ClaimSummary.claimerMembershipId c = membershipId
            /\ ClaimSummary.status c = ClaimStatus.PENDING
            /\ targets kind entity c.

(** The [code] parameter passes the first check of the enjoyment handler. *)
Definition validCode (isValidRoomCode : string -> bool)
    (request : EnjoymentRoute.Request) : bool :=
  JS.truthy (Some (EnjoymentRoute.code request))
  && isValidRoomCode (EnjoymentRoute.code request).

(** ** Vocabulary for the commitment derivation *)

Module Commitments.
Import ExportSummary.

(** The entry that [pushGivingEntry] and [pushReceivingEntry] append for
    [claim] on [item], seen from the member whose counterpart is
    [counterpart]. *)
Definition entry (role : Role.t) (itemType : ItemKind.t) (item : ItemWithAuthor.t)
    (counterpart : MembershipWithUser.t) (claim : ClaimWithRelations.t)
    : MemberCommitmentEntry.t :=
  {| MemberCommitmentEntry.claimId := ClaimWithRelations.id claim;
     MemberCommitmentEntry.itemType := itemType;
     MemberCommitmentEntry.itemTitle := Item.title (ItemWithAuthor.row item);
     MemberCommitmentEntry.itemDetails := Item.details (ItemWithAuthor.row item);
     MemberCommitmentEntry.role := role;
     MemberCommitmentEntry.counterpartName := formatMemberDisplayName counterpart;
     MemberCommitmentEntry.note := Claim.note (ClaimWithRelations.row claim);
     MemberCommitmentEntry.updatedAt := Claim.updatedAt (ClaimWithRelations.row claim) |}.

(** The relations attached to a claim are the rows its foreign keys name. *)
Definition relationsMatchKeys (c : ClaimWithRelations.t) : Prop :=
  MembershipWithUser.id (ClaimWithRelations.claimer c)
  = Claim.claimerMembershipId (ClaimWithRelations.row c)
  /\ (forall o, ClaimWithRelations.offer c = Some o ->
        MembershipWithUser.id (ItemWithAuthor.author o)
        = Item.authorMembershipId (ItemWithAuthor.row o))
  /\ (forall d, ClaimWithRelations.desire c = Some d ->
        MembershipWithUser.id (ItemWithAuthor.author d)
        = Item.authorMembershipId (ItemWithAuthor.row d)).


(** The claim has a target: its offer or its desire is loaded. *)
Definition resolvable (c : ClaimWithRelations.t) : bool :=
  bool_decide (is_Some (ClaimWithRelations.offer c))
  || bool_decide (is_Some (ClaimWithRelations.desire c)).

(** The database with the claims table replaced. *)
Definition withClaims (db : Db) (claims : list ClaimWithRelations.t) : Db :=
  {| rooms := rooms db;
     memberships := memberships db;
     offers := offers db;
     desires := desires db;
     claims := claims |}.

(** What one turn of the loop of [collectMemberCommitments] appends to
    [giving] and to [receiving]. *)
Definition givingOf (membershipId : string) (c : ClaimWithRelations.t)
    : list MemberCommitmentEntry.t :=
  match ClaimWithRelations.offer c with
  | Some o =>
      if bool_decide (MembershipWithUser.id (ItemWithAuthor.author o) = membershipId)
      then [entry Role.giving ItemKind.offer o (ClaimWithRelations.claimer c) c]
      else []
  | None => []
  end ++
  match ClaimWithRelations.desire c with
  | Some d =>
      if bool_decide (MembershipWithUser.id (ClaimWithRelations.claimer c) = membershipId)
      then [entry Role.giving ItemKind.desire d (ItemWithAuthor.author d) c]
      else []
  | None => []
  end.

Definition receivingOf (membershipId : string) (c : ClaimWithRelations.t)
    : list MemberCommitmentEntry.t :=
  match ClaimWithRelations.offer c with
  | Some o =>
      if bool_decide (MembershipWithUser.id (ClaimWithRelations.claimer c) = membershipId)
      then [entry Role.receiving ItemKind.offer o (ItemWithAuthor.author o) c]
      else []
  | None => []
  end ++
  match ClaimWithRelations.desire c with
  | Some d =>
      if bool_decide (MembershipWithUser.id (ItemWithAuthor.author d) = membershipId)
      then [entry Role.receiving ItemKind.desire d (ClaimWithRelations.claimer c) c]
      else []
  | None => []
  end.

(** What one turn of the loop of [collectAllCommitments] appends to
    [commitments]. *)
Definition commitmentsOf (c : ClaimWithRelations.t) : list CommitmentInfo.t :=
  match ClaimWithRelations.offer c with
  | Some o =>
      [commitmentInfo ItemKind.offer o (ItemWithAuthor.author o)
         (ClaimWithRelations.claimer c) c]
  | None => []
  end ++
  match ClaimWithRelations.desire c with
  | Some d =>
      [commitmentInfo ItemKind.desire d (ClaimWithRelations.claimer c)
         (ItemWithAuthor.author d) c]
  | None => []
  end.

(** The claims that the query of [collectMemberCommitments] returns. *)
Definition memberClaims (roomId membershipId : string) (db : Db)
    : list ClaimWithRelations.t :=
  orderByAsc (fun c => Claim.updatedAt (ClaimWithRelations.row c))
    (List.filter (memberWhere roomId membershipId) (claims db)).

(** The accepted claims of a room, as [collectAllCommitments] loads them. *)
Definition acceptedClaimsOf (roomId : string) (db : Db) : list ClaimWithRelations.t :=
  List.filter
    (fun c => bool_decide (Claim.roomId (ClaimWithRelations.row c) = roomId)
              && acceptedWhere c)
    (claims db).




End Commitments.

(** ** Sample data

    The room of the [buildSnapshot] unit tests: a host and a guest who joined
    five minutes later. *)

Module Sample.

Definition now : Z := 1735689600000.

Definition hostUser : User.t := User.mk "user-host" now now (Some "Host User").
Definition guestUser : User.t := User.mk "user-guest" now now (Some "Guest User").

Definition hostMembership : RoomMembership.t :=
  RoomMembership.mk "membership-host" "room-1" "user-host" HOST (Some "Host")
    None None now now.

Definition guestMembership : RoomMembership.t :=
  RoomMembership.mk "membership-guest" "room-1" "user-guest" PARTICIPANT (Some "Guest")
    None None (now + 300000) now.

Definition host : MembershipWithUser.t := MembershipWithUser.mk hostMembership hostUser.
Definition guest : MembershipWithUser.t := MembershipWithUser.mk guestMembership guestUser.

Definition room (currentRound : RoomRound) : Room.t :=
  Room.mk "room-1" "vow-empowerment" None None "user-host" currentRound now now.

Definition offer1 : Item.t :=
  Item.mk "offer-1" "room-1" "membership-host" "First offer" (Some "Details")
    ItemStatus.OPEN (now + 180000) (now + 240000).

Definition offer2 : Item.t :=
  Item.mk "offer-2" "room-1" "membership-guest" "Second offer" None
    ItemStatus.OPEN (now + 600000) (now + 900000).

Definition desire1 : Item.t :=
  Item.mk "desire-1" "room-1" "membership-host" "Need help" None
    ItemStatus.OPEN (now + 360000) (now + 420000).

Definition toItemSummary (item : Item.t) : ItemSummary.t :=
  ItemSummary.mk (Item.id item) (Item.roomId item) (Item.authorMembershipId item)
    (Item.title item) (Item.details item) (Item.status item) (Item.updatedAt item).

Definition toClaimSummary (claim : Claim.t) : ClaimSummary.t :=
  ClaimSummary.mk (Claim.id claim) (Claim.roomId claim) (Claim.claimerMembershipId claim)
    (Claim.offerId claim) (Claim.desireId claim) (Claim.status claim) (Claim.note claim)
    (Claim.createdAt claim) (Claim.updatedAt claim).

Definition onlyHostActive (roomId : string)
    : gmap string RoomStatusData.ActiveMembership :=
  {[ "membership-host" := RoomStatusData.mkActiveMembership "membership-host" 1 ]}.

(** The guest is listed before the host, the later offer before the earlier. *)
Definition input (currentRound : RoomRound) : RoomStatusData.RoomInput :=
  RoomStatusData.mkRoomInput (room currentRound) hostUser [guest; host]
    [offer2; offer1] [desire1] [].

(** A database for the room above: the guest's accepted claim on the host's
    offer, the guest's declined claim on the host's desire, and an accepted
    claim whose offer is gone. *)
Definition offerByHost : ExportSummary.ItemWithAuthor.t :=
  ExportSummary.ItemWithAuthor.mk offer1 host.

Definition desireByHost : ExportSummary.ItemWithAuthor.t :=
  ExportSummary.ItemWithAuthor.mk desire1 host.

Definition claimAccepted : ExportSummary.ClaimWithRelations.t :=
  ExportSummary.ClaimWithRelations.mk
    (Claim.mk "claim-1" "room-1" "membership-guest" (Some "offer-1") None
       ClaimStatus.ACCEPTED (Some "Please") (now + 660000) (now + 960000))
    (Some offerByHost) None guest.

Definition claimDeclined : ExportSummary.ClaimWithRelations.t :=
  ExportSummary.ClaimWithRelations.mk
    (Claim.mk "claim-2" "room-1" "membership-guest" None (Some "desire-1")
       ClaimStatus.DECLINED None (now + 480000) (now + 540000))
    None (Some desireByHost) guest.

Definition claimDangling : ExportSummary.ClaimWithRelations.t :=
  ExportSummary.ClaimWithRelations.mk
    (Claim.mk "claim-3" "room-1" "membership-guest" (Some "offer-gone") None
       ClaimStatus.ACCEPTED None (now + 700000) (now + 800000))
    None None guest.

(** A claim row with both an offer and a desire. *)
Definition claimBoth : ExportSummary.ClaimWithRelations.t :=
  ExportSummary.ClaimWithRelations.mk
    (Claim.mk "claim-4" "room-1" "membership-guest" (Some "offer-1") (Some "desire-1")
       ClaimStatus.ACCEPTED None (now + 720000) (now + 820000))
    (Some offerByHost) (Some desireByHost) guest.

Definition db : ExportSummary.Db :=
  ExportSummary.mkDb [room SUMMARY] [host; guest] [offer1; offer2] [desire1]
    [claimAccepted; claimDeclined; claimDangling].

Definition dbBoth : ExportSummary.Db :=
  ExportSummary.mkDb [room SUMMARY] [host; guest] [offer1; offer2] [desire1]
    [claimBoth].





End Sample.

(** * More of the sources

    - the room shell (layout of the room pages): navigation and readiness
    - [src/app/rooms/[code]/connections/page.tsx]: display names, search,
      the lists of offers and desires and their grouping by person
    - [src/app/api/rooms/[code]/ready/route.ts] ([POST])
    - [src/app/rooms/[code]/room-status.tsx]: the member list of the overview
    - [src/app/rooms/[code]/decisions/page.tsx]: the bids awaiting a decision
    - [sanitizeForFilename] and the export of the host ([GET]) *)

(** ** The room shell (layout of the room pages): navigation and readiness *)

Module RoomShell.

Record NavLink := mkNavLink {
  href : string;
  label : string;
  minRoundIndex : Z
}.

Definition OFFERS_INDEX : Z := JS.indexOf ROOM_ROUND_SEQUENCE OFFERS.
Definition DESIRES_INDEX : Z := JS.indexOf ROOM_ROUND_SEQUENCE DESIRES.
Definition CONNECTIONS_INDEX : Z := JS.indexOf ROOM_ROUND_SEQUENCE CONNECTIONS.
Definition DECISIONS_INDEX : Z := JS.indexOf ROOM_ROUND_SEQUENCE DECISIONS.
Definition SUMMARY_INDEX : Z := JS.indexOf ROOM_ROUND_SEQUENCE SUMMARY.

Definition NAV_LINKS : list NavLink :=
  [ mkNavLink "" "Overview" OFFERS_INDEX;
    mkNavLink "offers" "My Offers" OFFERS_INDEX;
    mkNavLink "desires" "My Desires" DESIRES_INDEX;
    mkNavLink "connections" "Bids" CONNECTIONS_INDEX;
    mkNavLink "decisions" "Decisions" DECISIONS_INDEX;
    mkNavLink "summary" "Summary" SUMMARY_INDEX ].

Definition roundIndex (currentRound : RoomRound) : Z :=
  JS.indexOf ROOM_ROUND_SEQUENCE currentRound.

Definition availableLinks (currentRound : RoomRound) : list NavLink :=
  List.filter (fun link => roundIndex currentRound >=? minRoundIndex link) NAV_LINKS.

Definition currentMember (membershipId : option string) (members : list RoomMember.t)
    : option RoomMember.t :=
  if negb (JS.truthy membershipId) then None
  else
    List.find (fun m => bool_decide (Some (RoomMember.membershipId m) = membershipId))
      members.

(** [currentMember?.readyForRound === room.currentRound] *)
Definition isReadyForCurrentRound (membershipId : option string)
    (members : list RoomMember.t) (currentRound : RoomRound) : bool :=
  match currentMember membershipId members with
  | Some m => bool_decide (RoomMember.readyForRound m = Some currentRound)
  | None => false
  end.

Definition readyMembers (members : list RoomMember.t) (currentRound : RoomRound)
    : list RoomMember.t :=
  List.filter (fun m => bool_decide (RoomMember.readyForRound m = Some currentRound))
    members.

Definition notReadyMembers (members : list RoomMember.t) (currentRound : RoomRound)
    : list RoomMember.t :=
  List.filter (fun m => bool_decide (RoomMember.readyForRound m ≠ Some currentRound))
    members.

Definition readyCount (members : list RoomMember.t) (currentRound : RoomRound) : Z :=
  Z.of_nat (length (readyMembers members currentRound)).

Definition totalMembers (members : list RoomMember.t) : Z := Z.of_nat (length members).

Definition allReady (members : list RoomMember.t) (currentRound : RoomRound) : bool :=
  (readyCount members currentRound =? totalMembers members)
  && (totalMembers members >? 0).

End RoomShell.

(** ** More JavaScript string functions

    [String.prototype.toLowerCase] converts a string as a whole: the lower
    case of a capital sigma depends on the letters around it.  The
    definitions that call it take it as a parameter [toLowerCase].  On a
    string whose code units are all below 256 the conversion goes unit by
    unit: the letters [A-Z] and the Latin-1 capitals U+00C0-U+00DE (without
    the multiplication sign U+00D7) move up by 32 and every other code unit
    stays; [toLowerCaseLatin1] is that conversion.
    [String.prototype.includes] is substring search. *)

Module JSString.

Definition lowerChar (c : ascii) : ascii :=
  let n := nat_of_ascii c in
  if ((65 <=? n)%nat && (n <=? 90)%nat)
     || ((192 <=? n)%nat && (n <=? 222)%nat && negb (n =? 215)%nat)
  then ascii_of_nat (n + 32)
  else c.

Fixpoint toLowerCaseLatin1 (s : string) : string :=
  match s with
  | EmptyString => EmptyString
  | String c s' => String (lowerChar c) (toLowerCaseLatin1 s')
  end.

(** The code units of the string are all ASCII characters. *)
Fixpoint isAscii (s : string) : bool :=
  match s with
  | EmptyString => true
  | String c s' => (nat_of_ascii c <? 128)%nat && isAscii s'
  end.

Definition includes (s term : string) : bool :=
  match String.index 0 term s with
  | Some _ => true
  | None => false
  end.

End JSString.

(** ** The list of offers and desires on the connections page *)

Module ConnectionsList.

(** [getMemberDisplayName] *)
Definition getMemberDisplayName (members : list RoomMember.t) (membership : string)
    : string :=
  match List.find (fun member => bool_decide (RoomMember.membershipId member = membership))
          members with
  | None => "Unknown"
  | Some entry =>
      let nickname := JS.trim <$> RoomMember.nickname entry in
      let name := JS.trim <$> RoomMember.displayName entry in
      if JS.truthy nickname then default "" nickname
      else if JS.truthy name then default "" name
      else if decide (RoomMember.role entry = HOST) then "Host" else "Participant"
  end.

Section Search.
(** [String.prototype.toLowerCase] *)
Variable toLowerCase : string -> string.

Definition matchesSearch (members : list RoomMember.t) (searchTerm : string)
    (item : ItemSummary.t) : bool :=
  if negb (JS.truthy (Some (JS.trim searchTerm))) then true
  else
    let term := toLowerCase searchTerm in
    let titleMatch :=
      JSString.includes (toLowerCase (ItemSummary.title item)) term in
    let detailsMatch :=
      match ItemSummary.details item with
      | Some details => JSString.includes (toLowerCase details) term
      | None => false
      end in
    let authorName :=
      toLowerCase
        (getMemberDisplayName members (ItemSummary.authorMembershipId item)) in
    let authorMatch := JSString.includes authorName term in
    titleMatch || detailsMatch || authorMatch.

(** [visibleOffers] and [visibleDesires]: the same filter, on [room.offers]
    and on [room.desires]. *)
Definition visibleItems (membershipId : option string) (members : list RoomMember.t)
    (searchTerm : string) (items : list ItemSummary.t) : list ItemSummary.t :=
  List.filter
    (fun item =>
       if bool_decide (ItemSummary.status item ≠ ItemStatus.OPEN) then false
       else if JS.truthy membershipId
               && bool_decide (Some (ItemSummary.authorMembershipId item) = membershipId)
       then false
       else matchesSearch members searchTerm item)
    items.
End Search.

(** [myPendingClaim] in [renderOfferCard] and in [renderDesireCard]. *)
Definition myPendingOfferClaim (membershipId : option string)
    (roomClaims : list ClaimSummary.t) (offer : ItemSummary.t) : option ClaimSummary.t :=
  List.find
    (fun c => bool_decide (ClaimSummary.offerId c = Some (ItemSummary.id offer))
              && bool_decide (ClaimSummary.status c = ClaimStatus.PENDING))
    (Connections.myClaimerClaims membershipId roomClaims).

Definition myPendingDesireClaim (membershipId : option string)
    (roomClaims : list ClaimSummary.t) (desire : ItemSummary.t) : option ClaimSummary.t :=
  List.find
    (fun c => bool_decide (ClaimSummary.desireId c = Some (ItemSummary.id desire))
              && bool_decide (ClaimSummary.status c = ClaimStatus.PENDING))
    (Connections.myClaimerClaims membershipId roomClaims).

(** An entry of [offersByPerson] and of [desiresByPerson]. *)
Record PersonGroup := mkPersonGroup {
  membershipId : string;
  name : string;
  items : list ItemSummary.t
}.

(** The [Map<string, OfferSummary[]>] of the grouping keeps its keys in the
    order of their first insertion: an association list. *)
Definition mapGet (grouped : list (string * list ItemSummary.t)) (k : string)
    : option (list ItemSummary.t) :=
  snd <$> List.find (fun e => bool_decide (fst e = k)) grouped.

Fixpoint mapSet (grouped : list (string * list ItemSummary.t)) (k : string)
    (v : list ItemSummary.t) : list (string * list ItemSummary.t) :=
  match grouped with
  | [] => [(k, v)]
  | e :: rest => if bool_decide (fst e = k) then (k, v) :: rest else e :: mapSet rest k v
  end.

(** One turn of the grouping loop. *)
Definition groupStep (grouped : list (string * list ItemSummary.t)) (item : ItemSummary.t)
    : list (string * list ItemSummary.t) :=
  let existing := default [] (mapGet grouped (ItemSummary.authorMembershipId item)) in
  mapSet grouped (ItemSummary.authorMembershipId item) (existing ++ [item]).

Section ByPerson.
(** [String.prototype.localeCompare] depends on the locale of the browser;
    the grouping is parametric in it. *)
Variable localeCompare : string -> string -> Z.

Definition itemsByPerson (members : list RoomMember.t) (visible : list ItemSummary.t)
    : list PersonGroup :=
  JS.sort (fun a b => localeCompare (name a) (name b))
    (map (fun e => {| membershipId := fst e;
                      name := getMemberDisplayName members (fst e);
                      items := snd e |})
         (fold_left groupStep visible [])).
End ByPerson.

End ConnectionsList.

(** ** [src/app/api/rooms/[code]/ready/route.ts]

    The identity cookie (its refresh and its [Set-Cookie] header) does not
    touch the tables and is left out of the response. *)

Module ReadyRoute.

(** The event sent through [emitRoomEvent]: the [member:ready] case of
    [RoomEvent]. *)
Record MemberReady := mkMemberReady {
  ev_roomId : string;
  ev_membershipId : string;
  ev_readyForRound : option RoomRound
}.

(** The tables the handler queries, and the room events it has emitted,
    each with the room it was emitted for. *)
Record World := mkWorld {
  rooms : list Room.t;
  memberships : list RoomMembership.t;
  roomEvents : list (string * MemberReady)
}.

(** A request: the [code] route parameter, the id of the user that
    [resolveIdentity] returns, and the body: [None] when [request.json()]
    throws, [Some None] when [toggleReadySchema] rejects what was parsed,
    [Some (Some ready)] for [{ ready }] with a boolean [ready]. *)
Record Request := mkRequest {
  code : string;
  identityUserId : string;
  body : option (option bool)
}.

Inductive ResponseBody :=
| ErrorBody (error : string)
| SuccessBody (readyForRound : option RoomRound).

Record Response := mkResponse {
  payload : ResponseBody;
  status : Z
}.

Definition json (error : string) (status : Z) : Response :=
  {| payload := ErrorBody error; status := status |}.

(** [prisma.room.findUnique({ where: { code }, include: { memberships } })]:
    the room and the membership rows of the room. *)
Definition room_findUnique (w : World) (roomCode : string)
    : option (Room.t * list RoomMembership.t) :=
  match List.find (fun r => bool_decide (Room.code r = roomCode)) (rooms w) with
  | Some r =>
      Some (r, List.filter (fun m => bool_decide (RoomMembership.roomId m = Room.id r))
                 (memberships w))
  | None => None
  end.

Definition setReadyForRound (readyForRound : option RoomRound) (m : RoomMembership.t)
    : RoomMembership.t :=
  {| RoomMembership.id := RoomMembership.id m;
     RoomMembership.roomId := RoomMembership.roomId m;
     RoomMembership.userId := RoomMembership.userId m;
     RoomMembership.role := RoomMembership.role m;
     RoomMembership.nickname := RoomMembership.nickname m;
     RoomMembership.enjoyment := RoomMembership.enjoyment m;
     RoomMembership.readyForRound := readyForRound;
     RoomMembership.createdAt := RoomMembership.createdAt m;
     RoomMembership.updatedAt := RoomMembership.updatedAt m |}.

(** [prisma.roomMembership.update({ where: { id }, data: { readyForRound } })] *)
Definition roomMembership_update (w : World) (id : string)
    (readyForRound : option RoomRound) : World :=
  {| rooms := rooms w;
     memberships :=
       map (fun m => if bool_decide (RoomMembership.id m = id)
                     then setReadyForRound readyForRound m else m)
           (memberships w);
     roomEvents := roomEvents w |}.

Definition emitRoomEvent (w : World) (roomId : string) (event : MemberReady) : World :=
  {| rooms := rooms w;
     memberships := memberships w;
     roomEvents := roomEvents w ++ [(roomId, event)] |}.

Section Handler.
Variable isValidRoomCode : string -> bool.
Variable normalizeRoomCode : string -> string.

Definition POST (request : Request) (w : World) : Response * World :=
  if negb (JS.truthy (Some (code request))) || negb (isValidRoomCode (code request)) then
    (json "Invalid room code" 400, w)
  else
    let roomCode := normalizeRoomCode (code request) in
    match body request with
    | None => (json "Invalid JSON body" 400, w)
    | Some None => (json "Invalid request body" 400, w)
    | Some (Some ready) =>
        match room_findUnique w roomCode with
        | None => (json "Room not found" 404, w)
        | Some (room, roomMemberships) =>
            match List.find
                    (fun m => bool_decide (RoomMembership.userId m = identityUserId request))
                    roomMemberships with
            | None => (json "Not a member of this room" 403, w)
            | Some membership =>
                let newReadyForRound :=
                  if ready then Some (Room.currentRound room) else None in
                let w1 := roomMembership_update w (RoomMembership.id membership)
                            newReadyForRound in
                let w2 := emitRoomEvent w1 (Room.id room)
                            {| ev_roomId := Room.id room;
                               ev_membershipId := RoomMembership.id membership;
                               ev_readyForRound := newReadyForRound |} in
                ({| payload := SuccessBody newReadyForRound; status := 200 |}, w2)
            end
        end
    end.
End Handler.

(** The membership of [userId] in the room with code [roomCode], as the
    handler finds it. *)
Definition callerMembership (w : World) (roomCode userId : string)
    : option RoomMembership.t :=
  match room_findUnique w roomCode with
  | Some (room, roomMemberships) =>
      List.find (fun m => bool_decide (RoomMembership.userId m = userId)) roomMemberships
  | None => None
  end.

(** [ready ? room.currentRound : null] *)
Definition readyValue (ready : bool) (room : Room.t) : option RoomRound :=
  if ready then Some (Room.currentRound room) else None.

End ReadyRoute.

(** ** The overview page of a room ([room-status.tsx]) *)

Module RoomStatusPage.

Definition hostMembershipId (members : list RoomMember.t) : option string :=
  RoomMember.membershipId
    <$> List.find (fun member => bool_decide (RoomMember.role member = HOST)) members.

Definition roundIndex (currentRound : RoomRound) : Z :=
  JS.indexOf ROOM_ROUND_SEQUENCE currentRound.

Definition offersEnabled (currentRound : RoomRound) : bool :=
  roundIndex currentRound >=? JS.indexOf ROOM_ROUND_SEQUENCE OFFERS.

Definition desiresEnabled (currentRound : RoomRound) : bool :=
  roundIndex currentRound >=? JS.indexOf ROOM_ROUND_SEQUENCE DESIRES.

Definition visibleMembers (members : list RoomMember.t) : list RoomMember.t :=
  JS.sort
    (fun a b =>
       if decide (RoomMember.role a = HOST) then -1
       else if decide (RoomMember.role b = HOST) then 1
       else RoomMember.joinedAt a - RoomMember.joinedAt b)
    members.

(** [nickname || displayName || (member.role === "HOST" ? "Host" : "Anonymous")] *)
Definition getMemberDisplayName (members : list RoomMember.t) (authorMembershipId : string)
    : string :=
  match List.find
          (fun entry => bool_decide (RoomMember.membershipId entry = authorMembershipId))
          members with
  | None => "Unknown"
  | Some member =>
      let nickname := JS.trim <$> RoomMember.nickname member in
      let displayName := JS.trim <$> RoomMember.displayName member in
      if JS.truthy nickname then default "" nickname
      else if JS.truthy displayName then default "" displayName
      else if decide (RoomMember.role member = HOST) then "Host" else "Anonymous"
  end.

End RoomStatusPage.

(** ** The decisions page: the bids a member has to decide on *)

Module DecisionsPage.

(** An entry of [offerTargets] and of [desireTargets]. *)
Record Target := mkTarget {
  item : ItemSummary.t;
  claims : list ClaimSummary.t
}.

Definition compareCreatedAt (a b : ClaimSummary.t) : Z :=
  ClaimSummary.createdAt a - ClaimSummary.createdAt b.

Definition offerTargets (membershipId : option string) (room : RoomSnapshot.t)
    : list Target :=
  if negb (JS.truthy membershipId) then []
  else
    List.filter (fun entry => Z.of_nat (length (claims entry)) >? 0)
      (map
         (fun offer =>
            {| item := offer;
               claims :=
                 JS.sort compareCreatedAt
                   (List.filter
                      (fun claim =>
                         bool_decide (ClaimSummary.offerId claim = Some (ItemSummary.id offer))
                         && bool_decide (ClaimSummary.status claim ≠ ClaimStatus.WITHDRAWN))
                      (RoomSnapshot.claims room)) |})
         (List.filter
            (fun offer => bool_decide (Some (ItemSummary.authorMembershipId offer) = membershipId))
            (RoomSnapshot.offers room))).

Definition desireTargets (membershipId : option string) (room : RoomSnapshot.t)
    : list Target :=
  if negb (JS.truthy membershipId) then []
  else
    List.filter (fun entry => Z.of_nat (length (claims entry)) >? 0)
      (map
         (fun desire =>
            {| item := desire;
               claims :=
                 JS.sort compareCreatedAt
                   (List.filter
                      (fun claim =>
                         bool_decide (ClaimSummary.desireId claim = Some (ItemSummary.id desire))
                         && bool_decide (ClaimSummary.status claim ≠ ClaimStatus.WITHDRAWN))
                      (RoomSnapshot.claims room)) |})
         (List.filter
            (fun desire =>
               bool_decide (Some (ItemSummary.authorMembershipId desire) = membershipId))
            (RoomSnapshot.desires room))).

(** [items.find((item) => item.id === id)?.authorMembershipId === membershipId] *)
Definition authoredByViewer (membershipId : option string) (items : list ItemSummary.t)
    (id : string) : bool :=
  match List.find (fun item => bool_decide (ItemSummary.id item = id)) items with
  | Some item => bool_decide (Some (ItemSummary.authorMembershipId item) = membershipId)
  | None => false
  end.

(** The callback of the filter in [pendingDecisionCount]. *)
Definition awaitsDecision (membershipId : option string) (room : RoomSnapshot.t)
    (claim : ClaimSummary.t) : bool :=
  if bool_decide (ClaimSummary.status claim ≠ ClaimStatus.PENDING) then false
  else
    (JS.truthy (ClaimSummary.offerId claim)
     && authoredByViewer membershipId (RoomSnapshot.offers room)
          (default "" (ClaimSummary.offerId claim)))
    || (JS.truthy (ClaimSummary.desireId claim)
        && authoredByViewer membershipId (RoomSnapshot.desires room)
             (default "" (ClaimSummary.desireId claim))).

Definition pendingDecisionCount (membershipId : option string) (room : RoomSnapshot.t) : Z :=
  Z.of_nat (length (List.filter (awaitsDecision membershipId room) (RoomSnapshot.claims room))).

End DecisionsPage.

(** ** [sanitizeForFilename]

    The function is defined, with the same body, in the export route of the
    host and in the decisions and summary pages. *)

Module Filename.

(** The class [[a-z0-9]]. *)
Definition isLowerAlnum (c : ascii) : bool :=
  let n := nat_of_ascii c in
  ((97 <=? n)%nat && (n <=? 122)%nat) || ((48 <=? n)%nat && (n <=? 57)%nat).

Definition isDash (c : ascii) : bool := (nat_of_ascii c =? 45)%nat.

(** [.replace(/[^a-z0-9]+/g, "-")]: every maximal run of characters outside
    the class becomes one dash.  A character outside the class is dropped
    when the run goes on after it, and becomes the dash when it ends the
    run. *)
Fixpoint replaceRuns (s : string) : string :=
  match s with
  | EmptyString => EmptyString
  | String c s' =>
      if isLowerAlnum c then String c (replaceRuns s')
      else
        match s' with
        | EmptyString => "-"
        | String c' _ =>
            if isLowerAlnum c' then String "-" (replaceRuns s') else replaceRuns s'
        end
  end.

(** [.replace(/^-+|-+$/g, "")]: the dashes at the start and the dashes at the
    end are removed. *)
Fixpoint stripLeadingDashes (s : string) : string :=
  match s with
  | String c s' => if isDash c then stripLeadingDashes s' else s
  | EmptyString => EmptyString
  end.

Fixpoint stripTrailingDashes (s : string) : string :=
  match s with
  | String c s' =>
      match stripTrailingDashes s' with
      | EmptyString => if isDash c then EmptyString else String c EmptyString
      | t => String c t
      end
  | EmptyString => EmptyString
  end.

(** [.slice(0, n)] *)
Definition slice0 (n : nat) (s : string) : string := String.substring 0 n s.

Section Sanitize.
(** [String.prototype.toLowerCase] *)
Variable toLowerCase : string -> string.

Definition sanitizeForFilename (str : string) : string :=
  slice0 50
    (stripTrailingDashes (stripLeadingDashes (replaceRuns (toLowerCase str)))).
End Sanitize.

End Filename.

(** ** The export of the host ([GET] of the export-all route)

    [resolveIdentity] is represented by the id of the user it returns and
    [new Date()] by the instant it returns, both carried by the request.  The
    two renderers are imported from the export module; the handler is
    parametric in them and in [String.prototype.toLowerCase], and a renderer of the PDF that throws returns
    [None].  The response carries the status, the body and the headers that
    the handler sets itself; the identity cookie that [withIdentityCookie]
    adds and the log lines are left out. *)

Module ExportAllRoute.
Import ExportSummary.

Record Request := mkRequest {
  code : string;
  format : option string;
  identityUserId : string;
  now : Z
}.

Inductive ResponseBody :=
| JsonBody (error : string) (message : option string)
| MarkdownBody (markdown : string)
| PdfBody (pdf : list Byte.byte).

Record Response := mkResponse {
  status : Z;
  payload : ResponseBody;
  contentType : option string;
  contentDisposition : option string;
  cacheControl : option string;
  contentLength : option Z
}.

Definition json (error : string) (message : option string) (status : Z) : Response :=
  {| status := status;
     payload := JsonBody error message;
     contentType := None;
     contentDisposition := None;
     cacheControl := None;
     contentLength := None |}.

(** [prisma.room.findUnique({ where: { code: roomCode }, select })] *)
Definition room_findUnique (roomCode : string) : DbM (option Room.t) :=
  fun db => (List.find (fun r => bool_decide (Room.code r = roomCode)) (rooms db), db).

(** [prisma.roomMembership.findUnique({ where: { roomId_userId }, include: { user } })] *)
Definition roomMembership_findUnique (roomId userId : string)
    : DbM (option MembershipWithUser.t) :=
  fun db =>
    (List.find
       (fun m => bool_decide (RoomMembership.roomId (MembershipWithUser.row m) = roomId)
                 && bool_decide (RoomMembership.userId (MembershipWithUser.row m) = userId))
       (memberships db),
     db).

(** The value of the enum as a string. *)
Definition roundName (round : RoomRound) : string :=
  match round with
  | WAITING => "WAITING"
  | OFFERS => "OFFERS"
  | DESIRES => "DESIRES"
  | CONNECTIONS => "CONNECTIONS"
  | DECISIONS => "DECISIONS"
  | SUMMARY => "SUMMARY"
  end.

Definition quote : string := String "034"%char EmptyString.

(** [`attachment; filename="${filename}-summary.${extension}"`] *)
Definition attachment (filename extension : string) : string :=
  ("attachment; filename=" ++ quote ++ filename ++ "-summary." ++ extension ++ quote)%string.

Section Handler.
Variable isValidRoomCode : string -> bool.
Variable normalizeRoomCode : string -> string.
Variable toLowerCase : string -> string.
Variable renderHostSummaryMarkdown : string -> HostSummaryData.t -> Z -> string.
Variable renderHostSummaryPdf : string -> HostSummaryData.t -> Z -> option (list Byte.byte).

Definition GET (request : Request) : DbM Response :=
  let format :=
    if JS.truthy (format request) then default "" (format request) else "pdf" in
  if negb (JS.truthy (Some (code request))) || negb (isValidRoomCode (code request)) then
    mret (json "Invalid room code" None 400)
  else
    let roomCode := normalizeRoomCode (code request) in
    room ← room_findUnique roomCode;
    match room with
    | None => mret (json "Room not found" None 404)
    | Some room =>
        membership ← roomMembership_findUnique (Room.id room) (identityUserId request);
        match membership with
        | None => mret (json "Not a member of this room" None 403)
        | Some membership =>
            if bool_decide (RoomMembership.role (MembershipWithUser.row membership) ≠ HOST)
            then mret (json "Only the host can export all data" None 403)
            else if bool_decide (Room.currentRound room ≠ DECISIONS)
                    && bool_decide (Room.currentRound room ≠ SUMMARY)
            then
              mret (json "Export is only available during the Decisions or Summary round"
                      (Some ("Room is currently in the "
                             ++ roundName (Room.currentRound room) ++ " round")%string)
                      409)
            else
              allData ← collectAllCommitments (Room.id room);
              let roomTitle :=
                if JS.truthy (Room.title room) then default "" (Room.title room)
                else "Gift Circle" in
              let filename := Filename.sanitizeForFilename toLowerCase roomTitle in
              if String.eqb format "markdown" || String.eqb format "md"
                 || String.eqb format "txt"
              then
                mret {| status := 200;
                        payload :=
                          MarkdownBody
                            (renderHostSummaryMarkdown roomTitle allData (now request));
                        contentType := Some "text/markdown; charset=utf-8";
                        contentDisposition := Some (attachment filename "md");
                        cacheControl := Some "no-store";
                        contentLength := None |}
              else
                match renderHostSummaryPdf roomTitle allData (now request) with
                | None =>
                    mret (json "Failed to generate PDF"
                            (Some "An unexpected error occurred while rendering the report.")
                            500)
                | Some pdfBuffer =>
                    mret {| status := 200;
                            payload := PdfBody pdfBuffer;
                            contentType := Some "application/pdf";
                            contentDisposition := Some (attachment filename "pdf");
                            cacheControl := Some "no-store";
                            contentLength := Some (Z.of_nat (length pdfBuffer)) |}
                end
        end
    end.
End Handler.

End ExportAllRoute.

(** ** More sample data *)

Module Fixtures.

(** The sample room with its lists in ascending order of creation. *)
Definition sortedInput (currentRound : RoomRound) : RoomStatusData.RoomInput :=
  RoomStatusData.mkRoomInput (Sample.room currentRound) Sample.hostUser
    [Sample.host; Sample.guest] [Sample.offer1; Sample.offer2] [Sample.desire1] [].

(** The sample room in the Decisions round, with a pending bid of the guest
    on the first offer of the host and the declined bid on the host's
    desire. *)
Definition claimPending : Claim.t :=
  Claim.mk "claim-5" "room-1" "membership-guest" (Some "offer-1") None
    ClaimStatus.PENDING None (Sample.now + 640000) (Sample.now + 640000).

Definition decisionsRoom : RoomSnapshot.t :=
  RoomStatusData.buildSnapshot Sample.toItemSummary Sample.toItemSummary
    Sample.toClaimSummary Sample.onlyHostActive
    (RoomStatusData.mkRoomInput (Sample.room DECISIONS) Sample.hostUser
       [Sample.host; Sample.guest] [Sample.offer1; Sample.offer2] [Sample.desire1]
       [claimPending; ExportSummary.ClaimWithRelations.row Sample.claimDeclined]).

End Fixtures.

(** ** Vocabulary of the further statements *)

(** [item] was written by the member [k]. *)
Definition writtenBy (k : string) (item : ItemSummary.t) : bool :=
  bool_decide (ItemSummary.authorMembershipId item = k).

(** What the map of the grouping loop holds after the items [seen]: one key
    per author, each with the items of that author, in order. *)
Definition grouped_ok (grouped : list (string * list ItemSummary.t))
    (seen : list ItemSummary.t) : Prop :=
  NoDup (map fst grouped)
  /\ (forall k v, (k, v) ∈ grouped -> v = List.filter (writtenBy k) seen /\ v ≠ [])
  /\ (forall item, item ∈ seen -> ItemSummary.authorMembershipId item ∈ map fst grouped).

(** A reflection that the enjoyment endpoint may store: not empty, at most
    2000 long, without white space at its ends. *)
Definition enjoymentOk (text : string) : Prop :=
  text ≠ "" /\ Z.of_nat (String.length text) <= 2000 /\ JS.trim text = text.

Definition storedEnjoymentsOk (w : EnjoymentRoute.World) : Prop :=
  Forall
    (fun m => forall text, RoomMembership.enjoyment m = Some text -> enjoymentOk text)
    (EnjoymentRoute.memberships w).

(** The enjoyment endpoint serving a run of requests, one after the other. *)
Definition serveEnjoyments (isValidRoomCode : string -> bool)
    (normalizeRoomCode : string -> string) (requests : list EnjoymentRoute.Request)
    (w : EnjoymentRoute.World) : EnjoymentRoute.World :=
  fold_left
    (fun w request => snd (EnjoymentRoute.POST isValidRoomCode normalizeRoomCode request w))
    requests w.

(** The commitments of the host summary that name [key] as the giver, and
    as the receiver. *)
Definition givenBy (key : string) (info : ExportSummary.CommitmentInfo.t) : bool :=
  bool_decide (ExportSummary.CommitmentInfo.giverMembershipId info = key).

Definition receivedBy (key : string) (info : ExportSummary.CommitmentInfo.t) : bool :=
  bool_decide (ExportSummary.CommitmentInfo.receiverMembershipId info = key).

(** [top] names the first of [participants] whose [count] is the highest,
    when that count is positive; there is no [top] when no count is. *)
Definition firstMaximum (count : ExportSummary.ParticipantInfo.t -> Z)
    (participants : list ExportSummary.ParticipantInfo.t)
    (top : option ExportSummary.TopEntry.t) : Prop :=
  match top with
  | None => forall p, p ∈ participants -> count p <= 0
  | Some t =>
      exists (i : nat) p,
        participants !! i = Some p
        /\ ExportSummary.TopEntry.name t = ExportSummary.ParticipantInfo.name p
        /\ ExportSummary.TopEntry.count t = count p
        /\ 0 < count p
        /\ (forall q, q ∈ participants -> count q <= count p)
        /\ (forall (j : nat) q, (j < i)%nat -> participants !! j = Some q -> count q < count p)
  end.

(** The rows of [l] whose [key] is [k], in the order of [l]. *)
Definition withKey {A} (key : A -> Z) (k : Z) (l : list A) : list A :=
  List.filter (fun a => key a =? k) l.

(** A string of characters from [[a-z0-9-]] in which no dash follows a
    dash. *)
Definition startsWithDash (s : string) : bool :=
  match s with
  | String c _ => Filename.isDash c
  | EmptyString => false
  end.

Fixpoint dashSeparated (s : string) : bool :=
  match s with
  | EmptyString => true
  | String c s' =>
      (Filename.isLowerAlnum c || Filename.isDash c)
      && negb (Filename.isDash c && startsWithDash s')
      && dashSeparated s'
  end.

(** The sum of [count] over a list. *)
Definition sumOf {A} (count : A -> Z) (l : list A) : Z :=
  foldr (fun a acc => count a + acc) 0 l.

(** * Properties *)

(** ** Facts about [JS.sort] *)

Section SortFacts.
Context {A : Type} (cmp : A -> A -> Z).

Lemma insert_Permutation (a : A) (l : list A) : JS.insert cmp a l ≡ₚ a :: l.
Proof.
  induction l as [|b l IH]; simpl; [done|].
  destruct (cmp a b <=? 0); [done|].
  rewrite IH. apply Permutation_swap.
Qed.

Lemma sort_Permutation (l : list A) : JS.sort cmp l ≡ₚ l.
Proof.
  induction l as [|a l IH]; simpl; [done|].
  rewrite insert_Permutation. by rewrite IH.
Qed.

Lemma sort_length (l : list A) : length (JS.sort cmp l) = length l.
Proof. by rewrite sort_Permutation. Qed.

Lemma filter_insert_false (q : A -> bool) (a : A) (l : list A) :
  q a = false -> List.filter q (JS.insert cmp a l) = List.filter q l.
Proof.
  intros Hq. induction l as [|b l IH]; simpl; [by rewrite Hq|].
  destruct (cmp a b <=? 0); simpl; [by rewrite Hq|].
  by rewrite IH.
Qed.

Lemma existsb_insert (q : A -> bool) (a : A) (l : list A) :
  existsb q (JS.insert cmp a l) = q a || existsb q l.
Proof.
  induction l as [|b l IH]; simpl; [done|].
  destruct (cmp a b <=? 0); simpl; [done|].
  rewrite IH. by destruct (q a), (q b).
Qed.

Lemma existsb_sort (q : A -> bool) (l : list A) :
  existsb q (JS.sort cmp l) = existsb q l.
Proof.
  induction l as [|a l IH]; simpl; [done|].
  by rewrite existsb_insert, IH.
Qed.
End SortFacts.

(** Comparators of the form [(a, b) => key(a) - key(b)]. *)
Section SortByKey.
Context {A : Type} (key : A -> Z) (cmp : A -> A -> Z).
Hypothesis cmp_key : forall a b, cmp a b = key a - key b.

Local Abbreviation keyLe := (keyLe key).

Lemma insert_head (a : A) (l : list A) :
  Forall (keyLe a) l -> JS.insert cmp a l = a :: l.
Proof.
  destruct 1 as [|b l Hab _]; simpl; [done|].
  unfold keyLe in Hab. rewrite cmp_key.
  destruct (Z.leb_spec (key a - key b) 0); [done|lia].
Qed.

Lemma insert_StronglySorted (a : A) (l : list A) :
  StronglySorted keyLe l -> StronglySorted keyLe (JS.insert cmp a l).
Proof.
  induction 1 as [|b l Hl IH Hb]; simpl.
  - repeat constructor.
  - rewrite cmp_key. destruct (Z.leb_spec (key a - key b) 0) as [Hle|Hgt].
    + constructor; [by constructor|].
      constructor; [unfold keyLe; lia|].
      eapply Forall_impl; [exact Hb|]. unfold keyLe. intros; lia.
    + constructor; [done|].
      rewrite insert_Permutation. constructor; [unfold keyLe; lia|done].
Qed.

Lemma sort_StronglySorted (l : list A) : StronglySorted keyLe (JS.sort cmp l).
Proof.
  induction l as [|a l IH]; simpl; [constructor|].
  by apply insert_StronglySorted.
Qed.

Lemma filter_insert_true (q : A -> bool) (a : A) (l : list A) :
  q a = true -> StronglySorted keyLe l ->
  List.filter q (JS.insert cmp a l) = JS.insert cmp a (List.filter q l).
Proof.
  intros Hq. induction 1 as [|b l Hl IH Hb]; simpl; [by rewrite Hq|].
  rewrite cmp_key. destruct (Z.leb_spec (key a - key b) 0) as [Hle|Hgt].
  - change (List.filter q (a :: b :: l)) with
      (if q a then a :: List.filter q (b :: l) else List.filter q (b :: l)).
    rewrite Hq. symmetry. apply insert_head.
    assert (Hall : Forall (keyLe a) (b :: l)).
    { constructor; [unfold keyLe; lia|].
      eapply Forall_impl; [exact Hb|]. unfold keyLe. intros; lia. }
    rewrite Forall_forall in Hall. apply Forall_forall.
    intros x Hx. apply Hall. apply list_elem_of_In.
    apply list_elem_of_In, filter_In in Hx. tauto.
  - simpl. destruct (q b); simpl.
    + rewrite cmp_key. destruct (Z.leb_spec (key a - key b) 0); [lia|].
      by rewrite IH.
    + exact IH.
Qed.

(** Filtering commutes with the stable sort. *)
Lemma filter_sort (q : A -> bool) (l : list A) :
  List.filter q (JS.sort cmp l) = JS.sort cmp (List.filter q l).
Proof.
  induction l as [|a l IH]; simpl; [done|].
  destruct (q a) eqn:Hq; simpl.
  - rewrite filter_insert_true; [by rewrite IH|done|apply sort_StronglySorted].
  - by rewrite filter_insert_false.
Qed.
End SortByKey.

(** ** Round sequence *)

(** C5: over the fixed six-round sequence, [getNextRound] returns the round
    that immediately follows its argument in the sequence, returns [null]
    exactly for [SUMMARY], the last round, and [canAdvanceRound] holds exactly
    when [getNextRound] is not [null]. *)
Theorem getNextRound_is_successor :
  ROOM_ROUND_SEQUENCE = [WAITING; OFFERS; DESIRES; CONNECTIONS; DECISIONS; SUMMARY]
  /\ (forall r : RoomRound, r ∈ ROOM_ROUND_SEQUENCE)
  /\ (forall i : nat,
        ROOM_ROUND_SEQUENCE !! i ≫= getNextRound = ROOM_ROUND_SEQUENCE !! S i)
  /\ (forall r : RoomRound, getNextRound r = None <-> r = SUMMARY)
  /\ (forall r : RoomRound, canAdvanceRound r = true <-> getNextRound r ≠ None).
Proof.
  split; [reflexivity|]. split; [|split; [|split]].
  - intros r. unfold ROOM_ROUND_SEQUENCE. destruct r; set_solver.
  - intros i. do 6 (destruct i as [|i]; [reflexivity|]). reflexivity.
  - intros r. destruct r; vm_compute; split; congruence.
  - intros r. unfold canAdvanceRound. by rewrite bool_decide_eq_true.
Qed.

(** ** Room snapshot *)

Section SnapshotFacts.
Import RoomStatusData.
Variable toOfferSummary : Item.t -> ItemSummary.t.
Variable toDesireSummary : Item.t -> ItemSummary.t.
Variable toClaimSummary : Claim.t -> ClaimSummary.t.
Variable listActiveMemberships : string -> gmap string ActiveMembership.

Local Abbreviation snapshot :=
  (buildSnapshot toOfferSummary toDesireSummary toClaimSummary listActiveMemberships).

(** C6: the [rounds] array of the snapshot lists the six rounds of the fixed
    sequence in order, [isActive] marks exactly the current round and
    [isComplete] exactly the rounds before it; at [SUMMARY] the five earlier
    rounds are complete and only [SUMMARY] is active. *)
Theorem buildSnapshot_rounds (input : RoomInput) :
  let current := Room.currentRound (room input) in
  let rounds := RoomSnapshot.rounds (snapshot input) in
  map RoundState.round rounds = ROOM_ROUND_SEQUENCE
  /\ Forall
       (fun e =>
          RoundState.isActive e = bool_decide (RoundState.round e = current)
          /\ RoundState.isComplete e =
             bool_decide (JS.indexOf ROOM_ROUND_SEQUENCE (RoundState.round e)
                          < JS.indexOf ROOM_ROUND_SEQUENCE current))
       rounds
  /\ (current = SUMMARY ->
      map (fun e => (RoundState.round e, RoundState.isActive e, RoundState.isComplete e))
          rounds
      = [ (WAITING, false, true); (OFFERS, false, true); (DESIRES, false, true);
          (CONNECTIONS, false, true); (DECISIONS, false, true);
          (SUMMARY, true, false) ]).
Proof.
  simpl. destruct (Room.currentRound (room input)).
  all: split; [reflexivity|split; [repeat constructor|]].
  all: first [discriminate | reflexivity].
Qed.

(** C7: whatever the order of the input lists, the offers, desires and
    claims of the snapshot are the summaries of the input rows arranged by
    ascending creation time. *)
Theorem buildSnapshot_items_sorted (input : RoomInput) :
  (exists rows,
      RoomSnapshot.offers (snapshot input) = map toOfferSummary rows
      /\ rows ≡ₚ offers input
      /\ StronglySorted (keyLe Item.createdAt) rows)
  /\ (exists rows,
      RoomSnapshot.desires (snapshot input) = map toDesireSummary rows
      /\ rows ≡ₚ desires input
      /\ StronglySorted (keyLe Item.createdAt) rows)
  /\ (exists rows,
      RoomSnapshot.claims (snapshot input) = map toClaimSummary rows
      /\ rows ≡ₚ claims input
      /\ StronglySorted (keyLe Claim.createdAt) rows).
Proof.
  repeat split; eexists; (split; [reflexivity|]);
    (split; [apply sort_Permutation|by apply sort_StronglySorted]).
Qed.

Lemma insert_ext {A} (cmp1 cmp2 : A -> A -> Z) (a : A) (l : list A) :
  Forall (fun b => cmp1 a b = cmp2 a b) l -> JS.insert cmp1 a l = JS.insert cmp2 a l.
Proof.
  induction 1 as [|b l Hb _ IH]; simpl; [done|].
  by rewrite Hb, IH.
Qed.

Lemma Forall_filter_pred {A} (q : A -> bool) (l : list A) :
  Forall (fun a => q a = true) (List.filter q l).
Proof.
  apply Forall_forall. intros x Hx.
  apply list_elem_of_In, filter_In in Hx. tauto.
Qed.

(** With at most one host, [sortMembers] puts the host in front and sorts
    the other members by join time. *)
Lemma sortMembers_hosts_first (l : list RoomMember.t) :
  (length (List.filter isHost l) <= 1)%nat ->
  sortMembers l =
  List.filter isHost l ++ JS.sort compareJoinedAt (List.filter (fun m => negb (isHost m)) l).
Proof.
  unfold sortMembers. induction l as [|x l IH]; simpl; [done|].
  destruct (isHost x) eqn:Hx; simpl; intros Hlen.
  - destruct (List.filter isHost l) as [|h hs] eqn:Hh; [|simpl in Hlen; lia].
    rewrite IH by (simpl; lia). simpl.
    assert (Hc : forall b, compareMembers x b = -1).
    { intros b. unfold compareMembers. unfold isHost in Hx.
      apply bool_decide_eq_true in Hx. by rewrite decide_True. }
    destruct (JS.sort compareJoinedAt _); simpl; [done|by rewrite Hc].
  - rewrite IH by done.
    assert (Hnx : RoomMember.role x ≠ HOST).
    { unfold isHost in Hx. by apply bool_decide_eq_false in Hx. }
    assert (Htail :
      JS.insert compareMembers x
        (JS.sort compareJoinedAt (List.filter (fun m => negb (isHost m)) l))
      = JS.insert compareJoinedAt x
        (JS.sort compareJoinedAt (List.filter (fun m => negb (isHost m)) l))).
    { apply insert_ext. rewrite sort_Permutation.
      eapply Forall_impl; [apply Forall_filter_pred|].
      intros b Hb. unfold compareMembers, compareJoinedAt.
      rewrite decide_False by done. rewrite decide_False; [done|].
      unfold isHost in Hb. apply negb_true_iff, bool_decide_eq_false in Hb. done. }
    pose proof (Forall_filter_pred isHost l) as Hhosts.
    destruct (List.filter isHost l) as [|h hs]; simpl; [exact Htail|].
    destruct hs as [|h' hs]; [|simpl in Hlen; lia].
    inversion_clear Hhosts as [|? ? Hh _].
    unfold isHost in Hh. apply bool_decide_eq_true in Hh.
    unfold compareMembers at 1. rewrite decide_False by done.
    rewrite decide_True by done. simpl. by rewrite Htail.
Qed.

Lemma filter_map_length {A B} (f : A -> B) (q : B -> bool) (l : list A) :
  length (List.filter q (map f l)) = length (List.filter (fun a => q (f a)) l).
Proof.
  induction l as [|a l IH]; simpl; [done|].
  destruct (q (f a)); simpl; by rewrite IH.
Qed.

Lemma filter_map {A B} (f : A -> B) (q : B -> bool) (l : list A) :
  List.filter q (map f l) = map f (List.filter (fun a => q (f a)) l).
Proof.
  induction l as [|a l IH]; simpl; [done|].
  destruct (q (f a)); simpl; by rewrite IH.
Qed.

Lemma insert_map {A B} (f : A -> B) (cmp : B -> B -> Z) (cmp' : A -> A -> Z)
    (a : A) (l : list A) :
  (forall a b, cmp (f a) (f b) = cmp' a b) ->
  JS.insert cmp (f a) (map f l) = map f (JS.insert cmp' a l).
Proof.
  intros Hcmp. induction l as [|b l IH]; simpl; [done|].
  rewrite Hcmp. destruct (cmp' a b <=? 0); simpl; [done|]. by rewrite IH.
Qed.

Lemma sort_map {A B} (f : A -> B) (cmp : B -> B -> Z) (cmp' : A -> A -> Z) (l : list A) :
  (forall a b, cmp (f a) (f b) = cmp' a b) ->
  JS.sort cmp (map f l) = map f (JS.sort cmp' l).
Proof.
  intros Hcmp. induction l as [|a l IH]; simpl; [done|].
  rewrite IH. by apply insert_map.
Qed.

Lemma filter_partition_Permutation {A} (q : A -> bool) (l : list A) :
  List.filter q l ++ List.filter (fun a => negb (q a)) l ≡ₚ l.
Proof.
  induction l as [|a l IH]; simpl; [done|].
  destruct (q a); simpl.
  - by rewrite IH.
  - rewrite <- Permutation_middle. by rewrite IH.
Qed.

Lemma toMember_shows (active : gmap string ActiveMembership)
    (l : list MembershipWithUser.t) :
  Forall2 (shows active) l (map (toMember active) l).
Proof.
  induction l as [|m l IH]; simpl; constructor; [|exact IH].
  unfold shows, toMember, joinedAt. simpl. split_and!; try done.
  rewrite bool_decide_eq_true. by rewrite elem_of_dom.
Qed.

(** C8: with at most one [HOST] among the memberships, the member list of
    the snapshot shows exactly the input memberships, whatever the presence
    map: it shows, record by record, a rearrangement of the input memberships
    in which the host comes first and the other memberships follow by
    ascending join time; and a member is flagged active exactly when its
    membership id is a key of the presence map. *)
Theorem buildSnapshot_members (input : RoomInput) :
  (length (List.filter
             (fun m => bool_decide (RoomMembership.role (MembershipWithUser.row m) = HOST))
             (memberships input)) <= 1)%nat ->
  let active := listActiveMemberships (Room.id (room input)) in
  let members := RoomSnapshot.members (snapshot input) in
  (exists hosts others,
      hosts ++ others ≡ₚ memberships input
      /\ Forall2 (shows active) (hosts ++ others) members
      /\ (length hosts <= 1)%nat
      /\ Forall (fun m => RoomMembership.role (MembershipWithUser.row m) = HOST) hosts
      /\ Forall (fun m => RoomMembership.role (MembershipWithUser.row m) ≠ HOST) others
      /\ StronglySorted (keyLe joinedAt) others)
  /\ map RoomMember.membershipId members
     ≡ₚ map MembershipWithUser.id (memberships input)
  /\ Forall
       (fun m => RoomMember.isActive m = true <-> RoomMember.membershipId m ∈ dom active)
       members.
Proof.
  intros Hone active members.
  assert (Hperm : members ≡ₚ map (toMember active) (memberships input)).
  { apply sort_Permutation. }
  split; [|split].
  - set (hostRow := fun m : MembershipWithUser.t => isHost (toMember active m)).
    exists (List.filter hostRow (memberships input)),
      (JS.sort (fun a b => joinedAt a - joinedAt b)
         (List.filter (fun m => negb (hostRow m)) (memberships input))).
    assert (Hlen : (length (List.filter hostRow (memberships input)) <= 1)%nat)
      by exact Hone.
    split_and!.
    + rewrite sort_Permutation. apply filter_partition_Permutation.
    + assert (Hmembers :
        members
        = map (toMember active)
            (List.filter hostRow (memberships input)
             ++ JS.sort (fun a b => joinedAt a - joinedAt b)
                  (List.filter (fun m => negb (hostRow m)) (memberships input)))).
      { subst members. cbn [buildSnapshot RoomSnapshot.members].
        rewrite sortMembers_hosts_first by (by rewrite filter_map_length).
        rewrite map_app, !filter_map. f_equal.
        by apply sort_map. }
      rewrite Hmembers. apply toMember_shows.
    + exact Hlen.
    + eapply Forall_impl; [apply Forall_filter_pred|].
      intros m Hm. unfold hostRow, isHost in Hm. by apply bool_decide_eq_true in Hm.
    + rewrite sort_Permutation.
      eapply Forall_impl; [apply Forall_filter_pred|].
      intros m Hm. unfold hostRow, isHost in Hm.
      by apply negb_true_iff, bool_decide_eq_false in Hm.
    + by apply (sort_StronglySorted joinedAt).
  - rewrite Hperm. rewrite map_map. done.
  - rewrite Hperm. apply Forall_forall. intros m Hm.
    apply list_elem_of_fmap in Hm as (ms & -> & _). simpl.
    rewrite bool_decide_eq_true. by rewrite elem_of_dom.
Qed.

End SnapshotFacts.

Lemma buildSnapshot_members_witness :
  let input := Sample.input DESIRES in
  let active := Sample.onlyHostActive (Room.id (RoomStatusData.room input)) in
  let members :=
    RoomSnapshot.members
      (RoomStatusData.buildSnapshot Sample.toItemSummary Sample.toItemSummary
         Sample.toClaimSummary Sample.onlyHostActive input) in
  (length (List.filter
             (fun m => bool_decide (RoomMembership.role (MembershipWithUser.row m) = HOST))
             (RoomStatusData.memberships input)) <= 1)%nat
  /\ RoomStatusData.memberships input = [Sample.guest; Sample.host]
  /\ map RoomMember.membershipId members = ["membership-host"; "membership-guest"]
  /\ (exists hosts others,
        hosts ++ others ≡ₚ RoomStatusData.memberships input
        /\ Forall2 (shows active) (hosts ++ others) members
        /\ (length hosts <= 1)%nat
        /\ Forall (fun m => RoomMembership.role (MembershipWithUser.row m) = HOST) hosts
        /\ Forall (fun m => RoomMembership.role (MembershipWithUser.row m) ≠ HOST) others
        /\ StronglySorted (keyLe joinedAt) others).
Proof.
  split; [vm_compute; lia|]. split; [reflexivity|]. split; [reflexivity|].
  apply (buildSnapshot_members Sample.toItemSummary Sample.toItemSummary
           Sample.toClaimSummary Sample.onlyHostActive (Sample.input DESIRES)).
  vm_compute; lia.
Defined.

Lemma buildSnapshot_rounds_witness :
  let input := Sample.input SUMMARY in
  let rounds :=
    RoomSnapshot.rounds
      (RoomStatusData.buildSnapshot Sample.toItemSummary Sample.toItemSummary
         Sample.toClaimSummary Sample.onlyHostActive input) in
  Room.currentRound (RoomStatusData.room input) = SUMMARY
  /\ map (fun e => (RoundState.round e, RoundState.isActive e, RoundState.isComplete e))
         rounds
     = [ (WAITING, false, true); (OFFERS, false, true); (DESIRES, false, true);
         (CONNECTIONS, false, true); (DECISIONS, false, true);
         (SUMMARY, true, false) ].
Proof.
  split; [reflexivity|].
  apply (buildSnapshot_rounds Sample.toItemSummary Sample.toItemSummary
           Sample.toClaimSummary Sample.onlyHostActive (Sample.input SUMMARY)).
  reflexivity.
Defined.

(** The unit tests of [buildSnapshot], on the sample room. *)
Section SnapshotTests.
Import RoomStatusData.

Local Abbreviation snapshot :=
  (buildSnapshot Sample.toItemSummary Sample.toItemSummary Sample.toClaimSummary
     Sample.onlyHostActive (Sample.input DESIRES)).

Example marks_non_active_memberships_but_keeps_them :
  map (fun m => (RoomMember.membershipId m, RoomMember.role m, RoomMember.isActive m))
      (RoomSnapshot.members snapshot)
  = [ ("membership-host", HOST, true); ("membership-guest", PARTICIPANT, false) ].
Proof. reflexivity. Qed.

Example maps_offers_and_desires_into_summaries :
  map ItemSummary.id (RoomSnapshot.offers snapshot) = ["offer-1"; "offer-2"]
  /\ map ItemSummary.id (RoomSnapshot.desires snapshot) = ["desire-1"].
Proof. split; reflexivity. Qed.

Example includes_round_metadata_with_state :
  RoomSnapshot.nextRound snapshot = Some CONNECTIONS
  /\ RoomSnapshot.canAdvance snapshot = true
  /\ map RoundState.round (List.filter RoundState.isActive (RoomSnapshot.rounds snapshot))
     = [DESIRES]
  /\ map RoundState.round (List.filter RoundState.isComplete (RoomSnapshot.rounds snapshot))
     = [WAITING; OFFERS].
Proof. repeat split; reflexivity. Qed.
End SnapshotTests.

(** ** Claim gating on the connections page *)

Section ClaimGate.
Import Connections.

Lemma isPendingOn_spec (kind : ItemKind.t) (entity : ItemSummary.t) (c : ClaimSummary.t) :
  isPendingOn kind entity c = true
  <-> ClaimSummary.status c = ClaimStatus.PENDING /\ targets kind entity c.
Proof.
  unfold isPendingOn, targets.
  rewrite andb_true_iff, orb_true_iff, !andb_true_iff, !bool_decide_eq_true.
  destruct kind; intuition congruence.
Qed.

Lemma truthy_Some (s : string) : s ≠ "" -> JS.truthy (Some s) = true.
Proof. intros Hs. simpl. apply negb_true_iff. by apply String.eqb_neq. Qed.

Lemma hasPendingRequest_spec (membershipId : string) (roomClaims : list ClaimSummary.t)
    (kind : ItemKind.t) (entity : ItemSummary.t) :
  membershipId ≠ "" ->
  existsb (isPendingOn kind entity) (myClaimerClaims (Some membershipId) roomClaims) = true
  <-> hasPendingClaim membershipId roomClaims kind entity.
Proof.
  intros Hm. unfold myClaimerClaims, hasPendingClaim.
  rewrite truthy_Some by done. simpl negb. cbv iota.
  rewrite existsb_sort, existsb_exists. split.
  - intros (c & Hin & Hp). apply filter_In in Hin as [Hin Hc].
    apply bool_decide_eq_true in Hc. apply isPendingOn_spec in Hp as [Hs Ht].
    exists c. rewrite list_elem_of_In. split_and!; [done|congruence|done|done].
  - intros (c & Hin & Hc & Hs & Ht). exists c. split.
    + apply filter_In. split; [by apply list_elem_of_In|].
      apply bool_decide_eq_true. congruence.
    + by apply isPendingOn_spec.
Qed.

(** C4: for a member who has joined the room, [canStartClaim] refuses the
    claim exactly when the target is not [OPEN], or the member is the author
    of the target, or the member already has a [PENDING] claim on that very
    target; when none of the three holds the claim is allowed. *)
Theorem canStartClaim_rejects_exactly (membershipId : string)
    (roomClaims : list ClaimSummary.t) (entity : ItemSummary.t) (kind : ItemKind.t) :
  membershipId ≠ "" ->
  let gate := canStartClaim (Some membershipId) roomClaims entity kind in
  (allowed gate = false
   <-> ItemSummary.status entity ≠ ItemStatus.OPEN
       \/ membershipId = ItemSummary.authorMembershipId entity
       \/ hasPendingClaim membershipId roomClaims kind entity)
  /\ (ItemSummary.status entity = ItemStatus.OPEN ->
      membershipId ≠ ItemSummary.authorMembershipId entity ->
      ~ hasPendingClaim membershipId roomClaims kind entity ->
      gate = {| allowed := true; reason := None |}).
Proof.
  intros Hm. pose proof (hasPendingRequest_spec membershipId roomClaims kind entity Hm) as Hp.
  unfold canStartClaim. rewrite truthy_Some by done. simpl negb. cbv iota zeta.
  destruct (bool_decide_reflect
              (Some (ItemSummary.authorMembershipId entity) = Some membershipId)) as [Ha|Ha].
  { injection Ha as Ha. split; [simpl; intuition|congruence]. }
  destruct (bool_decide_reflect (ItemSummary.status entity ≠ ItemStatus.OPEN)) as [Hs|Hs].
  { split; [simpl; intuition|done]. }
  apply dec_stable in Hs.
  destruct (existsb _ _) eqn:He.
  - split; [simpl; intuition|]. intros _ _ Hn. destruct Hn. by apply Hp.
  - split; [|done]. simpl. split; [done|].
    intros [H|[H|H]]; [done|congruence|]. apply Hp in H. congruence.
Qed.

Lemma canStartClaim_rejects_exactly_witness :
  let membershipId := "membership-guest" in
  let entity := Sample.toItemSummary Sample.offer1 in
  let gate := canStartClaim (Some membershipId) [] entity ItemKind.offer in
  membershipId ≠ ""
  /\ (allowed gate = false
      <-> ItemSummary.status entity ≠ ItemStatus.OPEN
          \/ membershipId = ItemSummary.authorMembershipId entity
          \/ hasPendingClaim membershipId [] ItemKind.offer entity)
  /\ (ItemSummary.status entity = ItemStatus.OPEN ->
      membershipId ≠ ItemSummary.authorMembershipId entity ->
      ~ hasPendingClaim membershipId [] ItemKind.offer entity ->
      gate = {| allowed := true; reason := None |}).
Proof.
  split; [discriminate|].
  apply (canStartClaim_rejects_exactly "membership-guest" []
           (Sample.toItemSummary Sample.offer1) ItemKind.offer).
  discriminate.
Defined.

End ClaimGate.

(** ** The enjoyment endpoint *)

Section EnjoymentFacts.
Import EnjoymentRoute.
Variable isValidRoomCode : string -> bool.
Variable normalizeRoomCode : string -> string.

Local Abbreviation handle := (POST isValidRoomCode normalizeRoomCode).

Lemma find_map_preserved {A} (q : A -> bool) (f : A -> A) (l : list A) :
  (forall a, q (f a) = q a) -> List.find q (map f l) = f <$> List.find q l.
Proof.
  intros Hq. induction l as [|a l IH]; simpl; [done|].
  rewrite Hq. by destruct (q a).
Qed.

(** After the update, the row found for the same room and user is the old
    row with the new text. *)
Lemma findUnique_after_update (w : World) (roomId userId : string)
    (membership : RoomMembership.t) (enjoyment : string) :
  roomMembership_findUnique w roomId userId = Some membership ->
  roomMembership_findUnique
    (roomMembership_update w (RoomMembership.id membership) enjoyment) roomId userId
  = Some (setEnjoyment enjoyment membership).
Proof.
  unfold roomMembership_findUnique, roomMembership_update. simpl. intros Hfind.
  rewrite find_map_preserved.
  - rewrite Hfind. simpl. by rewrite bool_decide_true.
  - intros a. by destruct (bool_decide (RoomMembership.id a = RoomMembership.id membership)).
Qed.

Lemma POST_invalid_code (request : Request) (w : World) :
  validCode isValidRoomCode request = false ->
  handle request w = (json "Invalid room code" 400, w).
Proof.
  unfold validCode, POST. intros Hv.
  destruct (JS.truthy (Some (code request))), (isValidRoomCode (code request));
    simpl in *; done.
Qed.

Lemma POST_valid_code (request : Request) (w : World) :
  validCode isValidRoomCode request = true ->
  handle request w =
  match room_findUnique w (normalizeRoomCode (code request)) with
  | None => (json "Room not found" 404, w)
  | Some room =>
      if bool_decide (Room.currentRound room ≠ DECISIONS)
         && bool_decide (Room.currentRound room ≠ SUMMARY)
      then
        (json "Enjoyment can only be shared during the Decisions or Summary round" 409, w)
      else
        match roomMembership_findUnique w (Room.id room) (identityUserId request) with
        | None => (json "Not a member of this room" 403, w)
        | Some membership =>
            match body request with
            | EnjoymentText text =>
                if decide (JS.trim text = "") then (json "Enjoyment is required" 400, w)
                else if decide (2000 < Z.of_nat (String.length (JS.trim text))) then
                  (json "Enjoyment must be 2000 characters or less" 400, w)
                else
                  (Responds {| payload := SuccessBody; status := 200 |},
                   emitPresenceUpdate
                     (roomMembership_update w (RoomMembership.id membership) (JS.trim text))
                     {| pu_roomId := Room.id room; pu_reason := "updated" |})
            | WithoutEnjoyment => (json "Enjoyment is required" 400, w)
            | InvalidJson => (json "Invalid request body" 400, w)
            | JsonNull => (Throws, w)
            | EnjoymentNotText => (Throws, w)
            end
        end
  end.
Proof.
  unfold validCode, POST. intros Hv. apply andb_true_iff in Hv as [-> ->]. simpl.
  destruct (room_findUnique _ _) as [room|]; [|done].
  destruct (_ && _); [done|].
  destruct (roomMembership_findUnique _ _ _) as [membership|]; [|done].
  destruct (body request) as [| | |text|]; try done. simpl.
  destruct (decide (JS.trim text = "")) as [->|He]; [done|].
  rewrite (proj2 (String.eqb_neq _ _) He). simpl.
  destruct (decide (2000 < Z.of_nat (String.length (JS.trim text)))) as [Hl|Hl].
  - by rewrite (proj2 (Z.gtb_lt _ _) Hl).
  - destruct (Z.gtb_spec (Z.of_nat (String.length (JS.trim text))) 2000); [lia|done].
Qed.

(** C9: the enjoyment endpoint answers 404 for a missing room, 409 unless
    the room is in round [DECISIONS] or [SUMMARY], 403 for a caller who is not
    a member, and 400 for a body that is not JSON, for a body without
    [enjoyment], for text that is empty once trimmed and for trimmed text
    longer than 2000; otherwise it answers 200, and the membership then found
    for the caller is the caller's row with the trimmed text as its
    [enjoyment].  A body that is [null], or whose [enjoyment] is not a string,
    makes the handler throw once the gates are passed.  Whatever does not end
    in the 200 leaves the tables untouched. *)
Theorem POST_enjoyment_gates (request : Request) (w : World) :
  let result := fst (handle request w) in
  let w' := snd (handle request w) in
  let valid := validCode isValidRoomCode request in
  let found := room_findUnique w (normalizeRoomCode (code request)) in
  let ok := Responds {| payload := SuccessBody; status := 200 |} in
  (result ≠ ok -> w' = w)
  /\ (valid = false -> result = json "Invalid room code" 400)
  /\ (valid = true -> found = None -> result = json "Room not found" 404)
  /\ (forall room,
        valid = true -> found = Some room ->
        Room.currentRound room ≠ DECISIONS -> Room.currentRound room ≠ SUMMARY ->
        result
        = json "Enjoyment can only be shared during the Decisions or Summary round" 409)
  /\ (forall room,
        valid = true -> found = Some room ->
        Room.currentRound room = DECISIONS \/ Room.currentRound room = SUMMARY ->
        roomMembership_findUnique w (Room.id room) (identityUserId request) = None ->
        result = json "Not a member of this room" 403)
  /\ (forall room membership,
        valid = true -> found = Some room ->
        Room.currentRound room = DECISIONS \/ Room.currentRound room = SUMMARY ->
        roomMembership_findUnique w (Room.id room) (identityUserId request)
        = Some membership ->
        match body request with
        | InvalidJson => result = json "Invalid request body" 400
        | JsonNull => result = Throws
        | EnjoymentNotText => result = Throws
        | WithoutEnjoyment => result = json "Enjoyment is required" 400
        | EnjoymentText text =>
            if decide (JS.trim text = "") then result = json "Enjoyment is required" 400
            else if decide (2000 < Z.of_nat (String.length (JS.trim text))) then
              result = json "Enjoyment must be 2000 characters or less" 400
            else
              result = ok
              /\ rooms w' = rooms w
              /\ presenceUpdates w'
                 = presenceUpdates w
                   ++ [{| pu_roomId := Room.id room; pu_reason := "updated" |}]
              /\ exists stored,
                   roomMembership_findUnique w' (Room.id room) (identityUserId request)
                   = Some stored
                   /\ RoomMembership.enjoyment stored = Some (JS.trim text)
                   /\ RoomMembership.id stored = RoomMembership.id membership
                   /\ RoomMembership.roomId stored = RoomMembership.roomId membership
                   /\ RoomMembership.userId stored = RoomMembership.userId membership
                   /\ RoomMembership.role stored = RoomMembership.role membership
                   /\ RoomMembership.nickname stored = RoomMembership.nickname membership
                   /\ RoomMembership.readyForRound stored
                      = RoomMembership.readyForRound membership
                   /\ RoomMembership.createdAt stored = RoomMembership.createdAt membership
        end).
Proof.
  intros result w' valid found ok. subst result w' ok.
  destruct valid eqn:Hvalid; subst valid.
  2:{ rewrite POST_invalid_code by exact Hvalid. simpl. split_and!; done. }
  rewrite POST_valid_code by exact Hvalid.
  destruct found as [room|] eqn:Hfound; subst found; rewrite Hfound.
  2:{ simpl. split_and!; done. }
  destruct (bool_decide_reflect (Room.currentRound room ≠ DECISIONS)) as [Hd|Hd];
    [destruct (bool_decide_reflect (Room.currentRound room ≠ SUMMARY)) as [Hs|Hs]|]; simpl.
  1:{ split_and!; try done.
      - intros r _ [= <-] [?|?] _; done.
      - intros r m _ [= <-] [?|?] _; done. }
  all: assert (Hround : Room.currentRound room = DECISIONS \/ Room.currentRound room = SUMMARY)
         by (first [apply dec_stable in Hs | apply dec_stable in Hd]; tauto).
  all: destruct (roomMembership_findUnique w (Room.id room) (identityUserId request))
         as [membership|] eqn:Hmember.
  all: try (simpl; split_and!; try done;
            [ intros r _ [= <-] ? ?; tauto
            | intros r m _ [= <-] _ Hm; by rewrite Hmember in Hm ]).
  all: split_and!; try done;
         try (intros r _ [= <-] ? ?; tauto);
         try (intros r _ [= <-] _ Hm; by rewrite Hmember in Hm).
  all: try (intros r m _ [= <-] _ Hm; rewrite Hmember in Hm; injection Hm as <-).
  all: destruct (body request) as [| | |text|]; try done.
  all: destruct (decide (JS.trim text = "")); try done.
  all: destruct (decide (2000 < Z.of_nat (String.length (JS.trim text)))); try done.
  all: split_and!; try done.
  all: exists (setEnjoyment (JS.trim text) membership); split_and!; try done.
  all: by apply findUnique_after_update.
Qed.

End EnjoymentFacts.

Lemma POST_enjoyment_gates_witness :
  let request :=
    EnjoymentRoute.mkRequest "vow-empowerment" "user-guest"
      (EnjoymentRoute.EnjoymentText "  Loved it  ") in
  let w :=
    EnjoymentRoute.mkWorld [Sample.room DECISIONS]
      [Sample.hostMembership; Sample.guestMembership] [] in
  let result := EnjoymentRoute.POST (fun _ => true) (fun code => code) request w in
  (validCode (fun _ => true) request = true
   /\ EnjoymentRoute.room_findUnique w "vow-empowerment" = Some (Sample.room DECISIONS)
   /\ EnjoymentRoute.roomMembership_findUnique w "room-1" "user-guest"
      = Some Sample.guestMembership)
  /\ fst result
     = EnjoymentRoute.Responds {| EnjoymentRoute.payload := EnjoymentRoute.SuccessBody;
                                  EnjoymentRoute.status := 200 |}
  /\ exists stored,
       EnjoymentRoute.roomMembership_findUnique (snd result) "room-1" "user-guest"
       = Some stored
       /\ RoomMembership.enjoyment stored = Some "Loved it"
       /\ RoomMembership.id stored = "membership-guest".
Proof.
  split; [by split_and!|].
  pose proof
    (POST_enjoyment_gates (fun _ => true) (fun code => code)
       (EnjoymentRoute.mkRequest "vow-empowerment" "user-guest"
          (EnjoymentRoute.EnjoymentText "  Loved it  "))
       (EnjoymentRoute.mkWorld [Sample.room DECISIONS]
          [Sample.hostMembership; Sample.guestMembership] []))
    as (_ & _ & _ & _ & _ & Hsuccess).
  specialize (Hsuccess (Sample.room DECISIONS) Sample.guestMembership
                eq_refl eq_refl (or_introl eq_refl) eq_refl).
  vm_compute in Hsuccess.
  destruct Hsuccess as (Hresponse & _ & _ & stored & Hfound & Henjoyment & Hid & _).
  split; [exact Hresponse|]. exists stored. split; [exact Hfound|].
  split; [exact Henjoyment|exact Hid].
Defined.

(** The handler throws on a body that is [null]: the gates are passed and
    nothing is written. *)
Example POST_enjoyment_null_body :
  let w :=
    EnjoymentRoute.mkWorld [Sample.room DECISIONS]
      [Sample.hostMembership; Sample.guestMembership] [] in
  EnjoymentRoute.POST (fun _ => true) (fun code => code)
    (EnjoymentRoute.mkRequest "vow-empowerment" "user-guest" EnjoymentRoute.JsonNull) w
  = (EnjoymentRoute.Throws, w).
Proof. reflexivity. Qed.

(** ** Commitment derivation *)

Section CommitmentFacts.
Import ExportSummary Commitments.

Lemma memberStep_giving (m : string) (acc : MemberCommitments.t) (c : ClaimWithRelations.t) :
  MemberCommitments.giving (memberStep m acc c)
  = MemberCommitments.giving acc ++ givingOf m c.
Proof.
  unfold memberStep, memberDesireStep, memberOfferStep, givingOf.
  destruct (ClaimWithRelations.offer c) as [o|], (ClaimWithRelations.desire c) as [d|];
    repeat case_bool_decide; simpl;
    unfold pushGivingEntry, pushReceivingEntry, entry;
    by rewrite ?app_nil_r, <- ?app_assoc.
Qed.

Lemma memberStep_receiving (m : string) (acc : MemberCommitments.t)
    (c : ClaimWithRelations.t) :
  MemberCommitments.receiving (memberStep m acc c)
  = MemberCommitments.receiving acc ++ receivingOf m c.
Proof.
  unfold memberStep, memberDesireStep, memberOfferStep, receivingOf.
  destruct (ClaimWithRelations.offer c) as [o|], (ClaimWithRelations.desire c) as [d|];
    repeat case_bool_decide; simpl;
    unfold pushGivingEntry, pushReceivingEntry, entry;
    by rewrite ?app_nil_r, <- ?app_assoc.
Qed.

Lemma fold_memberStep (m : string) (l : list ClaimWithRelations.t)
    (acc : MemberCommitments.t) :
  MemberCommitments.giving (fold_left (memberStep m) l acc)
  = MemberCommitments.giving acc ++ flat_map (givingOf m) l
  /\ MemberCommitments.receiving (fold_left (memberStep m) l acc)
     = MemberCommitments.receiving acc ++ flat_map (receivingOf m) l.
Proof.
  revert acc. induction l as [|c l IH]; intros acc; simpl.
  - by rewrite !app_nil_r.
  - destruct (IH (memberStep m acc c)) as [-> ->].
    by rewrite memberStep_giving, memberStep_receiving, <- !app_assoc.
Qed.

(** [collectMemberCommitments] reads the claims once and leaves the database
    as it found it. *)
Lemma collectMemberCommitments_eq (roomId m : string) (db : Db) :
  collectMemberCommitments roomId m db
  = ({| MemberCommitments.giving := flat_map (givingOf m) (memberClaims roomId m db);
        MemberCommitments.receiving := flat_map (receivingOf m) (memberClaims roomId m db) |},
     db).
Proof.
  unfold collectMemberCommitments, mbind, DbM_bind, claim_findMany, mret, DbM_ret.
  fold (memberClaims roomId m db). f_equal.
  destruct (fold_memberStep m (memberClaims roomId m db)
              {| MemberCommitments.giving := []; MemberCommitments.receiving := [] |})
    as [Hg Hr].
  destruct (fold_left _ _ _) as [g r]. simpl in *. by rewrite Hg, Hr.
Qed.

Lemma allStep_commitments (t : Tally) (c : ClaimWithRelations.t) :
  commitments (allStep t c) = commitments t ++ commitmentsOf c.
Proof.
  unfold allStep, allDesireStep, allOfferStep, commitmentsOf.
  destruct (ClaimWithRelations.offer c) as [o|], (ClaimWithRelations.desire c) as [d|];
    simpl; by rewrite ?app_nil_r, <- ?app_assoc.
Qed.

Lemma fold_allStep_commitments (l : list ClaimWithRelations.t) (t : Tally) :
  commitments (fold_left allStep l t) = commitments t ++ flat_map commitmentsOf l.
Proof.
  revert t. induction l as [|c l IH]; intros t; simpl.
  - by rewrite app_nil_r.
  - by rewrite IH, allStep_commitments, <- app_assoc.
Qed.

Lemma tally_commitments (l : list ClaimWithRelations.t) :
  commitments (tally l) = flat_map commitmentsOf l.
Proof. unfold tally. by rewrite fold_allStep_commitments. Qed.

Lemma increment_lookup (counts : gmap string Z) (id key : string) :
  default 0 (increment counts id !! key)
  = default 0 (counts !! key) + (if bool_decide (id = key) then 1 else 0).
Proof.
  unfold increment. case_bool_decide as Hid.
  - subst. by rewrite lookup_insert_eq.
  - rewrite lookup_insert_ne by done. lia.
Qed.

(** After the loop, the two counters of a member are the number of
    commitments pushed with the member as giver and as receiver. *)
Lemma allStep_counts (key : string) (t : Tally) (c : ClaimWithRelations.t) :
  default 0 (givingCounts (allStep t c) !! key)
  = default 0 (givingCounts t !! key)
    + Z.of_nat (length (List.filter (givenBy key) (commitmentsOf c)))
  /\ default 0 (receivingCounts (allStep t c) !! key)
     = default 0 (receivingCounts t !! key)
       + Z.of_nat (length (List.filter (receivedBy key) (commitmentsOf c))).
Proof.
  unfold allStep, allDesireStep, allOfferStep, commitmentsOf, record, givenBy, receivedBy.
  destruct (ClaimWithRelations.offer c) as [o|];
    destruct (ClaimWithRelations.desire c) as [d|];
    cbn [givingCounts receivingCounts app List.filter commitmentInfo
         CommitmentInfo.giverMembershipId CommitmentInfo.receiverMembershipId];
    rewrite ?increment_lookup; split; repeat case_bool_decide; cbn [length]; lia.
Qed.

Lemma fold_allStep_counts (key : string) (l : list ClaimWithRelations.t) (t : Tally) :
  default 0 (givingCounts (fold_left allStep l t) !! key)
  = default 0 (givingCounts t !! key)
    + Z.of_nat (length (List.filter (givenBy key) (flat_map commitmentsOf l)))
  /\ default 0 (receivingCounts (fold_left allStep l t) !! key)
     = default 0 (receivingCounts t !! key)
       + Z.of_nat (length (List.filter (receivedBy key) (flat_map commitmentsOf l))).
Proof.
  revert t. induction l as [|c l IH]; intros t; simpl; [lia|].
  destruct (IH (allStep t c)) as [-> ->].
  destruct (allStep_counts key t c) as [-> ->].
  rewrite !List.filter_app, !length_app. lia.
Qed.

Lemma tally_counts (key : string) (l : list ClaimWithRelations.t) :
  default 0 (givingCounts (tally l) !! key)
  = Z.of_nat (length (List.filter (givenBy key) (commitments (tally l))))
  /\ default 0 (receivingCounts (tally l) !! key)
     = Z.of_nat (length (List.filter (receivedBy key) (commitments (tally l)))).
Proof.
  rewrite tally_commitments. unfold tally.
  destruct (fold_allStep_counts key l
              {| givingCounts := ∅; receivingCounts := ∅; commitments := [] |})
    as [-> ->].
  cbn [givingCounts receivingCounts]. rewrite !lookup_empty. simpl. lia.
Qed.




Lemma in_acceptedClaimsOf (roomId : string) (db : Db) (c : ClaimWithRelations.t) :
  c ∈ acceptedClaimsOf roomId db
  <-> c ∈ claims db
      /\ Claim.roomId (ClaimWithRelations.row c) = roomId
      /\ Claim.status (ClaimWithRelations.row c) = ClaimStatus.ACCEPTED.
Proof.
  unfold acceptedClaimsOf, acceptedWhere.
  rewrite !list_elem_of_In, filter_In, andb_true_iff, !bool_decide_eq_true.
  tauto.
Qed.

Lemma memberWhere_accepted (roomId m : string) (c : ClaimWithRelations.t) :
  memberWhere roomId m c = true ->
  Claim.roomId (ClaimWithRelations.row c) = roomId
  /\ Claim.status (ClaimWithRelations.row c) = ClaimStatus.ACCEPTED.
Proof.
  unfold memberWhere. rewrite !andb_true_iff, !bool_decide_eq_true. tauto.
Qed.






Lemma filter_filter_implied {A} (p q : A -> bool) (l : list A) :
  (forall a, p a = true -> q a = true) ->
  List.filter p (List.filter q l) = List.filter p l.
Proof.
  intros Hpq. induction l as [|a l IH]; simpl; [done|].
  destruct (q a) eqn:Hq, (p a) eqn:Hp; simpl; rewrite ?Hp, ?IH; try done.
  apply Hpq in Hp. congruence.
Qed.

Lemma filter_comm {A} (p q : A -> bool) (l : list A) :
  List.filter p (List.filter q l) = List.filter q (List.filter p l).
Proof.
  induction l as [|a l IH]; simpl; [done|].
  destruct (q a) eqn:Hq, (p a) eqn:Hp; simpl; by rewrite ?Hp, ?Hq, ?IH.
Qed.

Lemma fold_left_filter_skip {A B} (f : B -> A -> B) (q : A -> bool) (l : list A) (b : B) :
  (forall a b, q a = false -> f b a = b) ->
  fold_left f (List.filter q l) b = fold_left f l b.
Proof.
  intros Hskip. revert b. induction l as [|a l IH]; intros b; simpl; [done|].
  destruct (q a) eqn:Hq; simpl; [done|]. by rewrite Hskip.
Qed.

(** Both loops pass over a claim that has no target. *)
Lemma steps_skip_unresolvable (c : ClaimWithRelations.t) :
  resolvable c = false ->
  (forall m acc, memberStep m acc c = acc) /\ (forall t, allStep t c = t).
Proof.
  unfold resolvable. intros Hc. apply orb_false_iff in Hc as [Ho Hd].
  apply bool_decide_eq_false in Ho, Hd.
  unfold memberStep, memberDesireStep, memberOfferStep, allStep, allDesireStep, allOfferStep.
  destruct (ClaimWithRelations.offer c); [by destruct Ho|].
  destruct (ClaimWithRelations.desire c); [by destruct Hd|]. done.
Qed.

Lemma collectMemberCommitments_fold (roomId m : string) (db : Db) :
  fst (collectMemberCommitments roomId m db)
  = fold_left (memberStep m) (memberClaims roomId m db)
      {| MemberCommitments.giving := []; MemberCommitments.receiving := [] |}.
Proof. reflexivity. Qed.

Lemma summarize_tally (r1 r2 : RoomWithRelations.t) :
  RoomWithRelations.memberships r1 = RoomWithRelations.memberships r2 ->
  RoomWithRelations.offers r1 = RoomWithRelations.offers r2 ->
  RoomWithRelations.desires r1 = RoomWithRelations.desires r2 ->
  tally (RoomWithRelations.claims r1) = tally (RoomWithRelations.claims r2) ->
  summarize r1 = summarize r2.
Proof. unfold summarize. by intros -> -> -> ->. Qed.

(** The result of [collectAllCommitments] depends on the claims table only
    through the tally of the accepted claims of the room. *)
Lemma collectAllCommitments_claims (roomId : string) (db : Db)
    (claims' : list ClaimWithRelations.t) :
  (forall r, tally (acceptedClaimsOf r (withClaims db claims'))
             = tally (acceptedClaimsOf r db)) ->
  fst (collectAllCommitments roomId (withClaims db claims'))
  = fst (collectAllCommitments roomId db).
Proof.
  intros Htally.
  unfold collectAllCommitments, mbind, DbM_bind, room_findUnique, mret, DbM_ret. simpl.
  destruct (List.find _ (rooms db)) as [r|]; [|done]. simpl.
  apply summarize_tally; try done. apply (Htally (Room.id r)).
Qed.

Lemma collectAllCommitments_db (roomId : string) (db : Db) :
  snd (collectAllCommitments roomId db) = db.
Proof.
  unfold collectAllCommitments, mbind, DbM_bind, room_findUnique, mret, DbM_ret.
  by destruct (List.find _ _).
Qed.




(** C2: a claim whose offer and desire are both missing (a dangling
    reference, or both references [null]) is passed over by both loops, which
    are total functions of the claims they read: each derivation returns the
    result it returns on the table without such claims, and returns the
    database as it found it. *)
Theorem unresolvable_claims_are_skipped (db : Db) (roomId : string) :
  (forall c,
      ClaimWithRelations.offer c = None ->
      ClaimWithRelations.desire c = None ->
      (forall m acc, memberStep m acc c = acc) /\ (forall t, allStep t c = t))
  /\ (forall m,
      collectMemberCommitments roomId m db
      = (fst (collectMemberCommitments roomId m
                (withClaims db (List.filter resolvable (claims db)))),
         db))
  /\ collectAllCommitments roomId db
     = (fst (collectAllCommitments roomId
               (withClaims db (List.filter resolvable (claims db)))),
        db).
Proof.
  split_and!.
  - intros c Ho Hd. apply steps_skip_unresolvable.
    unfold resolvable. by rewrite Ho, Hd.
  - intros m. apply injective_projections; cbn [fst snd];
      [|by rewrite collectMemberCommitments_eq].
    rewrite !collectMemberCommitments_fold. unfold memberClaims, orderByAsc. simpl.
    rewrite filter_comm.
    rewrite <- (filter_sort (fun c => Claim.updatedAt (ClaimWithRelations.row c)) _
                  (fun _ _ => eq_refl) resolvable).
    rewrite fold_left_filter_skip; [done|].
    intros c acc Hc. by apply steps_skip_unresolvable.
  - apply injective_projections; cbn [fst snd]; [|apply collectAllCommitments_db].
    symmetry. apply collectAllCommitments_claims. intros r.
    unfold acceptedClaimsOf, tally. simpl. rewrite filter_comm.
    rewrite fold_left_filter_skip; [done|].
    intros c t Hc. by apply steps_skip_unresolvable.
Qed.

Lemma unresolvable_claims_are_skipped_witness :
  (ClaimWithRelations.offer Sample.claimDangling = None
   /\ ClaimWithRelations.desire Sample.claimDangling = None)
  /\ (forall m acc, memberStep m acc Sample.claimDangling = acc)
  /\ (forall t, allStep t Sample.claimDangling = t).
Proof.
  split; [done|].
  exact (proj1 (unresolvable_claims_are_skipped Sample.db "room-1")
           Sample.claimDangling eq_refl eq_refl).
Defined.













(** Scenarios A and B of the specification, on the sample database: the
    accepted claim on the host's offer is the only one that shows. *)
Example sample_commitments :
  fst (collectMemberCommitments "room-1" "membership-host" Sample.db)
  = {| MemberCommitments.giving :=
         [entry Role.giving ItemKind.offer Sample.offerByHost Sample.guest
            Sample.claimAccepted];
       MemberCommitments.receiving := [] |}
  /\ fst (collectMemberCommitments "room-1" "membership-guest" Sample.db)
     = {| MemberCommitments.giving := [];
          MemberCommitments.receiving :=
            [entry Role.receiving ItemKind.offer Sample.offerByHost Sample.host
               Sample.claimAccepted] |}
  /\ HostSummaryData.commitments (fst (collectAllCommitments "room-1" Sample.db))
     = [commitmentInfo ItemKind.offer Sample.offerByHost Sample.host Sample.guest
          Sample.claimAccepted].
Proof. repeat split; reflexivity. Qed.

(** The claim with two targets counts once as given and once as received
    for each of the two members. *)
Example sample_both_targets :
  map (fun p => (ParticipantInfo.membershipId p, ParticipantInfo.givingCount p,
                 ParticipantInfo.receivingCount p))
      (HostSummaryData.participants (fst (collectAllCommitments "room-1" Sample.dbBoth)))
  = [ ("membership-host", 1, 1); ("membership-guest", 1, 1) ]
  /\ Stats.totalCommitments
       (HostSummaryData.stats (fst (collectAllCommitments "room-1" Sample.dbBoth))) = 2.
Proof. split; reflexivity. Qed.

End CommitmentFacts.

(** * Further properties *)

(** ** Round order *)

(** X1: [isRoundOrderValid current next] holds exactly when [next] is the
    round that [getNextRound] returns for [current]. *)
Theorem isRoundOrderValid_iff_next (current next : RoomRound) :
  isRoundOrderValid current next = true <-> getNextRound current = Some next.
Proof. destruct current, next; vm_compute; split; congruence. Qed.

(** ** Navigation and readiness in the room shell *)

Section RoomShellFacts.
Import RoomShell.

(** X2: the navigation only grows with the rounds: a link that is offered in
    one round is offered in every later round; the waiting room offers none
    and the summary round offers all. *)
Theorem availableLinks_monotone :
  (forall r r' link,
      JS.indexOf ROOM_ROUND_SEQUENCE r <= JS.indexOf ROOM_ROUND_SEQUENCE r' ->
      link ∈ availableLinks r -> link ∈ availableLinks r')
  /\ availableLinks WAITING = []
  /\ availableLinks SUMMARY = NAV_LINKS.
Proof.
  split; [|split; reflexivity].
  intros r r' link Hle. unfold availableLinks, roundIndex.
  rewrite !list_elem_of_In, !filter_In. intros [Hin Hmin]. split; [done|].
  apply Z.geb_le in Hmin. apply Z.geb_le. lia.
Qed.

Lemma availableLinks_monotone_witness :
  JS.indexOf ROOM_ROUND_SEQUENCE OFFERS <= JS.indexOf ROOM_ROUND_SEQUENCE DECISIONS
  /\ mkNavLink "offers" "My Offers" OFFERS_INDEX ∈ availableLinks OFFERS
  /\ mkNavLink "offers" "My Offers" OFFERS_INDEX ∈ availableLinks DECISIONS.
Proof.
  assert (Hle : JS.indexOf ROOM_ROUND_SEQUENCE OFFERS
                <= JS.indexOf ROOM_ROUND_SEQUENCE DECISIONS) by (vm_compute; discriminate).
  assert (Hin : mkNavLink "offers" "My Offers" OFFERS_INDEX ∈ availableLinks OFFERS).
  { apply elem_of_cons. right. apply elem_of_cons. by left. }
  split; [exact Hle|]. split; [exact Hin|].
  exact (proj1 availableLinks_monotone OFFERS DECISIONS _ Hle Hin).
Defined.

Lemma filter_length_le {A} (q : A -> bool) (l : list A) :
  (length (List.filter q l) <= length l)%nat.
Proof. induction l as [|a l IH]; simpl; [done|]. destruct (q a); simpl; lia. Qed.

Lemma filter_length_all {A} (q : A -> bool) (l : list A) :
  length (List.filter q l) = length l <-> Forall (fun a => q a = true) l.
Proof.
  induction l as [|a l IH]; simpl; [by split|].
  pose proof (filter_length_le q l). destruct (q a) eqn:Hq; simpl.
  - rewrite Forall_cons. split.
    + intros Hlen. split; [done|]. apply IH. lia.
    + intros [_ Hall]. f_equal. by apply IH.
  - split; [lia|]. intros Hall. apply Forall_cons in Hall as [Ha _]. congruence.
Qed.

Lemma filter_partition_length {A} (q : A -> bool) (l : list A) :
  (length (List.filter q l) + length (List.filter (fun a => negb (q a)) l))%nat = length l.
Proof. induction l as [|a l IH]; simpl; [done|]. destruct (q a); simpl; lia. Qed.

(** X3: every member is either ready or not ready for the current round, and
    [allReady] holds exactly when the room has a member and every member has
    marked the current round. *)
Theorem allReady_iff (members : list RoomMember.t) (currentRound : RoomRound) :
  (readyCount members currentRound
   + Z.of_nat (length (notReadyMembers members currentRound))
   = totalMembers members)
  /\ (allReady members currentRound = true
      <-> members ≠ []
          /\ Forall (fun m => RoomMember.readyForRound m = Some currentRound) members).
Proof.
  unfold allReady, readyCount, totalMembers, readyMembers, notReadyMembers. split.
  - pose proof (filter_partition_length
                  (fun m => bool_decide (RoomMember.readyForRound m = Some currentRound))
                  members) as Hsum.
    replace (List.filter
               (fun m => bool_decide (RoomMember.readyForRound m ≠ Some currentRound))
               members)
      with (List.filter
              (fun m => negb (bool_decide (RoomMember.readyForRound m = Some currentRound)))
              members); [lia|].
    apply filter_ext. intros m. by rewrite bool_decide_not.
  - rewrite andb_true_iff, Z.eqb_eq, Z.gtb_lt, Nat2Z.inj_iff, filter_length_all.
    split.
    + intros [Hall Hpos]. split; [intros ->; simpl in Hpos; lia|].
      eapply Forall_impl; [exact Hall|]. intros m Hm. by apply bool_decide_eq_true in Hm.
    + intros [Hne Hall]. split.
      * eapply Forall_impl; [exact Hall|]. intros m Hm. by apply bool_decide_eq_true.
      * destruct members; [done|simpl; lia].
Qed.

End RoomShellFacts.

(** ** Display names *)

Section TrimFacts.

Lemma trimEnd_cons_nonwhite (c : ascii) (s : string) :
  JS.isWhiteSpace c = false -> exists t, JS.trimEnd (String c s) = String c t.
Proof. intros Hc. simpl. destruct (JS.trimEnd s); rewrite ?Hc; eauto. Qed.

Lemma trimStart_trimEnd (s : string) :
  JS.trimStart (JS.trimEnd s) = JS.trimEnd (JS.trimStart s).
Proof.
  induction s as [|c s IH]; [done|].
  destruct (JS.isWhiteSpace c) eqn:Hc.
  - change (JS.trimStart (String c s)) with
      (if JS.isWhiteSpace c then JS.trimStart s else String c s).
    rewrite Hc, <- IH. simpl. destruct (JS.trimEnd s) as [|c' t] eqn:Ht.
    + by rewrite Hc.
    + simpl. by rewrite Hc.
  - destruct (trimEnd_cons_nonwhite c s Hc) as [t Ht].
    simpl JS.trimStart at 2. rewrite Hc, Ht. simpl. by rewrite Hc.
Qed.

Lemma trimStart_idem (s : string) : JS.trimStart (JS.trimStart s) = JS.trimStart s.
Proof.
  induction s as [|c s IH]; [done|]. simpl.
  destruct (JS.isWhiteSpace c) eqn:Hc; [done|]. simpl. by rewrite Hc.
Qed.

Lemma trimEnd_idem (s : string) : JS.trimEnd (JS.trimEnd s) = JS.trimEnd s.
Proof.
  induction s as [|c s IH]; [done|]. simpl.
  destruct (JS.trimEnd s) as [|c' t] eqn:Ht.
  - destruct (JS.isWhiteSpace c) eqn:Hc; [done|]. simpl. by rewrite Hc.
  - simpl in *. by rewrite IH.
Qed.

Lemma trim_idem (s : string) : JS.trim (JS.trim s) = JS.trim s.
Proof.
  unfold JS.trim. by rewrite trimStart_trimEnd, trimStart_idem, trimEnd_idem.
Qed.

Lemma truthy_ne (s : string) : JS.truthy (Some s) = true <-> s ≠ "".
Proof. simpl. rewrite negb_true_iff. apply String.eqb_neq. Qed.

End TrimFacts.

Section DisplayNameFacts.
Import ExportSummary ConnectionsList.

(** X4: the name printed for a member, by the exports and by the
    connections page alike, is never empty and carries no white space at its
    ends. *)
Theorem display_names_clean :
  (forall member : MembershipWithUser.t,
      formatMemberDisplayName member ≠ ""
      /\ JS.trim (formatMemberDisplayName member) = formatMemberDisplayName member)
  /\ (forall (members : list RoomMember.t) (membership : string),
      getMemberDisplayName members membership ≠ ""
      /\ JS.trim (getMemberDisplayName members membership)
         = getMemberDisplayName members membership).
Proof.
  split.
  - intros member. unfold formatMemberDisplayName.
    destruct (RoomMembership.nickname (MembershipWithUser.row member)) as [n|]; simpl.
    1: destruct (String.eqb_spec (JS.trim n) ""); simpl; [|by rewrite trim_idem].
    all: destruct (User.displayName (MembershipWithUser.user member)) as [d|]; simpl.
    all: try (destruct (String.eqb_spec (JS.trim d) ""); simpl; [|by rewrite trim_idem]).
    all: by destruct (decide _).
  - intros members membership. unfold getMemberDisplayName.
    destruct (List.find _ members) as [entry|]; [|done].
    destruct (RoomMember.nickname entry) as [n|]; simpl.
    1: destruct (String.eqb_spec (JS.trim n) ""); simpl; [|by rewrite trim_idem].
    all: destruct (RoomMember.displayName entry) as [d|]; simpl.
    all: try (destruct (String.eqb_spec (JS.trim d) ""); simpl; [|by rewrite trim_idem]).
    all: by destruct (decide _).
Qed.

(** The member record of the snapshot shows under the name of the
    membership it was made from. *)
Lemma getMemberDisplayName_found (members : list RoomMember.t) (key : string)
    (active : gmap string RoomStatusData.ActiveMembership) (m : MembershipWithUser.t) :
  List.find (fun member => bool_decide (RoomMember.membershipId member = key)) members
  = Some (RoomStatusData.toMember active m) ->
  getMemberDisplayName members key = formatMemberDisplayName m.
Proof. unfold getMemberDisplayName. by intros ->. Qed.

Lemma find_by_key_unique {A} (key : A -> string) (l : list A) (x : A) :
  NoDup (map key l) -> x ∈ l ->
  List.find (fun y => bool_decide (key y = key x)) l = Some x.
Proof.
  induction l as [|a l IH]; simpl; intros Hnd Hx; [by apply elem_of_nil in Hx|].
  apply NoDup_cons in Hnd as [Ha Hnd]. apply elem_of_cons in Hx as [->|Hx].
  - by rewrite bool_decide_true.
  - rewrite bool_decide_false; [by apply IH|].
    intros Heq. apply Ha. rewrite Heq. apply list_elem_of_fmap. eauto.
Qed.

Lemma find_by_key_absent {A} (key : A -> string) (l : list A) (k : string) :
  k ∉ map key l -> List.find (fun y => bool_decide (key y = k)) l = None.
Proof.
  induction l as [|a l IH]; simpl; intros Hk; [done|].
  apply not_elem_of_cons in Hk as [Hne Hk].
  rewrite bool_decide_false by done. by apply IH.
Qed.

Section SnapshotNames.
Variable toOfferSummary : Item.t -> ItemSummary.t.
Variable toDesireSummary : Item.t -> ItemSummary.t.
Variable toClaimSummary : Claim.t -> ClaimSummary.t.
Variable listActiveMemberships : string -> gmap string RoomStatusData.ActiveMembership.

(** X5: when membership ids are unique, the connections page shows every
    member of a snapshot under the very name that the exports print for the
    membership, and shows [Unknown] for an id that is not in the room. *)
Theorem snapshot_names_agree (input : RoomStatusData.RoomInput) :
  NoDup (map MembershipWithUser.id (RoomStatusData.memberships input)) ->
  let members :=
    RoomSnapshot.members
      (RoomStatusData.buildSnapshot toOfferSummary toDesireSummary toClaimSummary
         listActiveMemberships input) in
  (forall m, m ∈ RoomStatusData.memberships input ->
             getMemberDisplayName members (MembershipWithUser.id m)
             = formatMemberDisplayName m)
  /\ (forall key, key ∉ map MembershipWithUser.id (RoomStatusData.memberships input) ->
                  getMemberDisplayName members key = "Unknown").
Proof.
  intros Hnd members.
  set (active := listActiveMemberships (Room.id (RoomStatusData.room input))).
  assert (Hperm : members ≡ₚ map (RoomStatusData.toMember active)
                               (RoomStatusData.memberships input))
    by apply sort_Permutation.
  assert (Hids : map RoomMember.membershipId members
                 ≡ₚ map MembershipWithUser.id (RoomStatusData.memberships input)).
  { rewrite Hperm, map_map. done. }
  split.
  - intros m Hm. apply (getMemberDisplayName_found _ _ active).
    apply (find_by_key_unique RoomMember.membershipId members
             (RoomStatusData.toMember active m)).
    + by rewrite Hids.
    + rewrite Hperm. apply list_elem_of_fmap. eauto.
  - intros key Hkey. unfold getMemberDisplayName.
    rewrite (find_by_key_absent RoomMember.membershipId); [done|]. by rewrite Hids.
Qed.
End SnapshotNames.

Lemma snapshot_names_agree_witness :
  let input := Sample.input DESIRES in
  let members :=
    RoomSnapshot.members
      (RoomStatusData.buildSnapshot Sample.toItemSummary Sample.toItemSummary
         Sample.toClaimSummary Sample.onlyHostActive input) in
  NoDup (map MembershipWithUser.id (RoomStatusData.memberships input))
  /\ (forall m, m ∈ RoomStatusData.memberships input ->
                getMemberDisplayName members (MembershipWithUser.id m)
                = formatMemberDisplayName m)
  /\ (forall key, key ∉ map MembershipWithUser.id (RoomStatusData.memberships input) ->
                  getMemberDisplayName members key = "Unknown").
Proof.
  assert (Hnd : NoDup (map MembershipWithUser.id
                         (RoomStatusData.memberships (Sample.input DESIRES)))).
  { change (NoDup ["membership-guest"; "membership-host"]).
    apply NoDup_cons. split; [|apply NoDup_singleton].
    intros H. apply list_elem_of_singleton in H. discriminate. }
  split; [exact Hnd|].
  exact (snapshot_names_agree Sample.toItemSummary Sample.toItemSummary
           Sample.toClaimSummary Sample.onlyHostActive (Sample.input DESIRES) Hnd).
Defined.

End DisplayNameFacts.

(** ** The connections page: what is listed and what can be requested *)

Section ConnectionsListFacts.
Import Connections ConnectionsList.

(** X6: for a member who has joined, every offer or desire that the page
    lists comes from the room, is [OPEN] and belongs to somebody else, so the
    only thing that can keep the member from requesting it is a bid of theirs
    that is still pending on it. *)
Theorem visible_items_are_claimable (toLowerCase : string -> string)
    (membershipId : string)
    (members : list RoomMember.t) (searchTerm : string)
    (roomClaims : list ClaimSummary.t) (items : list ItemSummary.t) (kind : ItemKind.t)
    (item : ItemSummary.t) :
  membershipId ≠ "" ->
  item ∈ visibleItems toLowerCase (Some membershipId) members searchTerm items ->
  item ∈ items
  /\ ItemSummary.status item = ItemStatus.OPEN
  /\ ItemSummary.authorMembershipId item ≠ membershipId
  /\ (allowed (canStartClaim (Some membershipId) roomClaims item kind) = false
      <-> hasPendingClaim membershipId roomClaims kind item).
Proof.
  intros Hm Hitem. unfold visibleItems in Hitem.
  apply list_elem_of_In, filter_In in Hitem as [Hin Hkeep].
  destruct (bool_decide_reflect (ItemSummary.status item ≠ ItemStatus.OPEN)) as [Hs|Hs];
    [done|].
  apply dec_stable in Hs. rewrite truthy_Some in Hkeep by done. simpl in Hkeep.
  destruct (bool_decide_reflect
              (Some (ItemSummary.authorMembershipId item) = Some membershipId))
    as [Ha|Ha]; [done|].
  split_and!; [by apply list_elem_of_In|done|congruence|].
  pose proof (hasPendingRequest_spec membershipId roomClaims kind item Hm) as Hp.
  unfold canStartClaim. rewrite truthy_Some by done. simpl negb. cbv iota zeta.
  rewrite (bool_decide_false _ Ha), bool_decide_false by (intros H; by apply H).
  destruct (existsb _ _); simpl; split; intros H; try done.
  - by apply Hp.
  - apply Hp in H. discriminate.
Qed.

Lemma visible_items_are_claimable_witness :
  let item := Sample.toItemSummary Sample.offer1 in
  let listed :=
    visibleItems JSString.toLowerCaseLatin1 (Some "membership-guest") [] "" [item] in
  ("membership-guest" ≠ "" /\ item ∈ listed)
  /\ item ∈ [item]
  /\ ItemSummary.status item = ItemStatus.OPEN
  /\ ItemSummary.authorMembershipId item ≠ "membership-guest"
  /\ (allowed (canStartClaim (Some "membership-guest") [] item ItemKind.offer) = false
      <-> hasPendingClaim "membership-guest" [] ItemKind.offer item).
Proof.
  assert (Hin : Sample.toItemSummary Sample.offer1
                ∈ visibleItems JSString.toLowerCaseLatin1 (Some "membership-guest") [] ""
                    [Sample.toItemSummary Sample.offer1])
    by (apply elem_of_cons; by left).
  split; [split; [discriminate|exact Hin]|].
  apply (visible_items_are_claimable JSString.toLowerCaseLatin1 "membership-guest" [] "" []
           [Sample.toItemSummary Sample.offer1] ItemKind.offer _ ltac:(discriminate) Hin).
Defined.

Lemma toLowerCaseLatin1_app (s t : string) :
  JSString.toLowerCaseLatin1 (s ++ t)%string
  = (JSString.toLowerCaseLatin1 s ++ JSString.toLowerCaseLatin1 t)%string.
Proof. induction s as [|c s IH]; simpl; [done|]. by rewrite IH. Qed.

Lemma isAscii_app (s t : string) :
  JSString.isAscii (s ++ t)%string = JSString.isAscii s && JSString.isAscii t.
Proof.
  induction s as [|c s IH]; [done|].
  change (String c s ++ t)%string with (String c (s ++ t)%string).
  cbn [JSString.isAscii]. rewrite IH. by rewrite andb_assoc.
Qed.

Lemma prefix_app (t post : string) : String.prefix t (t ++ post)%string = true.
Proof.
  induction t as [|c t IH]; simpl; [by destruct post|].
  destruct (ascii_dec c c); [exact IH|done].
Qed.

Lemma index_app (pre t post : string) :
  String.index 0 t (pre ++ t ++ post)%string ≠ None.
Proof.
  induction pre as [|b pre IH].
  - change ("" ++ t ++ post)%string with (t ++ post)%string.
    pose proof (prefix_app t post) as Hp.
    destruct (t ++ post)%string eqn:Heq.
    + destruct t; [done|discriminate].
    + cbn [String.index]. by rewrite Hp.
  - change (String b pre ++ t ++ post)%string with (String b (pre ++ t ++ post)%string).
    cbn [String.index]. destruct (String.prefix t _); [done|].
    destruct (String.index 0 t _); done.
Qed.

Lemma includes_app (pre t post : string) :
  JSString.includes (pre ++ t ++ post)%string t = true.
Proof.
  unfold JSString.includes. pose proof (index_app pre t post).
  by destruct (String.index 0 t _).
Qed.

(** X7: on ASCII text the search ignores letter case and looks inside
    titles.  On strings of ASCII characters [toLowerCase] goes character by
    character; for every such [toLowerCase], an item whose ASCII title
    contains a fragment that is the ASCII search term up to letter case
    matches. *)
Theorem matchesSearch_finds_title_fragment (toLowerCase : string -> string)
    (members : list RoomMember.t)
    (searchTerm fragment before after : string) (item : ItemSummary.t) :
  (forall s, JSString.isAscii s = true -> toLowerCase s = JSString.toLowerCaseLatin1 s) ->
  JSString.isAscii searchTerm = true ->
  JSString.isAscii (before ++ fragment ++ after)%string = true ->
  toLowerCase fragment = toLowerCase searchTerm ->
  ItemSummary.title item = (before ++ fragment ++ after)%string ->
  matchesSearch toLowerCase members searchTerm item = true.
Proof.
  intros Hascii Hterm Htext Hcase Htitle. unfold matchesSearch.
  destruct (negb _); [done|].
  pose proof Htext as Hparts.
  rewrite !isAscii_app in Hparts.
  apply andb_true_iff in Hparts as [_ Hparts].
  apply andb_true_iff in Hparts as [Hfragment _].
  rewrite (Hascii _ Hfragment), (Hascii _ Hterm) in Hcase.
  rewrite Htitle, (Hascii _ Htext), (Hascii _ Hterm).
  rewrite !toLowerCaseLatin1_app, Hcase, includes_app. done.
Qed.

Lemma matchesSearch_finds_title_fragment_witness :
  let item := Sample.toItemSummary Sample.offer1 in
  (JSString.isAscii "OFFER" = true
   /\ JSString.isAscii ("First " ++ "offer" ++ "")%string = true
   /\ JSString.toLowerCaseLatin1 "offer" = JSString.toLowerCaseLatin1 "OFFER"
   /\ ItemSummary.title item = ("First " ++ "offer" ++ "")%string)
  /\ matchesSearch JSString.toLowerCaseLatin1 [] "OFFER" item = true.
Proof.
  split; [by split_and!|].
  by apply (matchesSearch_finds_title_fragment JSString.toLowerCaseLatin1 []
              "OFFER" "offer" "First " "" (Sample.toItemSummary Sample.offer1)).
Defined.

Lemma existsb_pointwise {A} (f g : A -> bool) (l : list A) :
  (forall a, f a = g a) -> existsb f l = existsb g l.
Proof. intros Hfg. induction l as [|a l IH]; simpl; [done|]. by rewrite Hfg, IH. Qed.

Lemma find_None_iff {A} (q : A -> bool) (l : list A) :
  List.find q l = None <-> existsb q l = false.
Proof.
  induction l as [|a l IH]; simpl; [done|]. destruct (q a); simpl; [by split|exact IH].
Qed.

(** X8: the claim behind the Withdraw button of a card is a pending bid of
    the viewer on that very offer or desire, and the button is there exactly
    when the viewer has such a bid. *)
Theorem myPendingClaim_is_own_pending_bid (membershipId : string)
    (roomClaims : list ClaimSummary.t) (entity : ItemSummary.t) :
  membershipId ≠ "" ->
  (forall c,
      myPendingOfferClaim (Some membershipId) roomClaims entity = Some c ->
      c ∈ roomClaims
      /\ ClaimSummary.claimerMembershipId c = membershipId
      /\ ClaimSummary.status c = ClaimStatus.PENDING
      /\ ClaimSummary.offerId c = Some (ItemSummary.id entity))
  /\ (myPendingOfferClaim (Some membershipId) roomClaims entity = None
      <-> ~ hasPendingClaim membershipId roomClaims ItemKind.offer entity)
  /\ (forall c,
      myPendingDesireClaim (Some membershipId) roomClaims entity = Some c ->
      c ∈ roomClaims
      /\ ClaimSummary.claimerMembershipId c = membershipId
      /\ ClaimSummary.status c = ClaimStatus.PENDING
      /\ ClaimSummary.desireId c = Some (ItemSummary.id entity))
  /\ (myPendingDesireClaim (Some membershipId) roomClaims entity = None
      <-> ~ hasPendingClaim membershipId roomClaims ItemKind.desire entity).
Proof.
  intros Hm.
  assert (Hmine : forall c, c ∈ myClaimerClaims (Some membershipId) roomClaims ->
                            c ∈ roomClaims /\ ClaimSummary.claimerMembershipId c = membershipId).
  { intros c. unfold myClaimerClaims. rewrite truthy_Some by done. simpl.
    rewrite sort_Permutation, list_elem_of_In, filter_In, bool_decide_eq_true.
    rewrite <- list_elem_of_In. intros [? [= ?]]. done. }
  assert (Hoffer : forall c,
             bool_decide (ClaimSummary.offerId c = Some (ItemSummary.id entity))
             && bool_decide (ClaimSummary.status c = ClaimStatus.PENDING)
             = isPendingOn ItemKind.offer entity c).
  { intros c. unfold isPendingOn.
    rewrite (bool_decide_true (ItemKind.offer = ItemKind.offer)) by done.
    rewrite (bool_decide_false (ItemKind.offer = ItemKind.desire)) by done.
    simpl. rewrite orb_false_r. apply andb_comm. }
  assert (Hdesire : forall c,
             bool_decide (ClaimSummary.desireId c = Some (ItemSummary.id entity))
             && bool_decide (ClaimSummary.status c = ClaimStatus.PENDING)
             = isPendingOn ItemKind.desire entity c).
  { intros c. unfold isPendingOn.
    rewrite (bool_decide_false (ItemKind.desire = ItemKind.offer)) by done.
    rewrite (bool_decide_true (ItemKind.desire = ItemKind.desire)) by done.
    simpl. apply andb_comm. }
  unfold myPendingOfferClaim, myPendingDesireClaim. split_and!.
  - intros c Hfind. apply find_some in Hfind as [Hin Hq].
    apply list_elem_of_In, Hmine in Hin as [Hin Hc].
    apply andb_true_iff in Hq as [Ho Hs]. apply bool_decide_eq_true in Ho, Hs. done.
  - rewrite find_None_iff, (existsb_pointwise _ _ _ Hoffer).
    rewrite <- (hasPendingRequest_spec membershipId roomClaims ItemKind.offer entity Hm).
    by destruct (existsb _ _).
  - intros c Hfind. apply find_some in Hfind as [Hin Hq].
    apply list_elem_of_In, Hmine in Hin as [Hin Hc].
    apply andb_true_iff in Hq as [Ho Hs]. apply bool_decide_eq_true in Ho, Hs. done.
  - rewrite find_None_iff, (existsb_pointwise _ _ _ Hdesire).
    rewrite <- (hasPendingRequest_spec membershipId roomClaims ItemKind.desire entity Hm).
    by destruct (existsb _ _).
Qed.

Lemma myPendingClaim_is_own_pending_bid_witness :
  let entity := Sample.toItemSummary Sample.offer1 in
  "membership-guest" ≠ ""
  /\ (myPendingOfferClaim (Some "membership-guest") [] entity = None
      <-> ~ hasPendingClaim "membership-guest" [] ItemKind.offer entity).
Proof.
  split; [discriminate|].
  apply (myPendingClaim_is_own_pending_bid "membership-guest" []
           (Sample.toItemSummary Sample.offer1)).
  discriminate.
Defined.

Lemma mapGet_None (grouped : list (string * list ItemSummary.t)) (k : string) :
  mapGet grouped k = None <-> k ∉ map fst grouped.
Proof.
  unfold mapGet. induction grouped as [|e g IH]; simpl.
  - split; [intros _; apply not_elem_of_nil|done].
  - rewrite not_elem_of_cons. destruct (bool_decide_reflect (fst e = k)) as [He|He]; simpl.
    + split; [done|]. intros [Hne _]. by destruct Hne.
    + rewrite IH. split; [intros ?; split; [congruence|done]|tauto].
Qed.

Lemma mapGet_Some (grouped : list (string * list ItemSummary.t)) (k : string)
    (v : list ItemSummary.t) :
  mapGet grouped k = Some v -> (k, v) ∈ grouped.
Proof.
  unfold mapGet. destruct (List.find _ grouped) as [[k' v']|] eqn:Hfind; [|done].
  simpl. intros [= <-]. apply find_some in Hfind as [Hin Hk].
  apply bool_decide_eq_true in Hk. simpl in Hk. subst. by apply list_elem_of_In.
Qed.

Lemma mapSet_absent (grouped : list (string * list ItemSummary.t)) (k : string)
    (v : list ItemSummary.t) :
  k ∉ map fst grouped -> mapSet grouped k v = grouped ++ [(k, v)].
Proof.
  induction grouped as [|e g IH]; simpl; [done|]. intros Hk.
  apply not_elem_of_cons in Hk as [Hne Hk].
  rewrite bool_decide_false by congruence. by rewrite IH.
Qed.

Lemma mapSet_present (grouped : list (string * list ItemSummary.t)) (k : string)
    (v : list ItemSummary.t) :
  NoDup (map fst grouped) -> k ∈ map fst grouped ->
  map fst (mapSet grouped k v) = map fst grouped
  /\ (forall k' v', (k', v') ∈ mapSet grouped k v
                    <-> (k' = k /\ v' = v) \/ (k' ≠ k /\ (k', v') ∈ grouped)).
Proof.
  induction grouped as [|e g IH]; simpl; intros Hnd Hk; [by apply elem_of_nil in Hk|].
  apply NoDup_cons in Hnd as [He Hnd].
  destruct (bool_decide_reflect (fst e = k)) as [Hek|Hek].
  - simpl. split; [by rewrite Hek|]. intros k' v'. rewrite !elem_of_cons. split.
    + intros [[= -> ->]|Hin]; [by left|]. right. split; [|by right].
      intros ->. apply He. rewrite Hek. apply list_elem_of_fmap. by exists (k, v').
    + intros [[-> ->]|[Hne [Heq|Hin]]]; [by left| |by right].
      subst e. simpl in Hek. congruence.
  - apply elem_of_cons in Hk as [Hk|Hk]; [congruence|].
    destruct (IH Hnd Hk) as [Hkeys Helems]. simpl. split; [by rewrite Hkeys|].
    intros k' v'. rewrite !elem_of_cons, Helems. split.
    + intros [Heq|[[-> ->]|[Hne Hin]]].
      * subst e. simpl in Hek. right. split; [done|by left].
      * by left.
      * right. split; [done|by right].
    + intros [[-> ->]|[Hne [Heq|Hin]]]; [right; by left|by left|right; right; done].
Qed.

Lemma filter_snoc {A} (q : A -> bool) (l : list A) (a : A) :
  List.filter q (l ++ [a]) = List.filter q l ++ (if q a then [a] else []).
Proof. rewrite List.filter_app. simpl. by destruct (q a). Qed.

Lemma groupStep_ok (grouped : list (string * list ItemSummary.t))
    (seen : list ItemSummary.t) (item : ItemSummary.t) :
  grouped_ok grouped seen -> grouped_ok (groupStep grouped item) (seen ++ [item]).
Proof.
  intros (Hnd & Hvals & Hcover). unfold groupStep.
  set (k := ItemSummary.authorMembershipId item).
  destruct (mapGet grouped k) as [v0|] eqn:Hget; simpl.
  - pose proof (mapGet_Some _ _ _ Hget) as Hin.
    assert (Hk : k ∈ map fst grouped) by (apply list_elem_of_fmap; by exists (k, v0)).
    destruct (mapSet_present grouped k (v0 ++ [item]) Hnd Hk) as [Hkeys Helems].
    split_and!.
    + by rewrite Hkeys.
    + intros k' v' Hv'. apply Helems in Hv' as [[-> ->]|[Hne Hv']].
      * destruct (Hvals k v0 Hin) as [-> _]. rewrite filter_snoc.
        unfold writtenBy at 3. rewrite bool_decide_true by done.
        split; [done|]. intros H. by apply app_eq_nil in H as [_ ?].
      * destruct (Hvals k' v' Hv') as [-> Hne']. rewrite filter_snoc.
        unfold writtenBy at 3. rewrite bool_decide_false by (fold k; congruence).
        by rewrite app_nil_r.
    + intros i Hi. rewrite Hkeys. apply elem_of_app in Hi as [Hi|Hi]; [by apply Hcover|].
      apply list_elem_of_singleton in Hi as ->. exact Hk.
  - apply mapGet_None in Hget. rewrite mapSet_absent by done.
    assert (Hnone : List.filter (writtenBy k) seen = []).
    { destruct (List.filter (writtenBy k) seen) as [|i rest] eqn:Hf; [done|].
      assert (Hi : In i (List.filter (writtenBy k) seen)) by (rewrite Hf; by left).
      apply filter_In in Hi as [Hi Hik]. apply bool_decide_eq_true in Hik.
      destruct Hget. rewrite <- Hik. apply Hcover. by apply list_elem_of_In. }
    split_and!.
    + rewrite map_app. simpl. apply NoDup_app. split_and!; [done| |apply NoDup_singleton].
      intros x Hx Hx'. apply list_elem_of_singleton in Hx' as ->. done.
    + intros k' v' Hv'. apply elem_of_app in Hv' as [Hv'|Hv'].
      * assert (Hk' : k' ∈ map fst grouped)
          by (apply list_elem_of_fmap; by exists (k', v')).
        destruct (Hvals k' v' Hv') as [-> Hne']. rewrite filter_snoc.
        unfold writtenBy at 3. rewrite bool_decide_false; [by rewrite app_nil_r|].
        intros Heq. apply Hget. unfold k. by rewrite Heq.
      * apply list_elem_of_singleton in Hv' as [= -> ->]. rewrite filter_snoc, Hnone.
        unfold writtenBy. by rewrite bool_decide_true.
    + intros i Hi. rewrite map_app, elem_of_app.
      apply elem_of_app in Hi as [Hi|Hi]; [left; by apply Hcover|].
      apply list_elem_of_singleton in Hi as ->. right. by apply list_elem_of_singleton.
Qed.

Lemma fold_groupStep_ok (visible : list ItemSummary.t)
    (grouped : list (string * list ItemSummary.t)) (seen : list ItemSummary.t) :
  grouped_ok grouped seen ->
  grouped_ok (fold_left groupStep visible grouped) (seen ++ visible).
Proof.
  revert grouped seen. induction visible as [|item visible IH]; intros grouped seen Hok.
  - by rewrite app_nil_r.
  - simpl. rewrite (app_assoc seen [item] visible : seen ++ item :: visible = _).
    apply IH. by apply groupStep_ok.
Qed.

(** X9: whatever the order of names, the grouping by person puts every
    listed item in the group of its author and nowhere else: the groups have
    distinct members, none is empty, each holds exactly the listed items of
    its member, in the order of the list, under the member's display name. *)
Theorem itemsByPerson_partitions (localeCompare : string -> string -> Z)
    (members : list RoomMember.t) (visible : list ItemSummary.t) :
  let groups := itemsByPerson localeCompare members visible in
  NoDup (map membershipId groups)
  /\ (forall g, g ∈ groups ->
        items g = List.filter (writtenBy (membershipId g)) visible
        /\ items g ≠ []
        /\ name g = getMemberDisplayName members (membershipId g))
  /\ (forall item, item ∈ visible ->
        exists g, g ∈ groups
                  /\ membershipId g = ItemSummary.authorMembershipId item
                  /\ item ∈ items g).
Proof.
  intros groups.
  assert (Hok : grouped_ok (fold_left groupStep visible []) visible).
  { apply (fold_groupStep_ok visible [] []). split_and!.
    - constructor.
    - intros k v Hin. by apply elem_of_nil in Hin.
    - intros i Hi. by apply elem_of_nil in Hi. }
  destruct Hok as (Hnd & Hvals & Hcover).
  set (toGroup := fun e : string * list ItemSummary.t =>
                    {| membershipId := fst e;
                       name := getMemberDisplayName members (fst e);
                       items := snd e |}).
  assert (Hperm : groups ≡ₚ map toGroup (fold_left groupStep visible []))
    by apply sort_Permutation.
  assert (Hgroup : forall g, g ∈ groups <->
            exists k v, (k, v) ∈ fold_left groupStep visible [] /\ g = toGroup (k, v)).
  { intros g. rewrite Hperm, list_elem_of_fmap. split.
    - intros ([k v] & -> & Hin). eauto.
    - intros (k & v & Hin & ->). eauto. }
  split_and!.
  - rewrite Hperm, map_map. exact Hnd.
  - intros g Hg. apply Hgroup in Hg as (k & v & Hin & ->). simpl.
    destruct (Hvals k v Hin) as [Hv Hne]. done.
  - intros item Hitem. pose proof (Hcover item Hitem) as Hk.
    apply list_elem_of_fmap in Hk as ([k v] & Hkey & Hin). simpl in Hkey.
    exists (toGroup (k, v)). split; [apply Hgroup; eauto|]. simpl. split; [done|].
    destruct (Hvals k v Hin) as [-> _]. apply list_elem_of_In, filter_In.
    split; [by apply list_elem_of_In|]. by apply bool_decide_eq_true.
Qed.

End ConnectionsListFacts.

(** ** More on the enjoyment endpoint *)

Section EnjoymentMore.
Import EnjoymentRoute.
Variable isValidRoomCode : string -> bool.
Variable normalizeRoomCode : string -> string.

Local Abbreviation handle := (POST isValidRoomCode normalizeRoomCode).

(** The two outcomes of the handler: a refusal that writes nothing, or the
    update of the caller's membership. *)
Lemma POST_outcomes (request : Request) (w : World) :
  (fst (handle request w) ≠ Responds {| payload := SuccessBody; status := 200 |}
   /\ snd (handle request w) = w)
  \/ (exists room membership text,
        validCode isValidRoomCode request = true
        /\ room_findUnique w (normalizeRoomCode (code request)) = Some room
        /\ bool_decide (Room.currentRound room ≠ DECISIONS)
           && bool_decide (Room.currentRound room ≠ SUMMARY) = false
        /\ roomMembership_findUnique w (Room.id room) (identityUserId request)
           = Some membership
        /\ body request = EnjoymentText text
        /\ enjoymentOk (JS.trim text)
        /\ handle request w
           = (Responds {| payload := SuccessBody; status := 200 |},
              emitPresenceUpdate
                (roomMembership_update w (RoomMembership.id membership) (JS.trim text))
                {| pu_roomId := Room.id room; pu_reason := "updated" |})).
Proof.
  destruct (validCode isValidRoomCode request) eqn:Hvalid.
  2:{ left. by rewrite POST_invalid_code. }
  rewrite POST_valid_code by done.
  destruct (room_findUnique w _) as [room|] eqn:Hroom; [|by left].
  destruct (_ && _) eqn:Hround; [by left|].
  destruct (roomMembership_findUnique w _ _) as [membership|] eqn:Hmember; [|by left].
  destruct (body request) as [| | |text|] eqn:Hbody; try by left.
  destruct (decide (JS.trim text = "")); [by left|].
  destruct (decide (2000 < Z.of_nat (String.length (JS.trim text)))); [by left|].
  right. exists room, membership, text. split_and!; try done.
  unfold enjoymentOk. split; [done|]. split; [lia|apply trim_idem].
Qed.

Lemma same_key_same_row {A} (key : A -> string) (l : list A) (x y : A) :
  NoDup (map key l) -> x ∈ l -> y ∈ l -> key x = key y -> x = y.
Proof.
  induction l as [|a l IH]; simpl; intros Hnd Hx Hy Hkey; [by apply elem_of_nil in Hx|].
  apply NoDup_cons in Hnd as [Ha Hnd].
  apply elem_of_cons in Hx as [->|Hx]; apply elem_of_cons in Hy as [->|Hy]; try done.
  - destruct Ha. rewrite Hkey. apply list_elem_of_fmap. eauto.
  - destruct Ha. rewrite <- Hkey. apply list_elem_of_fmap. eauto.
  - by apply IH.
Qed.

Lemma findUnique_row (w : World) (roomId userId : string) (m : RoomMembership.t) :
  roomMembership_findUnique w roomId userId = Some m ->
  m ∈ memberships w /\ RoomMembership.roomId m = roomId /\ RoomMembership.userId m = userId.
Proof.
  unfold roomMembership_findUnique. intros Hfind. apply find_some in Hfind as [Hin Hq].
  apply andb_true_iff in Hq as [Hr Hu]. apply bool_decide_eq_true in Hr, Hu.
  by rewrite list_elem_of_In.
Qed.

(** X10: with unique membership ids, a request to the enjoyment endpoint
    leaves the rooms alone, adds and removes no membership, and leaves every
    row of another user exactly as it was. *)
Theorem POST_enjoyment_touches_only_caller (request : Request) (w : World) :
  NoDup (map RoomMembership.id (memberships w)) ->
  let w' := snd (handle request w) in
  rooms w' = rooms w
  /\ length (memberships w') = length (memberships w)
  /\ (forall i row,
        memberships w !! i = Some row ->
        RoomMembership.userId row ≠ identityUserId request ->
        memberships w' !! i = Some row).
Proof.
  intros Hnd w'. subst w'.
  destruct (POST_outcomes request w)
    as [[_ ->]|(room & m & text & _ & _ & _ & Hm & _ & _ & ->)];
    [done|].
  simpl. split; [done|]. split; [by rewrite length_map|].
  intros i row Hrow Huser. rewrite list_lookup_fmap, Hrow. simpl.
  rewrite bool_decide_false; [done|]. intros Hid.
  apply findUnique_row in Hm as (Hmin & _ & Hmuser).
  assert (row = m); [|congruence].
  apply (same_key_same_row RoomMembership.id (memberships w)); try done.
  by eapply list_elem_of_lookup_2.
Qed.

(** X11: the endpoint keeps the stored reflections well formed: if every
    stored reflection is non-empty, at most 2000 long and trimmed, it is so
    again after any run of requests. *)
Theorem stored_enjoyments_stay_ok (requests : list Request) (w : World) :
  storedEnjoymentsOk w ->
  storedEnjoymentsOk (serveEnjoyments isValidRoomCode normalizeRoomCode requests w).
Proof.
  unfold serveEnjoyments. revert w.
  induction requests as [|request requests IH]; intros w Hok; [done|].
  simpl. apply IH.
  destruct (POST_outcomes request w)
    as [[_ ->]|(room & m & text & _ & _ & _ & _ & _ & Htext & ->)];
    [done|].
  unfold storedEnjoymentsOk in *. simpl. apply Forall_fmap.
  eapply Forall_impl; [exact Hok|]. intros row Hrow. simpl.
  case_bool_decide; [|done]. simpl. by intros ? [= <-].
Qed.

(** X12: sending the same request twice stores what sending it once
    stores, and is answered the same way. *)
Theorem POST_enjoyment_idempotent (request : Request) (w : World) :
  let once := handle request w in
  let twice := handle request (snd once) in
  fst twice = fst once
  /\ rooms (snd twice) = rooms (snd once)
  /\ memberships (snd twice) = memberships (snd once).
Proof.
  intros once twice. subst once twice.
  destruct (POST_outcomes request w)
    as [[_ Hsame]|(room & m & text & Hvalid & Hroom & Hround & Hm & Hbody
                   & [Hne [Hlen _]] & Hres)].
  { by rewrite !Hsame. }
  rewrite Hres. cbn [fst snd].
  set (w1 := emitPresenceUpdate _ _).
  rewrite POST_valid_code by done.
  change (room_findUnique w1 (normalizeRoomCode (code request)))
    with (room_findUnique w (normalizeRoomCode (code request))).
  rewrite Hroom, Hround.
  change (roomMembership_findUnique w1 (Room.id room) (identityUserId request))
    with (roomMembership_findUnique
            (roomMembership_update w (RoomMembership.id m) (JS.trim text))
            (Room.id room) (identityUserId request)).
  rewrite (findUnique_after_update w _ _ m) by done.
  rewrite Hbody, decide_False by done. rewrite decide_False by lia.
  cbn [fst snd]. split_and!; try done.
  simpl. rewrite map_map. apply map_ext. intros row.
  destruct (bool_decide_reflect (RoomMembership.id row = RoomMembership.id m));
    simpl; [by rewrite bool_decide_true|by rewrite bool_decide_false].
Qed.

End EnjoymentMore.

Lemma sample_membership_ids :
  NoDup (map RoomMembership.id [Sample.hostMembership; Sample.guestMembership]).
Proof.
  change (NoDup ["membership-host"; "membership-guest"]).
  apply NoDup_cons. split; [|apply NoDup_singleton].
  intros H. apply list_elem_of_singleton in H. discriminate.
Qed.

Lemma POST_enjoyment_touches_only_caller_witness :
  let request :=
    EnjoymentRoute.mkRequest "vow-empowerment" "user-guest"
      (EnjoymentRoute.EnjoymentText "  Loved it  ") in
  let w :=
    EnjoymentRoute.mkWorld [Sample.room DECISIONS]
      [Sample.hostMembership; Sample.guestMembership] [] in
  let w' := snd (EnjoymentRoute.POST (fun _ => true) (fun code => code) request w) in
  NoDup (map RoomMembership.id (EnjoymentRoute.memberships w))
  /\ EnjoymentRoute.memberships w'
     = [Sample.hostMembership; EnjoymentRoute.setEnjoyment "Loved it" Sample.guestMembership]
  /\ EnjoymentRoute.memberships w' !! 0%nat = Some Sample.hostMembership.
Proof.
  split; [exact sample_membership_ids|]. split; [reflexivity|].
  pose proof
    (POST_enjoyment_touches_only_caller (fun _ => true) (fun code => code)
       (EnjoymentRoute.mkRequest "vow-empowerment" "user-guest"
      (EnjoymentRoute.EnjoymentText "  Loved it  "))
       (EnjoymentRoute.mkWorld [Sample.room DECISIONS]
          [Sample.hostMembership; Sample.guestMembership] [])
       sample_membership_ids) as (_ & _ & Hrows).
  apply (Hrows 0%nat Sample.hostMembership); [reflexivity|discriminate].
Defined.

Lemma stored_enjoyments_stay_ok_witness :
  let request text :=
    EnjoymentRoute.mkRequest "vow-empowerment" "user-guest" (EnjoymentRoute.EnjoymentText text) in
  let w :=
    EnjoymentRoute.mkWorld [Sample.room DECISIONS]
      [Sample.hostMembership; Sample.guestMembership] [] in
  storedEnjoymentsOk w
  /\ storedEnjoymentsOk
       (serveEnjoyments (fun _ => true) (fun code => code)
          [request "  Loved it  "; request "   "; request " Thank you all "] w).
Proof.
  assert (Hok : storedEnjoymentsOk
                  (EnjoymentRoute.mkWorld [Sample.room DECISIONS]
                     [Sample.hostMembership; Sample.guestMembership] [])).
  { unfold storedEnjoymentsOk. simpl.
    repeat (apply List.Forall_cons; [intros text Htext; discriminate|]).
    apply List.Forall_nil. }
  split; [exact Hok|].
  exact (stored_enjoyments_stay_ok (fun _ => true) (fun code => code) _ _ Hok).
Defined.

(** ** The ready endpoint *)

Section ReadyFacts.
Import ReadyRoute.
Variable isValidRoomCode : string -> bool.
Variable normalizeRoomCode : string -> string.

Local Abbreviation handle := (POST isValidRoomCode normalizeRoomCode).

(** X13: the ready endpoint answers 400 for a bad room code and for a body
    that does not parse or does not carry a boolean [ready], and it does so
    before it looks for the room; then 404 for a missing room and 403 for a
    caller who is not a member.  Otherwise it answers 200 in whatever round
    the room is, stores the current round (or nothing, for [ready: false]) on
    the caller's membership and emits one event.  A refusal changes
    nothing. *)
Theorem ready_POST_answers (request : Request) (w : World) :
  let response := fst (handle request w) in
  let w' := snd (handle request w) in
  let valid := JS.truthy (Some (code request)) && isValidRoomCode (code request) in
  let roomCode := normalizeRoomCode (code request) in
  (status response ≠ 200 -> w' = w)
  /\ (valid = false -> status response = 400)
  /\ (valid = true -> body request = None \/ body request = Some None ->
      status response = 400)
  /\ (forall ready,
        valid = true -> body request = Some (Some ready) ->
        room_findUnique w roomCode = None -> status response = 404)
  /\ (forall ready,
        valid = true -> body request = Some (Some ready) ->
        is_Some (room_findUnique w roomCode) ->
        callerMembership w roomCode (identityUserId request) = None ->
        status response = 403)
  /\ (forall ready room roomMemberships membership,
        valid = true -> body request = Some (Some ready) ->
        room_findUnique w roomCode = Some (room, roomMemberships) ->
        callerMembership w roomCode (identityUserId request) = Some membership ->
        response = {| payload := SuccessBody (readyValue ready room); status := 200 |}
        /\ w' = emitRoomEvent
                  (roomMembership_update w (RoomMembership.id membership)
                     (readyValue ready room))
                  (Room.id room)
                  {| ev_roomId := Room.id room;
                     ev_membershipId := RoomMembership.id membership;
                     ev_readyForRound := readyValue ready room |}).
Proof.
  intros response w' valid roomCode. subst response w' valid roomCode.
  unfold POST, callerMembership, readyValue.
  destruct (JS.truthy (Some (code request))) eqn:Ht;
    destruct (isValidRoomCode (code request)) eqn:Hv; cbn [negb orb andb];
    try (split_and!; by intros).
  destruct (body request) as [[ready|]|] eqn:Hbody;
    [|split_and!; by intros; simplify_eq..].
  destruct (room_findUnique w (normalizeRoomCode (code request))) as [[room ms]|] eqn:Hroom;
    [destruct (List.find _ ms) as [m|] eqn:Hm|].
  all: split_and!; intros; simplify_eq; try done.
  all: try match goal with H : _ \/ _ |- _ => by destruct H end.
  all: try match goal with H : is_Some None |- _ => by apply is_Some_None in H end.
Qed.

(** The two outcomes of the handler. *)
Lemma ready_POST_outcomes (request : Request) (w : World) :
  (status (fst (handle request w)) ≠ 200 /\ snd (handle request w) = w)
  \/ (exists ready room roomMemberships membership,
        body request = Some (Some ready)
        /\ room_findUnique w (normalizeRoomCode (code request))
           = Some (room, roomMemberships)
        /\ List.find (fun m => bool_decide (RoomMembership.userId m = identityUserId request))
             roomMemberships = Some membership
        /\ handle request w
           = ({| payload := SuccessBody (readyValue ready room); status := 200 |},
              emitRoomEvent
                (roomMembership_update w (RoomMembership.id membership)
                   (readyValue ready room))
                (Room.id room)
                {| ev_roomId := Room.id room;
                   ev_membershipId := RoomMembership.id membership;
                   ev_readyForRound := readyValue ready room |})).
Proof.
  unfold POST, readyValue.
  destruct (negb _ || negb _); [by left|].
  destruct (body request) as [[ready|]|]; [|by left..].
  destruct (room_findUnique w _) as [[room ms]|]; [|by left].
  destruct (List.find _ ms) as [m|] eqn:Hm; [|by left].
  right. by exists ready, room, ms, m.
Qed.



Lemma filter_map_preserved {A} (q : A -> bool) (f : A -> A) (l : list A) :
  (forall a, q (f a) = q a) -> List.filter q (map f l) = map f (List.filter q l).
Proof.
  intros Hq. induction l as [|a l IH]; simpl; [done|].
  rewrite Hq. destruct (q a); simpl; by rewrite IH.
Qed.

(** X15: what a successful request to the ready endpoint stores is what
    the next look at the room finds: the caller's membership is then ready
    for the room's current round exactly when the request said
    [ready: true], and the response carries the stored value. *)
Theorem ready_POST_is_read_back (request : Request) (w : World) (ready : bool) :
  body request = Some (Some ready) ->
  status (fst (handle request w)) = 200 ->
  let w' := snd (handle request w) in
  let roomCode := normalizeRoomCode (code request) in
  exists room roomMemberships membership,
    room_findUnique w' roomCode = Some (room, roomMemberships)
    /\ callerMembership w' roomCode (identityUserId request) = Some membership
    /\ (RoomMembership.readyForRound membership = Some (Room.currentRound room)
        <-> ready = true)
    /\ payload (fst (handle request w))
       = SuccessBody (RoomMembership.readyForRound membership).
Proof.
  intros Hbody Hstatus w' roomCode. subst w' roomCode.
  destruct (ready_POST_outcomes request w)
    as [[Hno _]|(ready' & room & ms & m & Hbody' & Hroom & Hm & Hres)];
    [done|].
  assert (ready' = ready) as -> by congruence.
  rewrite Hres. cbn [fst snd payload].
  set (value := readyValue ready room).
  set (update := fun row : RoomMembership.t =>
                   if bool_decide (RoomMembership.id row = RoomMembership.id m)
                   then setReadyForRound value row else row).
  assert (Hroomrow : forall row, RoomMembership.roomId (update row) = RoomMembership.roomId row).
  { intros row. unfold update. by case_bool_decide. }
  assert (Huserrow : forall row, RoomMembership.userId (update row) = RoomMembership.userId row).
  { intros row. unfold update. by case_bool_decide. }
  unfold room_findUnique in Hroom.
  destruct (List.find _ (rooms w)) as [r|] eqn:Hr; [|done].
  injection Hroom as -> <-.
  exists room, (map update (List.filter
                              (fun row => bool_decide (RoomMembership.roomId row = Room.id room))
                              (memberships w))),
         (setReadyForRound value m).
  assert (Hfound : room_findUnique
                     (emitRoomEvent (roomMembership_update w (RoomMembership.id m) value)
                        (Room.id room)
                        {| ev_roomId := Room.id room;
                           ev_membershipId := RoomMembership.id m;
                           ev_readyForRound := value |})
                     (normalizeRoomCode (code request))
                   = Some (room, map update
                                   (List.filter
                                      (fun row => bool_decide
                                                    (RoomMembership.roomId row = Room.id room))
                                      (memberships w)))).
  { unfold room_findUnique. cbn [rooms memberships emitRoomEvent roomMembership_update].
    rewrite Hr. f_equal. f_equal.
    apply (filter_map_preserved
             (fun row => bool_decide (RoomMembership.roomId row = Room.id room)) update).
    intros row. by rewrite Hroomrow. }
  split; [exact Hfound|]. split.
  - unfold callerMembership. rewrite Hfound.
    rewrite (find_map_preserved
               (fun row => bool_decide (RoomMembership.userId row = identityUserId request))
               update) by (intros row; by rewrite Huserrow).
    rewrite Hm. simpl. unfold update. by rewrite bool_decide_true.
  - split; [|done]. simpl. unfold value, readyValue. destruct ready; split; done.
Qed.

End ReadyFacts.

Lemma ready_POST_answers_witness :
  let request := ReadyRoute.mkRequest "vow-empowerment" "user-guest" (Some (Some true)) in
  let w :=
    ReadyRoute.mkWorld [Sample.room CONNECTIONS]
      [Sample.hostMembership; Sample.guestMembership] [] in
  let result := ReadyRoute.POST (fun _ => true) (fun code => code) request w in
  (ReadyRoute.room_findUnique w "vow-empowerment"
   = Some (Sample.room CONNECTIONS, [Sample.hostMembership; Sample.guestMembership])
   /\ ReadyRoute.callerMembership w "vow-empowerment" "user-guest"
      = Some Sample.guestMembership)
  /\ fst result
     = {| ReadyRoute.payload := ReadyRoute.SuccessBody (Some CONNECTIONS);
          ReadyRoute.status := 200 |}
  /\ ReadyRoute.roomEvents (snd result)
     = [("room-1", ReadyRoute.mkMemberReady "room-1" "membership-guest" (Some CONNECTIONS))].
Proof.
  split; [by split|].
  pose proof
    (ready_POST_answers (fun _ => true) (fun code => code)
       (ReadyRoute.mkRequest "vow-empowerment" "user-guest" (Some (Some true)))
       (ReadyRoute.mkWorld [Sample.room CONNECTIONS]
          [Sample.hostMembership; Sample.guestMembership] []))
    as (_ & _ & _ & _ & _ & Hsuccess).
  destruct (Hsuccess true (Sample.room CONNECTIONS)
              [Sample.hostMembership; Sample.guestMembership] Sample.guestMembership
              eq_refl eq_refl eq_refl eq_refl) as [Hresponse Hworld].
  split; [exact Hresponse|]. rewrite Hworld. reflexivity.
Defined.


Lemma ready_POST_is_read_back_witness :
  let request := ReadyRoute.mkRequest "vow-empowerment" "user-guest" (Some (Some true)) in
  let w :=
    ReadyRoute.mkWorld [Sample.room CONNECTIONS]
      [Sample.hostMembership; Sample.guestMembership] [] in
  let w' := snd (ReadyRoute.POST (fun _ => true) (fun code => code) request w) in
  ReadyRoute.status (fst (ReadyRoute.POST (fun _ => true) (fun code => code) request w)) = 200
  /\ exists room roomMemberships membership,
       ReadyRoute.room_findUnique w' "vow-empowerment" = Some (room, roomMemberships)
       /\ ReadyRoute.callerMembership w' "vow-empowerment" "user-guest" = Some membership
       /\ (RoomMembership.readyForRound membership = Some (Room.currentRound room)
           <-> true = true)
       /\ ReadyRoute.payload
            (fst (ReadyRoute.POST (fun _ => true) (fun code => code) request w))
          = ReadyRoute.SuccessBody (RoomMembership.readyForRound membership).
Proof.
  split; [reflexivity|].
  exact (ready_POST_is_read_back (fun _ => true) (fun code => code)
           (ReadyRoute.mkRequest "vow-empowerment" "user-guest" (Some (Some true)))
           (ReadyRoute.mkWorld [Sample.room CONNECTIONS]
              [Sample.hostMembership; Sample.guestMembership] [])
           true eq_refl eq_refl).
Defined.

(** ** The counts of the host summary *)

Section HostSummaryFacts.
Import ExportSummary Commitments.

(** X16: in the host summary, the giving count of every participant is the
    number of listed commitments that name the participant as the giver, and
    the receiving count the number that name the participant as the
    receiver. *)
Theorem host_summary_counts_match_commitments (roomId : string) (db : Db) :
  let summary := fst (collectAllCommitments roomId db) in
  forall p, p ∈ HostSummaryData.participants summary ->
    ParticipantInfo.givingCount p
    = Z.of_nat (length (List.filter (givenBy (ParticipantInfo.membershipId p))
                          (HostSummaryData.commitments summary)))
    /\ ParticipantInfo.receivingCount p
       = Z.of_nat (length (List.filter (receivedBy (ParticipantInfo.membershipId p))
                             (HostSummaryData.commitments summary))).
Proof.
  intros summary p. subst summary.
  unfold collectAllCommitments, room_findUnique, mbind, DbM_bind, mret, DbM_ret.
  destruct (List.find _ (rooms db)) as [r|]; cbn [fst].
  - unfold summarize. cbn [HostSummaryData.participants HostSummaryData.commitments].
    intros Hp. apply list_elem_of_fmap in Hp as (m & -> & _).
    cbn [participantInfo ParticipantInfo.givingCount ParticipantInfo.receivingCount
         ParticipantInfo.membershipId].
    apply tally_counts.
  - intros Hp. by apply elem_of_nil in Hp.
Qed.

Lemma topStep_firstMaximum (count : ParticipantInfo.t -> Z)
    (ps : list ParticipantInfo.t) (p : ParticipantInfo.t) (top : option TopEntry.t) :
  firstMaximum count ps top -> firstMaximum count (ps ++ [p]) (topStep count top p).
Proof.
  unfold topStep. destruct top as [t|]; simpl.
  - intros (i & p0 & Hi & Hname & Hcount & Hpos & Hmax & Hfirst).
    pose proof (lookup_lt_Some _ _ _ Hi) as Hlt.
    destruct (Z.ltb_spec 0 (count p)) as [Hp|Hp];
      [destruct (Z.ltb_spec (TopEntry.count t) (count p)) as [Hnew|Hold]|]; simpl.
    + exists (length ps), p. split_and!; try done.
      * by rewrite list_lookup_middle.
      * intros q Hq. apply elem_of_app in Hq as [Hq|Hq].
        -- specialize (Hmax q Hq). lia.
        -- apply list_elem_of_singleton in Hq as ->. lia.
      * intros j q Hj Hq. rewrite lookup_app_l in Hq by done.
        apply list_elem_of_lookup_2 in Hq. specialize (Hmax q Hq). lia.
    + exists i, p0. split_and!; try done.
      * by rewrite lookup_app_l.
      * intros q Hq. apply elem_of_app in Hq as [Hq|Hq]; [by apply Hmax|].
        apply list_elem_of_singleton in Hq as ->. lia.
      * intros j q Hj Hq. rewrite lookup_app_l in Hq by lia. by apply (Hfirst j).
    + exists i, p0. split_and!; try done.
      * by rewrite lookup_app_l.
      * intros q Hq. apply elem_of_app in Hq as [Hq|Hq]; [by apply Hmax|].
        apply list_elem_of_singleton in Hq as ->. lia.
      * intros j q Hj Hq. rewrite lookup_app_l in Hq by lia. by apply (Hfirst j).
  - intros Hnone. destruct (Z.ltb_spec 0 (count p)) as [Hp|Hp]; simpl.
    + exists (length ps), p. split_and!; try done.
      * by rewrite list_lookup_middle.
      * intros q Hq. apply elem_of_app in Hq as [Hq|Hq].
        -- specialize (Hnone q Hq). lia.
        -- apply list_elem_of_singleton in Hq as ->. lia.
      * intros j q Hj Hq. rewrite lookup_app_l in Hq by done.
        apply list_elem_of_lookup_2 in Hq. specialize (Hnone q Hq). lia.
    + intros q Hq. apply elem_of_app in Hq as [Hq|Hq]; [by apply Hnone|].
      by apply list_elem_of_singleton in Hq as ->.
Qed.

Lemma fold_topStep_firstMaximum (count : ParticipantInfo.t -> Z)
    (ps : list ParticipantInfo.t) :
  firstMaximum count ps (fold_left (topStep count) ps None).
Proof.
  induction ps as [|p ps IH] using rev_ind.
  - simpl. intros p Hp. by apply elem_of_nil in Hp.
  - rewrite fold_left_app. simpl. by apply topStep_firstMaximum.
Qed.

(** X17: the top giver of the host summary is the first participant, in the
    order of the participants, with the highest giving count, provided that
    count is positive; with no positive count there is no top giver.  The
    same holds for the top receiver.  A tie goes to the earlier participant. *)
Theorem top_giver_is_first_maximum (roomId : string) (db : Db) :
  let summary := fst (collectAllCommitments roomId db) in
  let participants := HostSummaryData.participants summary in
  let stats := HostSummaryData.stats summary in
  firstMaximum ParticipantInfo.givingCount participants (Stats.topGiver stats)
  /\ firstMaximum ParticipantInfo.receivingCount participants (Stats.topReceiver stats).
Proof.
  intros summary participants stats. subst summary participants stats.
  unfold collectAllCommitments, room_findUnique, mbind, DbM_bind, mret, DbM_ret.
  destruct (List.find _ (rooms db)) as [r|]; cbn [fst].
  - unfold summarize.
    cbn [HostSummaryData.participants HostSummaryData.stats Stats.topGiver Stats.topReceiver].
    split; apply fold_topStep_firstMaximum.
  - split; intros p Hp; by apply elem_of_nil in Hp.
Qed.

Lemma commitmentsOf_givingOf (key : string) (c : ClaimWithRelations.t) :
  length (List.filter (givenBy key) (commitmentsOf c)) = length (givingOf key c)
  /\ length (List.filter (receivedBy key) (commitmentsOf c)) = length (receivingOf key c).
Proof.
  unfold commitmentsOf, givingOf, receivingOf, givenBy, receivedBy.
  destruct (ClaimWithRelations.offer c) as [o|];
    destruct (ClaimWithRelations.desire c) as [d|];
    cbn [app List.filter commitmentInfo CommitmentInfo.giverMembershipId
         CommitmentInfo.receiverMembershipId];
    split; repeat case_bool_decide; done.
Qed.

Lemma flat_map_commitmentsOf (key : string) (l : list ClaimWithRelations.t) :
  length (List.filter (givenBy key) (flat_map commitmentsOf l))
  = length (flat_map (givingOf key) l)
  /\ length (List.filter (receivedBy key) (flat_map commitmentsOf l))
     = length (flat_map (receivingOf key) l).
Proof.
  induction l as [|c l [IHg IHr]]; simpl; [done|].
  rewrite !List.filter_app, !length_app, IHg, IHr.
  by destruct (commitmentsOf_givingOf key c) as [-> ->].
Qed.

Lemma flat_map_filter_skip {A B} (f : A -> list B) (q : A -> bool) (l : list A) :
  (forall a, a ∈ l -> q a = false -> f a = []) ->
  flat_map f (List.filter q l) = flat_map f l.
Proof.
  induction l as [|a l IH]; simpl; intros Hskip; [done|].
  destruct (q a) eqn:Hq; simpl.
  - rewrite IH; [done|]. intros b Hb. apply Hskip. by right.
  - rewrite (Hskip a) by (done || by left). simpl. apply IH.
    intros b Hb. apply Hskip. by right.
Qed.

(** The claims that the member's query leaves out give the member nothing. *)
Lemma outside_memberWhere (roomId key : string) (c : ClaimWithRelations.t) :
  relationsMatchKeys c ->
  Claim.roomId (ClaimWithRelations.row c) = roomId ->
  Claim.status (ClaimWithRelations.row c) = ClaimStatus.ACCEPTED ->
  memberWhere roomId key c = false ->
  givingOf key c = [] /\ receivingOf key c = [].
Proof.
  intros (Hclaimer & Hoffer & Hdesire) Hroom Hstatus. unfold memberWhere.
  rewrite !bool_decide_true by done. cbn [andb].
  intros Hnone. apply orb_false_iff in Hnone as [Hnone Hd].
  apply orb_false_iff in Hnone as [Hc Ho]. apply bool_decide_eq_false in Hc.
  unfold givingOf, receivingOf, authoredBy in *.
  destruct (ClaimWithRelations.offer c) as [o|];
    destruct (ClaimWithRelations.desire c) as [d|];
    rewrite ?(Hoffer _ eq_refl), ?(Hdesire _ eq_refl), ?Hclaimer, ?Ho, ?Hd;
    rewrite ?(bool_decide_false _ Hc); done.
Qed.

Lemma memberClaims_entries (roomId key : string) (db : Db) :
  (forall c, c ∈ claims db -> relationsMatchKeys c) ->
  length (flat_map (givingOf key) (memberClaims roomId key db))
  = length (flat_map (givingOf key) (acceptedClaimsOf roomId db))
  /\ length (flat_map (receivingOf key) (memberClaims roomId key db))
     = length (flat_map (receivingOf key) (acceptedClaimsOf roomId db)).
Proof.
  intros Hkeys. unfold memberClaims, orderByAsc.
  assert (Hfilter : List.filter (memberWhere roomId key) (claims db)
                    = List.filter (memberWhere roomId key) (acceptedClaimsOf roomId db)).
  { unfold acceptedClaimsOf. symmetry. apply filter_filter_implied.
    intros c Hc. apply memberWhere_accepted in Hc as [Hr Hs].
    unfold acceptedWhere. by rewrite !bool_decide_true. }
  assert (Hskip : forall c, c ∈ acceptedClaimsOf roomId db ->
                            memberWhere roomId key c = false ->
                            givingOf key c = [] /\ receivingOf key c = []).
  { intros c Hc Hw. apply in_acceptedClaimsOf in Hc as (Hin & Hr & Hs).
    by apply (outside_memberWhere roomId); [apply Hkeys|..]. }
  split.
  - rewrite (Permutation_length
               (Permutation_flat_map (givingOf key) (sort_Permutation _ _))).
    rewrite Hfilter. f_equal. apply flat_map_filter_skip.
    intros c Hc Hw. by destruct (Hskip c Hc Hw).
  - rewrite (Permutation_length
               (Permutation_flat_map (receivingOf key) (sort_Permutation _ _))).
    rewrite Hfilter. f_equal. apply flat_map_filter_skip.
    intros c Hc Hw. by destruct (Hskip c Hc Hw).
Qed.

(** X18: when the relations loaded with every claim are the rows its keys
    name, the host summary and the members' own exports agree: the giving
    count of a participant in the host summary is the number of entries in
    the giving list of that member's export, and likewise for receiving. *)
Theorem host_summary_agrees_with_member_exports (roomId : string) (db : Db) :
  (forall c, c ∈ claims db -> relationsMatchKeys c) ->
  let summary := fst (collectAllCommitments roomId db) in
  forall p, p ∈ HostSummaryData.participants summary ->
    let mine := fst (collectMemberCommitments roomId (ParticipantInfo.membershipId p) db) in
    ParticipantInfo.givingCount p = Z.of_nat (length (MemberCommitments.giving mine))
    /\ ParticipantInfo.receivingCount p
       = Z.of_nat (length (MemberCommitments.receiving mine)).
Proof.
  intros Hkeys summary p Hp mine. subst summary mine.
  rewrite collectMemberCommitments_eq.
  cbn [fst MemberCommitments.giving MemberCommitments.receiving].
  destruct (memberClaims_entries roomId (ParticipantInfo.membershipId p) db Hkeys)
    as [-> ->].
  destruct (flat_map_commitmentsOf (ParticipantInfo.membershipId p)
              (acceptedClaimsOf roomId db)) as [<- <-].
  revert Hp. unfold collectAllCommitments, room_findUnique, mbind, DbM_bind, mret, DbM_ret.
  destruct (List.find _ (rooms db)) as [r|] eqn:Hfind; cbn [fst].
  - apply find_some in Hfind as [_ Hid]. apply bool_decide_eq_true in Hid.
    unfold summarize. cbn [HostSummaryData.participants RoomWithRelations.claims
                           RoomWithRelations.memberships].
    rewrite Hid. fold (acceptedClaimsOf roomId db).
    intros Hp. apply list_elem_of_fmap in Hp as (m & -> & _).
    cbn [participantInfo ParticipantInfo.givingCount ParticipantInfo.receivingCount
         ParticipantInfo.membershipId].
    rewrite <- tally_commitments. apply tally_counts.
  - intros Hp. by apply elem_of_nil in Hp.
Qed.

Lemma sumOf_add {A} (f g : A -> Z) (l : list A) :
  sumOf (fun a => f a + g a) l = sumOf f l + sumOf g l.
Proof. induction l as [|a l IH]; simpl; [done|]. rewrite IH. lia. Qed.

Lemma sumOf_ext {A} (f g : A -> Z) (l : list A) :
  (forall a, f a = g a) -> sumOf f l = sumOf g l.
Proof. intros Hfg. induction l as [|a l IH]; simpl; [done|]. by rewrite Hfg, IH. Qed.

Lemma sumOf_map {A B} (h : A -> B) (f : B -> Z) (l : list A) :
  sumOf f (map h l) = sumOf (fun a => f (h a)) l.
Proof. induction l as [|a l IH]; simpl; [done|]. by rewrite IH. Qed.

(** Among distinct keys, exactly one is a given key of the list. *)
Lemma sumOf_indicator (key : string) (keys : list string) :
  NoDup keys ->
  sumOf (fun k => if bool_decide (key = k) then 1 else 0) keys
  = if bool_decide (key ∈ keys) then 1 else 0.
Proof.
  induction 1 as [|k keys Hk Hnd IH]; simpl; [done|]. rewrite IH.
  destruct (decide (key = k)) as [->|Hne].
  - rewrite bool_decide_true by done. rewrite (bool_decide_false (k ∈ keys)) by done.
    rewrite bool_decide_true; [done|]. by left.
  - rewrite bool_decide_false by done.
    destruct (decide (key ∈ keys)) as [Hin|Hnin].
    + rewrite !bool_decide_true; [done| |done]. by right.
    + rewrite !bool_decide_false; [done| |done].
      intros Hin. apply elem_of_cons in Hin as [?|?]; done.
Qed.

Lemma sumOf_filter_lengths {A} (owner : A -> string) (keys : list string) (l : list A) :
  NoDup keys ->
  (forall a, a ∈ l -> owner a ∈ keys) ->
  sumOf (fun k => Z.of_nat (length (List.filter (fun a => bool_decide (owner a = k)) l))) keys
  = Z.of_nat (length l).
Proof.
  intros Hnd. induction l as [|a l IH]; intros Hin.
  - simpl. clear. induction keys as [|k keys IH]; simpl; [done|]. by rewrite IH.
  - rewrite (sumOf_ext _
               (fun k => (if bool_decide (owner a = k) then 1 else 0)
                         + Z.of_nat (length (List.filter
                                               (fun a => bool_decide (owner a = k)) l)))).
    2:{ intros k. simpl. case_bool_decide; simpl; lia. }
    rewrite sumOf_add, sumOf_indicator by done.
    rewrite bool_decide_true by (apply Hin; by left).
    rewrite IH by (intros b Hb; apply Hin; by right).
    cbn [length]. lia.
Qed.

(** X26: when the participants of the host summary have distinct ids and
    every listed commitment names participants as giver and as receiver,
    the counts add up: the giving counts of all participants sum to the total
    number of commitments, and so do the receiving counts. *)
Theorem host_summary_counts_add_up (roomId : string) (db : Db) :
  let summary := fst (collectAllCommitments roomId db) in
  let participants := HostSummaryData.participants summary in
  let ids := map ParticipantInfo.membershipId participants in
  NoDup ids ->
  (forall info, info ∈ HostSummaryData.commitments summary ->
     CommitmentInfo.giverMembershipId info ∈ ids
     /\ CommitmentInfo.receiverMembershipId info ∈ ids) ->
  sumOf ParticipantInfo.givingCount participants
  = Stats.totalCommitments (HostSummaryData.stats summary)
  /\ sumOf ParticipantInfo.receivingCount participants
     = Stats.totalCommitments (HostSummaryData.stats summary).
Proof.
  intros summary participants ids. subst summary participants ids.
  unfold collectAllCommitments, room_findUnique, mbind, DbM_bind, mret, DbM_ret.
  destruct (List.find _ (rooms db)) as [r|]; cbn [fst]; [|done].
  unfold summarize.
  cbn [HostSummaryData.participants HostSummaryData.commitments HostSummaryData.stats
       Stats.totalCommitments].
  set (t := tally _). set (ms := List.filter _ (memberships db)).
  rewrite map_map. cbn [participantInfo ParticipantInfo.membershipId].
  intros Hnd Hin. rewrite !sumOf_map.
  cbn [participantInfo ParticipantInfo.givingCount ParticipantInfo.receivingCount].
  split.
  - rewrite (sumOf_ext _
               (fun m => Z.of_nat (length (List.filter (givenBy (MembershipWithUser.id m))
                                             (commitments t)))))
      by (intros m; apply tally_counts).
    rewrite <- (sumOf_map MembershipWithUser.id
                  (fun k => Z.of_nat (length (List.filter (givenBy k) (commitments t))))).
    apply (sumOf_filter_lengths CommitmentInfo.giverMembershipId); [done|].
    intros info Hinfo. by apply Hin.
  - rewrite (sumOf_ext _
               (fun m => Z.of_nat (length (List.filter (receivedBy (MembershipWithUser.id m))
                                             (commitments t)))))
      by (intros m; apply tally_counts).
    rewrite <- (sumOf_map MembershipWithUser.id
                  (fun k => Z.of_nat (length (List.filter (receivedBy k) (commitments t))))).
    apply (sumOf_filter_lengths CommitmentInfo.receiverMembershipId); [done|].
    intros info Hinfo. by apply Hin.
Qed.

End HostSummaryFacts.

Lemma host_summary_counts_add_up_witness :
  let summary := fst (ExportSummary.collectAllCommitments "room-1" Sample.dbBoth) in
  let participants := ExportSummary.HostSummaryData.participants summary in
  NoDup (map ExportSummary.ParticipantInfo.membershipId participants)
  /\ sumOf ExportSummary.ParticipantInfo.givingCount participants = 2
  /\ sumOf ExportSummary.ParticipantInfo.receivingCount participants = 2.
Proof.
  assert (Hnd : NoDup (map ExportSummary.ParticipantInfo.membershipId
                         (ExportSummary.HostSummaryData.participants
                            (fst (ExportSummary.collectAllCommitments "room-1"
                                    Sample.dbBoth))))).
  { exact sample_membership_ids. }
  split; [exact Hnd|].
  apply (host_summary_counts_add_up "room-1" Sample.dbBoth Hnd).
  intros info Hinfo.
  change (info ∈ [ExportSummary.commitmentInfo ItemKind.offer Sample.offerByHost
                    Sample.host Sample.guest Sample.claimBoth;
                  ExportSummary.commitmentInfo ItemKind.desire Sample.desireByHost
                    Sample.guest Sample.host Sample.claimBoth]) in Hinfo.
  apply elem_of_cons in Hinfo as [->|Hinfo];
    [|apply elem_of_cons in Hinfo as [->|Hinfo]; [|by apply elem_of_nil in Hinfo]].
  - split; [apply elem_of_cons; by left|apply elem_of_cons; right; apply elem_of_cons; by left].
  - split; [apply elem_of_cons; right; apply elem_of_cons; by left|apply elem_of_cons; by left].
Defined.

Lemma host_summary_counts_match_commitments_witness :
  let summary := fst (ExportSummary.collectAllCommitments "room-1" Sample.db) in
  let p := ExportSummary.ParticipantInfo.mk "membership-host" "Host" HOST None 1 0 in
  p ∈ ExportSummary.HostSummaryData.participants summary
  /\ 1 = Z.of_nat (length (List.filter (givenBy "membership-host")
                             (ExportSummary.HostSummaryData.commitments summary)))
  /\ 0 = Z.of_nat (length (List.filter (receivedBy "membership-host")
                             (ExportSummary.HostSummaryData.commitments summary))).
Proof.
  assert (Hp : ExportSummary.ParticipantInfo.mk "membership-host" "Host" HOST None 1 0
               ∈ ExportSummary.HostSummaryData.participants
                   (fst (ExportSummary.collectAllCommitments "room-1" Sample.db))).
  { apply elem_of_cons. left. reflexivity. }
  split; [exact Hp|].
  exact (host_summary_counts_match_commitments "room-1" Sample.db _ Hp).
Defined.

Lemma host_summary_agrees_with_member_exports_witness :
  (forall c, c ∈ ExportSummary.claims Sample.db -> Commitments.relationsMatchKeys c)
  /\ forall p,
       p ∈ ExportSummary.HostSummaryData.participants
             (fst (ExportSummary.collectAllCommitments "room-1" Sample.db)) ->
       ExportSummary.ParticipantInfo.givingCount p
       = Z.of_nat (length (ExportSummary.MemberCommitments.giving
                             (fst (ExportSummary.collectMemberCommitments "room-1"
                                     (ExportSummary.ParticipantInfo.membershipId p)
                                     Sample.db))))
       /\ ExportSummary.ParticipantInfo.receivingCount p
          = Z.of_nat (length (ExportSummary.MemberCommitments.receiving
                                (fst (ExportSummary.collectMemberCommitments "room-1"
                                        (ExportSummary.ParticipantInfo.membershipId p)
                                        Sample.db)))).
Proof.
  assert (Hkeys : forall c, c ∈ ExportSummary.claims Sample.db ->
                            Commitments.relationsMatchKeys c).
  { intros c Hc. repeat (apply elem_of_cons in Hc as [->|Hc]).
    - split; [done|]. split; by intros ? [= <-].
    - split; [done|]. split; by intros ? [= <-].
    - split; [done|]. split; by intros ? [=].
    - by apply elem_of_nil in Hc. }
  split; [exact Hkeys|].
  exact (host_summary_agrees_with_member_exports "room-1" Sample.db Hkeys).
Defined.

(** ** Ties and sorted input in the snapshot *)

Section SortStable.
Context {A : Type} (key : A -> Z) (cmp : A -> A -> Z).
Hypothesis cmp_key : forall a b, cmp a b = key a - key b.

Lemma sort_sorted (l : list A) :
  StronglySorted (keyLe key) l -> JS.sort cmp l = l.
Proof.
  induction 1 as [|a l Hl IH Ha]; simpl; [done|].
  rewrite IH. by apply (insert_head key).
Qed.

Lemma withKey_sorted (k : Z) (l : list A) : StronglySorted (keyLe key) (withKey key k l).
Proof.
  unfold withKey. induction l as [|a l IH]; simpl; [constructor|].
  destruct (Z.eqb_spec (key a) k) as [Ha|Ha]; [|done].
  constructor; [done|]. apply Forall_forall. intros b Hb.
  apply list_elem_of_In, filter_In in Hb as [_ Hb]. apply Z.eqb_eq in Hb.
  unfold keyLe. lia.
Qed.

Lemma sort_stable (k : Z) (l : list A) :
  withKey key k (JS.sort cmp l) = withKey key k l.
Proof.
  unfold withKey. rewrite (filter_sort key cmp cmp_key).
  apply sort_sorted, withKey_sorted.
Qed.
End SortStable.

Section SnapshotOrder.
Import RoomStatusData.
Variable toOfferSummary : Item.t -> ItemSummary.t.
Variable toDesireSummary : Item.t -> ItemSummary.t.
Variable toClaimSummary : Claim.t -> ClaimSummary.t.
Variable listActiveMemberships : string -> gmap string ActiveMembership.

Local Abbreviation snapshot :=
  (buildSnapshot toOfferSummary toDesireSummary toClaimSummary listActiveMemberships).

(** X19: the sort of the snapshot is stable: offers created at the same
    instant keep the order they had in the input, and so do desires and
    claims.  Together with the ascending order this fixes the order of the
    snapshot completely. *)
Theorem buildSnapshot_keeps_ties_in_order (input : RoomInput) :
  (exists rows,
      RoomSnapshot.offers (snapshot input) = map toOfferSummary rows
      /\ StronglySorted (keyLe Item.createdAt) rows
      /\ forall instant,
           withKey Item.createdAt instant rows
           = withKey Item.createdAt instant (offers input))
  /\ (exists rows,
      RoomSnapshot.desires (snapshot input) = map toDesireSummary rows
      /\ StronglySorted (keyLe Item.createdAt) rows
      /\ forall instant,
           withKey Item.createdAt instant rows
           = withKey Item.createdAt instant (desires input))
  /\ (exists rows,
      RoomSnapshot.claims (snapshot input) = map toClaimSummary rows
      /\ StronglySorted (keyLe Claim.createdAt) rows
      /\ forall instant,
           withKey Claim.createdAt instant rows
           = withKey Claim.createdAt instant (claims input)).
Proof.
  repeat split; eexists; (split; [reflexivity|]);
    (split; [by apply sort_StronglySorted|]); intros instant; by apply sort_stable.
Qed.

(** X20: lists that arrive in ascending order of creation pass through the
    snapshot unchanged. *)
Theorem buildSnapshot_keeps_sorted_input (input : RoomInput) :
  StronglySorted (keyLe Item.createdAt) (offers input) ->
  StronglySorted (keyLe Item.createdAt) (desires input) ->
  StronglySorted (keyLe Claim.createdAt) (claims input) ->
  RoomSnapshot.offers (snapshot input) = map toOfferSummary (offers input)
  /\ RoomSnapshot.desires (snapshot input) = map toDesireSummary (desires input)
  /\ RoomSnapshot.claims (snapshot input) = map toClaimSummary (claims input).
Proof.
  intros Ho Hd Hc. cbn [buildSnapshot RoomSnapshot.offers RoomSnapshot.desires
                        RoomSnapshot.claims].
  unfold mapOffers, mapDesires, mapClaims.
  rewrite (sort_sorted Item.createdAt (compareCreatedAt Item.createdAt)
             (fun _ _ => eq_refl) (offers input) Ho).
  rewrite (sort_sorted Item.createdAt (compareCreatedAt Item.createdAt)
             (fun _ _ => eq_refl) (desires input) Hd).
  by rewrite (sort_sorted Claim.createdAt (compareCreatedAt Claim.createdAt)
                (fun _ _ => eq_refl) (claims input) Hc).
Qed.

Lemma filter_nil_iff {A} (q : A -> bool) (l : list A) :
  Forall (fun a => q a = false) l -> List.filter q l = [].
Proof.
  induction 1 as [|a l Ha _ IH]; simpl; [done|]. by rewrite Ha.
Qed.

Lemma filter_all {A} (q : A -> bool) (l : list A) :
  Forall (fun a => q a = true) l -> List.filter q l = l.
Proof.
  induction 1 as [|a l Ha _ IH]; simpl; [done|]. by rewrite Ha, IH.
Qed.

Lemma sortMembers_idem (l : list RoomMember.t) :
  (length (List.filter isHost l) <= 1)%nat ->
  sortMembers (sortMembers l) = sortMembers l.
Proof.
  intros Hone. rewrite (sortMembers_hosts_first l Hone).
  set (hosts := List.filter isHost l).
  set (others := JS.sort compareJoinedAt (List.filter (fun m => negb (isHost m)) l)).
  assert (Hhosts : Forall (fun m => isHost m = true) hosts)
    by apply Forall_filter_pred.
  assert (Hothers : Forall (fun m => negb (isHost m) = true) others).
  { unfold others. rewrite sort_Permutation. apply Forall_filter_pred. }
  assert (Hfh : List.filter isHost (hosts ++ others) = hosts).
  { rewrite List.filter_app, (filter_all _ _ Hhosts), filter_nil_iff, app_nil_r; [done|].
    eapply Forall_impl; [exact Hothers|]. intros m Hm. by apply negb_true_iff. }
  assert (Hfo : List.filter (fun m => negb (isHost m)) (hosts ++ others) = others).
  { rewrite List.filter_app, (filter_all _ _ Hothers), filter_nil_iff; [done|].
    eapply Forall_impl; [exact Hhosts|]. intros m Hm. simpl. by rewrite Hm. }
  rewrite sortMembers_hosts_first by (by rewrite Hfh).
  rewrite Hfh, Hfo. f_equal.
  apply (sort_sorted RoomMember.joinedAt); [done|].
  by apply sort_StronglySorted.
Qed.

(** X21: the overview page sorts the members of the snapshot once more,
    with the comparator of the server; with at most one host that changes
    nothing: the page shows the members in the order of the snapshot. *)
Theorem visibleMembers_keeps_snapshot_order (input : RoomInput) :
  (length (List.filter
             (fun m => bool_decide (RoomMembership.role (MembershipWithUser.row m) = HOST))
             (memberships input)) <= 1)%nat ->
  RoomStatusPage.visibleMembers (RoomSnapshot.members (snapshot input))
  = RoomSnapshot.members (snapshot input).
Proof.
  intros Hone. cbn [buildSnapshot RoomSnapshot.members].
  apply sortMembers_idem. by rewrite filter_map_length.
Qed.

End SnapshotOrder.

Lemma buildSnapshot_keeps_sorted_input_witness :
  let input := Fixtures.sortedInput CONNECTIONS in
  let snapshot :=
    RoomStatusData.buildSnapshot Sample.toItemSummary Sample.toItemSummary
      Sample.toClaimSummary Sample.onlyHostActive input in
  StronglySorted (keyLe Item.createdAt) (RoomStatusData.offers input)
  /\ RoomSnapshot.offers snapshot
     = [Sample.toItemSummary Sample.offer1; Sample.toItemSummary Sample.offer2].
Proof.
  assert (Ho : StronglySorted (keyLe Item.createdAt)
                 (RoomStatusData.offers (Fixtures.sortedInput CONNECTIONS))).
  { repeat constructor. unfold keyLe. vm_compute. discriminate. }
  assert (Hd : StronglySorted (keyLe Item.createdAt)
                 (RoomStatusData.desires (Fixtures.sortedInput CONNECTIONS))).
  { repeat constructor. }
  assert (Hc : StronglySorted (keyLe Claim.createdAt)
                 (RoomStatusData.claims (Fixtures.sortedInput CONNECTIONS))).
  { constructor. }
  split; [exact Ho|].
  exact (proj1 (buildSnapshot_keeps_sorted_input Sample.toItemSummary Sample.toItemSummary
                  Sample.toClaimSummary Sample.onlyHostActive
                  (Fixtures.sortedInput CONNECTIONS) Ho Hd Hc)).
Defined.

Lemma visibleMembers_keeps_snapshot_order_witness :
  let input := Sample.input DESIRES in
  let members :=
    RoomSnapshot.members
      (RoomStatusData.buildSnapshot Sample.toItemSummary Sample.toItemSummary
         Sample.toClaimSummary Sample.onlyHostActive input) in
  (length (List.filter
             (fun m => bool_decide (RoomMembership.role (MembershipWithUser.row m) = HOST))
             (RoomStatusData.memberships input)) <= 1)%nat
  /\ RoomStatusPage.visibleMembers members = members.
Proof.
  split; [vm_compute; lia|].
  apply (visibleMembers_keeps_snapshot_order Sample.toItemSummary Sample.toItemSummary
           Sample.toClaimSummary Sample.onlyHostActive (Sample.input DESIRES)).
  vm_compute; lia.
Defined.

(** ** Names of members on the pages *)

(** X22: the overview page and the connections page give a member the same
    name, with one exception: a participant who has neither a nickname nor a
    display name is called Anonymous on the overview page and Participant on
    the connections page. *)
Theorem overview_and_connections_names (members : list RoomMember.t) (key : string) :
  let overview := RoomStatusPage.getMemberDisplayName members key in
  let connections := ConnectionsList.getMemberDisplayName members key in
  let nameless :=
    exists m,
      List.find (fun entry => bool_decide (RoomMember.membershipId entry = key)) members
      = Some m
      /\ RoomMember.role m ≠ HOST
      /\ JS.truthy (JS.trim <$> RoomMember.nickname m) = false
      /\ JS.truthy (JS.trim <$> RoomMember.displayName m) = false in
  (~ nameless /\ overview = connections)
  \/ (nameless /\ overview = "Anonymous" /\ connections = "Participant").
Proof.
  intros overview connections nameless. subst overview connections nameless.
  unfold RoomStatusPage.getMemberDisplayName, ConnectionsList.getMemberDisplayName.
  destruct (List.find _ members) as [m|] eqn:Hfind.
  2:{ left. split; [|done]. by intros (m & Hm & _). }
  destruct (JS.truthy (JS.trim <$> RoomMember.nickname m)) eqn:Hnick.
  { left. split; [|done]. intros (m' & [= <-] & _ & Hn & _). congruence. }
  destruct (JS.truthy (JS.trim <$> RoomMember.displayName m)) eqn:Hname.
  { left. split; [|done]. intros (m' & [= <-] & _ & _ & Hn). congruence. }
  destruct (decide (RoomMember.role m = HOST)) as [Hhost|Hhost].
  - left. split; [|done]. by intros (m' & [= <-] & Hr & _).
  - right. split; [|done]. by exists m.
Qed.

Example nameless_participant_names :
  let members :=
    [RoomMember.mk "membership-guest" "user-guest" None (Some "   ") PARTICIPANT 0 true
       None None] in
  RoomStatusPage.getMemberDisplayName members "membership-guest" = "Anonymous"
  /\ ConnectionsList.getMemberDisplayName members "membership-guest" = "Participant".
Proof. split; reflexivity. Qed.

(** ** File names of the exports *)

Section FilenameFacts.
Import Filename.

Lemma isLowerAlnum_not_dash (c : ascii) : isLowerAlnum c = true -> isDash c = false.
Proof.
  unfold isLowerAlnum, isDash. intros H.
  destruct (Nat.eqb_spec (nat_of_ascii c) 45) as [Heq|]; [|done].
  rewrite Heq in H. discriminate.
Qed.

Lemma isDash_eq (c : ascii) : isDash c = true <-> c = "-"%char.
Proof.
  unfold isDash. split.
  - intros H. apply Nat.eqb_eq in H.
    rewrite <- (ascii_nat_embedding c), H. reflexivity.
  - by intros ->.
Qed.

Lemma replaceRuns_head (c : ascii) (s : string) :
  isLowerAlnum c = true -> replaceRuns (String c s) = String c (replaceRuns s).
Proof. intros H. simpl. by rewrite H. Qed.

Lemma replaceRuns_dashSeparated (s : string) : dashSeparated (replaceRuns s) = true.
Proof.
  induction s as [|c s IH]; [done|].
  cbn [replaceRuns]. destruct (isLowerAlnum c) eqn:Hc.
  - cbn [dashSeparated]. rewrite Hc, (isLowerAlnum_not_dash c Hc), IH. done.
  - destruct s as [|c' s']; [done|].
    destruct (isLowerAlnum c') eqn:Hc'; [|exact IH].
    cbn [dashSeparated]. rewrite IH.
    rewrite (replaceRuns_head c' s' Hc'). cbn [startsWithDash].
    rewrite (isLowerAlnum_not_dash c' Hc'). done.
Qed.

Lemma dashSeparated_tail (c : ascii) (s : string) :
  dashSeparated (String c s) = true -> dashSeparated s = true.
Proof. cbn [dashSeparated]. intros H. by apply andb_true_iff in H as [_ H]. Qed.

Lemma stripLeadingDashes_ok (s : string) :
  dashSeparated s = true ->
  dashSeparated (stripLeadingDashes s) = true
  /\ startsWithDash (stripLeadingDashes s) = false.
Proof.
  induction s as [|c s IH]; [done|]. intros Hs. cbn [stripLeadingDashes].
  destruct (isDash c) eqn:Hc.
  - apply IH. by apply dashSeparated_tail in Hs.
  - split; [done|]. exact Hc.
Qed.

Lemma stripTrailingDashes_head (s : string) :
  startsWithDash (stripTrailingDashes s) = true -> startsWithDash s = true.
Proof.
  destruct s as [|c s]; [done|]. cbn [stripTrailingDashes].
  destruct (stripTrailingDashes s); [|done].
  destruct (isDash c) eqn:Hc; [done|]. cbn [startsWithDash]. by rewrite Hc.
Qed.

Lemma stripTrailingDashes_ok (s : string) :
  dashSeparated s = true -> dashSeparated (stripTrailingDashes s) = true.
Proof.
  induction s as [|c s IH]; [done|]. intros Hs.
  pose proof (dashSeparated_tail _ _ Hs) as Htail. specialize (IH Htail).
  cbn [dashSeparated] in Hs.
  apply andb_true_iff in Hs as [Hs _]. apply andb_true_iff in Hs as [Hclass Hpair].
  cbn [stripTrailingDashes].
  pose proof (stripTrailingDashes_head s) as Hhead.
  destruct (stripTrailingDashes s) as [|c' t] eqn:Ht.
  - destruct (isDash c) eqn:Hc; [done|]. cbn [dashSeparated startsWithDash].
    by rewrite Hc, Hclass.
  - cbn [dashSeparated]. rewrite Hclass. cbn [dashSeparated] in IH. rewrite IH.
    destruct (isDash c) eqn:Hc; [|done].
    destruct (startsWithDash (String c' t)) eqn:Hd; [|done].
    rewrite Hhead in Hpair by done. done.
Qed.

Lemma slice0_ok (n : nat) (s : string) :
  dashSeparated s = true ->
  dashSeparated (slice0 n s) = true
  /\ (startsWithDash (slice0 n s) = true -> startsWithDash s = true)
  /\ (String.length (slice0 n s) <= n)%nat.
Proof.
  unfold slice0. revert s. induction n as [|n IH]; intros s Hs.
  - destruct s; simpl; split_and!; (done || lia).
  - destruct s as [|c s]; [simpl; split_and!; (done || lia)|].
    cbn [substring]. destruct (IH s (dashSeparated_tail _ _ Hs)) as (Hd & Hh & Hl).
    split_and!; [|done|simpl; lia].
    cbn [dashSeparated] in *. rewrite Hd.
    apply andb_true_iff in Hs as [Hs _]. apply andb_true_iff in Hs as [Hclass Hpair].
    rewrite Hclass. destruct (isDash c); [|done].
    destruct (startsWithDash (substring 0 n s)) eqn:Hsd; [|done].
    rewrite Hh in Hpair by done. done.
Qed.

Lemma dashSeparated_chars (s : string) :
  dashSeparated s = true ->
  Forall (fun c => isLowerAlnum c = true \/ c = "-"%char) (list_ascii_of_string s).
Proof.
  induction s as [|c s IH]; [constructor|]. intros Hs.
  pose proof (dashSeparated_tail _ _ Hs) as Htail.
  cbn [dashSeparated] in Hs.
  apply andb_true_iff in Hs as [Hs _]. apply andb_true_iff in Hs as [Hclass _].
  simpl. constructor; [|by apply IH].
  apply orb_true_iff in Hclass as [Hc|Hc]; [by left|right; by apply isDash_eq].
Qed.

Lemma dashSeparated_get (s : string) (i : nat) :
  dashSeparated s = true ->
  String.get i s = Some "-"%char -> String.get (S i) s ≠ Some "-"%char.
Proof.
  revert i. induction s as [|c s IH]; [done|]. intros i Hs.
  pose proof (dashSeparated_tail _ _ Hs) as Htail.
  destruct i as [|i].
  - cbn [String.get]. intros [= ->].
    cbn [dashSeparated] in Hs.
    apply andb_true_iff in Hs as [Hs _]. apply andb_true_iff in Hs as [_ Hpair].
    destruct s as [|c' s]; [done|]. cbn [String.get]. intros [= ->]. done.
  - change (String.get (S i) (String c s)) with (String.get i s).
    change (String.get (S (S i)) (String c s)) with (String.get (S i) s).
    by apply IH.
Qed.

(** X23: the file name that [sanitizeForFilename] makes of any title holds
    only lower-case letters, digits and dashes, is at most 50 characters
    long, does not begin with a dash and has no two dashes in a row. *)
Theorem sanitizeForFilename_is_safe (toLowerCase : string -> string) (str : string) :
  let name := sanitizeForFilename toLowerCase str in
  Forall (fun c => isLowerAlnum c = true \/ c = "-"%char) (list_ascii_of_string name)
  /\ (String.length name <= 50)%nat
  /\ String.get 0 name ≠ Some "-"%char
  /\ (forall i, String.get i name = Some "-"%char -> String.get (S i) name ≠ Some "-"%char).
Proof.
  intros name. subst name. unfold sanitizeForFilename.
  set (runs := replaceRuns (toLowerCase str)).
  pose proof (replaceRuns_dashSeparated (toLowerCase str)) as Hruns.
  fold runs in Hruns.
  destruct (stripLeadingDashes_ok runs Hruns) as [Hlead Hhead].
  pose proof (stripTrailingDashes_ok _ Hlead) as Htrail.
  pose proof (stripTrailingDashes_head (stripLeadingDashes runs)) as Hhead'.
  destruct (slice0_ok 50 _ Htrail) as (Hslice & Hhead'' & Hlen).
  split_and!.
  - by apply dashSeparated_chars.
  - exact Hlen.
  - intros Hget.
    assert (startsWithDash
              (slice0 50 (stripTrailingDashes (stripLeadingDashes runs))) = true) as Hd.
    { destruct (slice0 50 _) as [|c s]; [done|]. simpl in Hget. by injection Hget as ->. }
    apply Hhead'', Hhead' in Hd. by rewrite Hhead in Hd.
  - intros i. by apply dashSeparated_get.
Qed.

Example sanitizeForFilename_samples :
  sanitizeForFilename JSString.toLowerCaseLatin1 "Gift Circle" = "gift-circle"
  /\ sanitizeForFilename JSString.toLowerCaseLatin1 "  Spring Fair: Offers & Wishes!  "
     = "spring-fair-offers-wishes"
  /\ sanitizeForFilename JSString.toLowerCaseLatin1 "!!!" = "".
Proof. repeat split; reflexivity. Qed.

End FilenameFacts.

(** ** The export of the host *)

Section ExportAllFacts.
Import ExportSummary ExportAllRoute.
Variable isValidRoomCode : string -> bool.
Variable normalizeRoomCode : string -> string.
Variable toLowerCase : string -> string.
Variable renderHostSummaryMarkdown : string -> HostSummaryData.t -> Z -> string.
Variable renderHostSummaryPdf : string -> HostSummaryData.t -> Z -> option (list Byte.byte).

Local Abbreviation handle :=
  (GET isValidRoomCode normalizeRoomCode toLowerCase renderHostSummaryMarkdown
     renderHostSummaryPdf).

(** X24: the export of the whole room is served only to a member of the
    room whose role is host, and only in the Decisions or Summary round; the
    attachment is then named after the sanitized title of the room.  A member
    who is not the host is refused with 403 in every round.  The handler
    never writes to the database. *)
Theorem export_all_only_for_host (request : Request) (db : Db) :
  let response := fst (handle request db) in
  let valid := JS.truthy (Some (code request)) && isValidRoomCode (code request) in
  let found := fst (room_findUnique (normalizeRoomCode (code request)) db) in
  let member room :=
    fst (roomMembership_findUnique (Room.id room) (identityUserId request) db) in
  snd (handle request db) = db
  /\ (status response = 200 ->
      exists room membership,
        valid = true
        /\ found = Some room
        /\ member room = Some membership
        /\ RoomMembership.role (MembershipWithUser.row membership) = HOST
        /\ (Room.currentRound room = DECISIONS \/ Room.currentRound room = SUMMARY)
        /\ exists extension,
             (extension = "md" \/ extension = "pdf")
             /\ contentDisposition response
                = Some (attachment
                          (Filename.sanitizeForFilename toLowerCase
                             (if JS.truthy (Room.title room)
                              then default "" (Room.title room) else "Gift Circle"))
                          extension))
  /\ (forall room membership,
        valid = true ->
        found = Some room ->
        member room = Some membership ->
        RoomMembership.role (MembershipWithUser.row membership) ≠ HOST ->
        status response = 403).
Proof.
  intros response valid found member. subst response valid found member.
  unfold GET, mbind, DbM_bind, mret, DbM_ret, room_findUnique, roomMembership_findUnique.
  cbn [fst snd].
  destruct (JS.truthy (Some (code request))) eqn:Ht;
    destruct (isValidRoomCode (code request)) eqn:Hv; cbn [negb orb andb fst snd];
    try (split_and!; by intros).
  destruct (List.find _ (rooms db)) as [room|] eqn:Hroom; cbn [fst snd];
    [|split_and!; by intros].
  destruct (List.find _ (memberships db)) as [membership|] eqn:Hmember; cbn [fst snd];
    [|split_and!; by intros].
  case_bool_decide as Hrole; cbn [fst snd].
  { split_and!; try done; by intros ? ? _ [= <-] Hm0 Hnot; cbn [fst] in Hm0; rewrite Hmember in Hm0; injection Hm0 as <-. }
  destruct (bool_decide (Room.currentRound room ≠ DECISIONS)
            && bool_decide (Room.currentRound room ≠ SUMMARY)) eqn:Hround;
    cbn [fst snd].
  { split_and!; try done; by intros ? ? _ [= <-] Hm0 Hnot; cbn [fst] in Hm0; rewrite Hmember in Hm0; injection Hm0 as <-. }
  assert (Hr : Room.currentRound room = DECISIONS \/ Room.currentRound room = SUMMARY).
  { apply andb_false_iff in Hround as [H|H]; apply bool_decide_eq_false in H;
      apply dec_stable in H; [by left|by right]. }
  pose proof (collectAllCommitments_db (Room.id room) db) as Hdb.
  destruct (collectAllCommitments (Room.id room) db) as [allData db'].
  cbn [snd] in Hdb. subst db'.
  destruct (_ || _) eqn:Hformat; cbn [fst snd status contentDisposition].
  { split_and!; try done.
    - intros _. exists room, membership. split_and!; try done. exists "md". by split; [left|].
    - by intros ? ? _ [= <-] Hm0 Hnot; cbn [fst] in Hm0; rewrite Hmember in Hm0; injection Hm0 as <-. }
  destruct (renderHostSummaryPdf _ allData (now request)) as [pdf|];
    cbn [fst snd status contentDisposition].
  - split_and!; try done.
    + intros _. exists room, membership. split_and!; try done. exists "pdf". by split; [right|].
    + by intros ? ? _ [= <-] Hm0 Hnot; cbn [fst] in Hm0; rewrite Hmember in Hm0; injection Hm0 as <-.
  - split_and!; try done; by intros ? ? _ [= <-] Hm0 Hnot; cbn [fst] in Hm0; rewrite Hmember in Hm0; injection Hm0 as <-.
Qed.

End ExportAllFacts.

Lemma export_all_only_for_host_witness :
  let request := ExportAllRoute.mkRequest "vow-empowerment" (Some "md") "user-host" Sample.now in
  let response :=
    fst (ExportAllRoute.GET (fun _ => true) (fun code => code)
           JSString.toLowerCaseLatin1 (fun title _ _ => title) (fun _ _ _ => None) request Sample.db) in
  ExportAllRoute.status response = 200
  /\ exists room membership,
       fst (ExportAllRoute.room_findUnique "vow-empowerment" Sample.db) = Some room
       /\ fst (ExportAllRoute.roomMembership_findUnique (Room.id room) "user-host" Sample.db)
          = Some membership
       /\ RoomMembership.role (MembershipWithUser.row membership) = HOST
       /\ (Room.currentRound room = DECISIONS \/ Room.currentRound room = SUMMARY).
Proof.
  split; [reflexivity|].
  destruct (export_all_only_for_host (fun _ => true) (fun code => code)
              JSString.toLowerCaseLatin1 (fun title _ _ => title) (fun _ _ _ => None)
              (ExportAllRoute.mkRequest "vow-empowerment" (Some "md") "user-host" Sample.now)
              Sample.db) as (_ & Hok & _).
  destruct (Hok eq_refl) as (room & membership & _ & Hroom & Hmember & Hrole & Hround & _).
  exists room, membership. split; [exact Hroom|]. split; [exact Hmember|].
  split; [exact Hrole|exact Hround].
Defined.

(** ** The decisions page *)

Section DecisionsFacts.
Import DecisionsPage.

(** The entries of a list of targets: the items of the viewer that have a
    bid that was not withdrawn, each with those bids. *)
Lemma in_targets (me : string) (fk : ClaimSummary.t -> option string)
    (items : list ItemSummary.t) (roomClaims : list ClaimSummary.t) (entry : Target) :
  entry ∈ List.filter (fun entry => Z.of_nat (length (claims entry)) >? 0)
            (map
               (fun it =>
                  {| item := it;
                     claims :=
                       JS.sort compareCreatedAt
                         (List.filter
                            (fun claim =>
                               bool_decide (fk claim = Some (ItemSummary.id it))
                               && bool_decide (ClaimSummary.status claim
                                               ≠ ClaimStatus.WITHDRAWN))
                            roomClaims) |})
               (List.filter
                  (fun it => bool_decide (Some (ItemSummary.authorMembershipId it) = Some me))
                  items))
  <-> item entry ∈ items
      /\ ItemSummary.authorMembershipId (item entry) = me
      /\ claims entry ≠ []
      /\ claims entry
         = JS.sort compareCreatedAt
             (List.filter
                (fun claim =>
                   bool_decide (fk claim = Some (ItemSummary.id (item entry)))
                   && bool_decide (ClaimSummary.status claim ≠ ClaimStatus.WITHDRAWN))
                roomClaims).
Proof.
  rewrite list_elem_of_In, filter_In, <- list_elem_of_In, list_elem_of_fmap. split.
  - intros [(it & -> & Hit) Hlen]. cbn [item claims] in *.
    apply list_elem_of_In, filter_In in Hit as [Hit Hme].
    apply bool_decide_eq_true in Hme. injection Hme as Hme.
    split_and!; try done; [by apply list_elem_of_In|].
    intros Hnil. rewrite Hnil in Hlen. done.
  - intros (Hit & Hme & Hne & Hclaims). split.
    + exists (item entry). split.
      * destruct entry as [it cs]. cbn [item claims] in *. by rewrite Hclaims.
      * apply list_elem_of_In, filter_In. split; [by apply list_elem_of_In|].
        apply bool_decide_eq_true. by rewrite Hme.
    + destruct (claims entry); [done|]. apply Z.gtb_lt. cbn [length]. lia.
Qed.

Lemma in_target_claims (fk : ClaimSummary.t -> option string) (it : ItemSummary.t)
    (roomClaims : list ClaimSummary.t) (c : ClaimSummary.t) :
  c ∈ JS.sort compareCreatedAt
        (List.filter
           (fun claim =>
              bool_decide (fk claim = Some (ItemSummary.id it))
              && bool_decide (ClaimSummary.status claim ≠ ClaimStatus.WITHDRAWN))
           roomClaims)
  <-> c ∈ roomClaims /\ fk c = Some (ItemSummary.id it)
      /\ ClaimSummary.status c ≠ ClaimStatus.WITHDRAWN.
Proof.
  rewrite sort_Permutation, list_elem_of_In, filter_In, <- list_elem_of_In.
  rewrite andb_true_iff, !bool_decide_eq_true. done.
Qed.

Lemma authoredByViewer_spec (me : string) (items : list ItemSummary.t) (id : string) :
  NoDup (map ItemSummary.id items) ->
  authoredByViewer (Some me) items id = true
  <-> exists it, it ∈ items /\ ItemSummary.id it = id
                 /\ ItemSummary.authorMembershipId it = me.
Proof.
  intros Hnd. unfold authoredByViewer.
  destruct (List.find _ items) as [it|] eqn:Hfind.
  - apply find_some in Hfind as [Hin Hid].
    apply list_elem_of_In in Hin. apply bool_decide_eq_true in Hid.
    rewrite bool_decide_eq_true. split.
    + intros [= Hme]. by exists it.
    + intros (it' & Hin' & Hid' & Hme).
      assert (it' = it) as ->; [|by rewrite Hme].
      apply (same_key_same_row ItemSummary.id items); try done. congruence.
  - split; [done|]. intros (it & Hin & Hid & _).
    eapply find_none in Hfind; [|by apply list_elem_of_In].
    by apply bool_decide_eq_false in Hfind.
Qed.

(** A pending bid is listed under an item of the viewer exactly when the
    item it names is the viewer's. *)
Lemma listed_iff (me : string) (fk : ClaimSummary.t -> option string)
    (items : list ItemSummary.t) (roomClaims : list ClaimSummary.t) (c : ClaimSummary.t) :
  NoDup (map ItemSummary.id items) ->
  (forall it, it ∈ items -> ItemSummary.id it ≠ "") ->
  c ∈ roomClaims ->
  ClaimSummary.status c = ClaimStatus.PENDING ->
  JS.truthy (fk c) && authoredByViewer (Some me) items (default "" (fk c)) = true
  <-> exists entry,
        entry ∈ List.filter (fun entry => Z.of_nat (length (claims entry)) >? 0)
                  (map
                     (fun it =>
                        {| item := it;
                           claims :=
                             JS.sort compareCreatedAt
                               (List.filter
                                  (fun claim =>
                                     bool_decide (fk claim = Some (ItemSummary.id it))
                                     && bool_decide (ClaimSummary.status claim
                                                     ≠ ClaimStatus.WITHDRAWN))
                                  roomClaims) |})
                     (List.filter
                        (fun it =>
                           bool_decide (Some (ItemSummary.authorMembershipId it) = Some me))
                        items))
        /\ c ∈ claims entry.
Proof.
  intros Hnd Hids Hc Hpending.
  rewrite andb_true_iff, (authoredByViewer_spec me items _ Hnd). split.
  - intros [Htruthy (it & Hit & Hid & Hme)].
    destruct (fk c) as [key|] eqn:Hfk; [|done]. simpl in Hid. subst key.
    assert (Hin : c ∈ JS.sort compareCreatedAt
                        (List.filter
                           (fun claim =>
                              bool_decide (fk claim = Some (ItemSummary.id it))
                              && bool_decide (ClaimSummary.status claim
                                              ≠ ClaimStatus.WITHDRAWN))
                           roomClaims)).
    { apply in_target_claims. split_and!; try done. by rewrite Hpending. }
    eexists {| item := it; claims := _ |}. split; [|exact Hin].
    apply in_targets. cbn [item claims]. split_and!; try done.
    intros Hnil. rewrite Hnil in Hin. by apply elem_of_nil in Hin.
  - intros (entry & Hentry & Hin).
    apply in_targets in Hentry as (Hit & Hme & _ & Hclaims).
    rewrite Hclaims in Hin. apply in_target_claims in Hin as (_ & Hfk & _).
    rewrite Hfk. simpl. split.
    + apply negb_true_iff, String.eqb_neq. by apply Hids.
    + by exists (item entry).
Qed.

(** X25: for a joined member, in a room whose offers and desires have
    distinct, non-empty ids, the bids counted as pending decisions are the
    pending bids listed under the member's offers and desires; the count is
    zero exactly when no listed bid is pending. *)
Theorem pending_decisions_are_the_listed_pending_bids (me : string)
    (room : RoomSnapshot.t) :
  me ≠ "" ->
  NoDup (map ItemSummary.id (RoomSnapshot.offers room)) ->
  NoDup (map ItemSummary.id (RoomSnapshot.desires room)) ->
  (forall it, it ∈ RoomSnapshot.offers room ++ RoomSnapshot.desires room ->
              ItemSummary.id it ≠ "") ->
  let targets := offerTargets (Some me) room ++ desireTargets (Some me) room in
  (forall c, c ∈ RoomSnapshot.claims room ->
     (awaitsDecision (Some me) room c = true
      <-> ClaimSummary.status c = ClaimStatus.PENDING
          /\ exists entry, entry ∈ targets /\ c ∈ claims entry))
  /\ (pendingDecisionCount (Some me) room = 0
      <-> forall entry c, entry ∈ targets -> c ∈ claims entry ->
                          ClaimSummary.status c ≠ ClaimStatus.PENDING).
Proof.
  intros Hme Hoffers Hdesires Hids targets.
  assert (Htruthy : JS.truthy (Some me) = true).
  { cbn [JS.truthy]. by apply negb_true_iff, String.eqb_neq. }
  assert (Hcounted : forall c, c ∈ RoomSnapshot.claims room ->
            (awaitsDecision (Some me) room c = true
             <-> ClaimSummary.status c = ClaimStatus.PENDING
                 /\ exists entry, entry ∈ targets /\ c ∈ claims entry)).
  { intros c Hc. subst targets. unfold awaitsDecision, offerTargets, desireTargets.
    rewrite Htruthy. cbn [negb].
    case_bool_decide as Hstatus; [split; [done|by intros [? _]]|].
    rewrite orb_true_iff.
    rewrite (listed_iff me ClaimSummary.offerId (RoomSnapshot.offers room)
               (RoomSnapshot.claims room) c Hoffers) by
      (done || (intros it Hit; apply Hids, elem_of_app; by left)).
    rewrite (listed_iff me ClaimSummary.desireId (RoomSnapshot.desires room)
               (RoomSnapshot.claims room) c Hdesires) by
      (done || (intros it Hit; apply Hids, elem_of_app; by right)).
    split.
    - intros [(entry & He & Hin)|(entry & He & Hin)]; (split; [done|]);
        exists entry; (split; [|done]); apply elem_of_app; [by left|by right].
    - intros [_ (entry & He & Hin)]. apply elem_of_app in He as [He|He];
        [left|right]; by exists entry. }
  split; [exact Hcounted|].
  assert (Hsub : forall entry c, entry ∈ targets -> c ∈ claims entry ->
                                 c ∈ RoomSnapshot.claims room).
  { intros entry c He Hin. subst targets. unfold offerTargets, desireTargets in He.
    rewrite Htruthy in He. cbn [negb] in He.
    apply elem_of_app in He as [He|He]; apply in_targets in He as (_ & _ & _ & Hclaims);
      rewrite Hclaims in Hin; by apply in_target_claims in Hin as (Hin & _ & _). }
  unfold pendingDecisionCount. split.
  - intros Hzero entry c He Hin Hpending.
    assert (Hc : c ∈ RoomSnapshot.claims room) by by apply (Hsub entry).
    assert (Hin' : c ∈ List.filter (awaitsDecision (Some me) room) (RoomSnapshot.claims room)).
    { apply list_elem_of_In, filter_In. split; [by apply list_elem_of_In|].
      apply Hcounted; [done|]. split; [done|]. by exists entry. }
    destruct (List.filter _ _); [by apply elem_of_nil in Hin'|]. cbn [length] in Hzero. lia.
  - intros Hnone.
    destruct (List.filter _ _) as [|c rest] eqn:Hfilter; [done|].
    assert (Hin : c ∈ List.filter (awaitsDecision (Some me) room) (RoomSnapshot.claims room)).
    { rewrite Hfilter. by left. }
    apply list_elem_of_In, filter_In in Hin as [Hin Hcount].
    apply list_elem_of_In in Hin.
    apply Hcounted in Hcount as [Hpending (entry & He & Hce)]; [|done].
    by destruct (Hnone entry c He Hce).
Qed.

End DecisionsFacts.

Local Ltac distinct_strings :=
  repeat (apply NoDup_cons; split;
          [let H := fresh in
           intros H;
           repeat (apply elem_of_cons in H as [H|H]; [discriminate|]);
           by apply elem_of_nil in H|]);
  apply NoDup_nil_2.

Lemma pending_decisions_are_the_listed_pending_bids_witness :
  let room := Fixtures.decisionsRoom in
  let c := Sample.toClaimSummary Fixtures.claimPending in
  let targets :=
    DecisionsPage.offerTargets (Some "membership-host") room
    ++ DecisionsPage.desireTargets (Some "membership-host") room in
  (NoDup (map ItemSummary.id (RoomSnapshot.offers room))
   /\ NoDup (map ItemSummary.id (RoomSnapshot.desires room))
   /\ c ∈ RoomSnapshot.claims room
   /\ DecisionsPage.awaitsDecision (Some "membership-host") room c = true)
  /\ ClaimSummary.status c = ClaimStatus.PENDING
  /\ exists entry, entry ∈ targets /\ c ∈ DecisionsPage.claims entry.
Proof.
  assert (Hoffers : NoDup (map ItemSummary.id (RoomSnapshot.offers Fixtures.decisionsRoom))).
  { change (NoDup ["offer-1"; "offer-2"]). distinct_strings. }
  assert (Hdesires : NoDup (map ItemSummary.id (RoomSnapshot.desires Fixtures.decisionsRoom))).
  { change (NoDup ["desire-1"]). distinct_strings. }
  assert (Hids : forall it,
             it ∈ RoomSnapshot.offers Fixtures.decisionsRoom
                  ++ RoomSnapshot.desires Fixtures.decisionsRoom ->
             ItemSummary.id it ≠ "").
  { intros it Hit.
    change (it ∈ [Sample.toItemSummary Sample.offer1; Sample.toItemSummary Sample.offer2;
                  Sample.toItemSummary Sample.desire1]) in Hit.
    repeat (apply elem_of_cons in Hit as [->|Hit]; [discriminate|]).
    by apply elem_of_nil in Hit. }
  assert (Hc : Sample.toClaimSummary Fixtures.claimPending
               ∈ RoomSnapshot.claims Fixtures.decisionsRoom).
  { change (Sample.toClaimSummary Fixtures.claimPending
            ∈ [Sample.toClaimSummary
                 (ExportSummary.ClaimWithRelations.row Sample.claimDeclined);
               Sample.toClaimSummary Fixtures.claimPending]).
    apply elem_of_cons. right. apply elem_of_cons. by left. }
  split; [split_and!; try done|].
  destruct (pending_decisions_are_the_listed_pending_bids "membership-host"
              Fixtures.decisionsRoom ltac:(discriminate) Hoffers Hdesires Hids)
    as [Hcounted _].
  apply (Hcounted _ Hc). reflexivity.
Defined.
